(** * A shallow embedding of the virtual GICv2 distributor of libsel4vm

    Sources embedded here:
    - [libsel4vm/src/arch/arm/vgic/virq.h]: the handler tables, the list
      register shadow and the per-vCPU overflow ring;
    - [libsel4vm/src/arch/arm/vgic/vdist.h]: the distributor shadow, its bit
      accessors, the semantic operations and the two MMIO fault handlers.

    Conventions.
    - A [uint32_t] is a [Z] with the wrap-around written out ([u32]); an
      [int] or [size_t] is a [Z].
    - A C array is a [list]; an index is a [Z].  C leaves an access outside
      the bounds undefined: here such a read yields the default (0 or NULL)
      and such a write is dropped ([arr_get], [arr_set]).
    - A nullable pointer to a handler is an [option virq_handle]; handlers
      are immutable once [virq_init] has filled them.
    - The code runs in a state-and-abort monad [M]: the state is the
      distributor shadow, the [vgic_t] tables and the log of calls made to
      the outside world; [None] is a failed [assert].
    - What the outside world answers (the hypercall, the fault object, the
      on-line status of a vCPU) is an [env] handed to every entry point. *)

From Stdlib Require Import ZArith List Lia Bool.
From stdpp Require Import base list.

Local Open Scope Z_scope.

(** ** Machine words and C arrays *)

Definition u32 (x : Z) : Z := x mod 2 ^ 32.
Definition u16 (x : Z) : Z := x mod 2 ^ 16.

(** [~x] on a [uint32_t]. *)
Definition not32 (x : Z) : Z := u32 (Z.lnot x).

(** [a[i]] as an rvalue. *)
Definition arr_get {A : Type} (d : A) (a : list A) (i : Z) : A :=
  if i <? 0 then d else default d (a !! Z.to_nat i).

(** [a[i] = v]. *)
Definition arr_set {A : Type} (a : list A) (i : Z) (v : A) : list A :=
  if i <? 0 then a else <[Z.to_nat i := v]> a.

(** [CTZ(x)], the index of the lowest set bit of a non-zero word (the
    compiler's count-trailing-zeros; the macro is not part of the two
    sources). *)
Fixpoint ctz_pos (p : positive) : Z :=
  match p with
  | xO q => Z.succ (ctz_pos q)
  | _ => 0
  end.

Definition CTZ (x : Z) : Z :=
  match x with
  | Zpos p => ctz_pos p
  | _ => 0
  end.

(** ** virq.h: constants and data *)

Definition MAX_VIRQS : Z := 200.
Definition NUM_SGI_VIRQS : Z := 16.
Definition NUM_PPI_VIRQS : Z := 16.
Definition GIC_SPI_IRQ_MIN : Z := NUM_SGI_VIRQS + NUM_PPI_VIRQS.
Definition NUM_LIST_REGS : Z := 4.
Definition MAX_IRQ_QUEUE_LEN : Z := 64.
Definition IRQ_QUEUE_NEXT (i : Z) : Z := Z.land (i + 1) (MAX_IRQ_QUEUE_LEN - 1).

(** [struct virq_handle]; the callback [ack] and the opaque [token] are
    kept as identifiers, a call of the callback is an [EvAck] in the log. *)
Record virq_handle : Type := mk_virq_handle {
  virq : Z;
  ack : Z;
  token : Z
}.

(** [struct irq_queue] *)
Record irq_queue_t : Type := mk_irq_queue {
  irqs : list (option virq_handle);
  head : Z;
  tail : Z
}.

(** [struct vgic]; the distributor image behind [registers] is the
    [st_dist] component of the state below. *)
Record vgic_t : Type := mk_vgic {
  lr_shadow : list (list (option virq_handle));
  irq_queue : list irq_queue_t;
  sgi_ppi_irq : list (list (option virq_handle));
  virqs : list (option virq_handle)
}.

(** Modelled from the spec: the VM and vCPU objects of [vm.h], which is not
    among the sources.  Only [vcpu->vcpu_id], [vcpu->vm->num_vcpus] and
    [vcpu->vm->vcpus[i]] are used; the i-th vCPU of a VM has id [i]. *)
Record vm_t : Type := mk_vm { num_vcpus : Z }.
Record vm_vcpu_t : Type := mk_vcpu { vcpu_id : Z; vm : vm_t }.
Definition vcpus (m : vm_t) (i : Z) : vm_vcpu_t := mk_vcpu i m.

(** ** The distributor shadow *)

(** Modelled from the spec: [struct gic_dist_map], whose declaration is not
    among the sources.  The fields are the ones the two handlers touch;
    [spi] stands for the words at 0xD00..0xDE7 and [periph_id] for the words
    at 0xFC0..0xFFF, which the read handler loads through a raw pointer. *)
Record gic_dist_map : Type := mk_gic_dist {
  enable : Z;
  ic_type : Z;
  dist_ident : Z;
  irq_group0 : list Z;
  irq_group : list Z;
  enable_set0 : list Z;
  enable_set : list Z;
  enable_clr0 : list Z;
  enable_clr : list Z;
  pending_set0 : list Z;
  pending_set : list Z;
  pending_clr0 : list Z;
  pending_clr : list Z;
  active0 : list Z;
  active : list Z;
  active_clr0 : list Z;
  active_clr : list Z;
  priority0 : list (list Z);
  priority : list Z;
  targets0 : list (list Z);
  targets : list Z;
  config : list Z;
  spi : list Z;
  sgi_control : Z;
  sgi_pending_clr : list (list Z);
  sgi_pending_set : list (list Z);
  periph_id : list Z
}.

(** Field updates, one per field that the code assigns. *)
Definition with_enable (v : Z) (d : gic_dist_map) : gic_dist_map :=
  mk_gic_dist v (ic_type d) (dist_ident d) (irq_group0 d) (irq_group d)
    (enable_set0 d) (enable_set d) (enable_clr0 d) (enable_clr d)
    (pending_set0 d) (pending_set d) (pending_clr0 d) (pending_clr d)
    (active0 d) (active d) (active_clr0 d) (active_clr d)
    (priority0 d) (priority d) (targets0 d) (targets d) (config d) (spi d)
    (sgi_control d) (sgi_pending_clr d) (sgi_pending_set d) (periph_id d).

Definition with_irq_group0 (v : list Z) (d : gic_dist_map) : gic_dist_map :=
  mk_gic_dist (enable d) (ic_type d) (dist_ident d) v (irq_group d)
    (enable_set0 d) (enable_set d) (enable_clr0 d) (enable_clr d)
    (pending_set0 d) (pending_set d) (pending_clr0 d) (pending_clr d)
    (active0 d) (active d) (active_clr0 d) (active_clr d)
    (priority0 d) (priority d) (targets0 d) (targets d) (config d) (spi d)
    (sgi_control d) (sgi_pending_clr d) (sgi_pending_set d) (periph_id d).

Definition with_irq_group (v : list Z) (d : gic_dist_map) : gic_dist_map :=
  mk_gic_dist (enable d) (ic_type d) (dist_ident d) (irq_group0 d) v
    (enable_set0 d) (enable_set d) (enable_clr0 d) (enable_clr d)
    (pending_set0 d) (pending_set d) (pending_clr0 d) (pending_clr d)
    (active0 d) (active d) (active_clr0 d) (active_clr d)
    (priority0 d) (priority d) (targets0 d) (targets d) (config d) (spi d)
    (sgi_control d) (sgi_pending_clr d) (sgi_pending_set d) (periph_id d).

Definition with_enable_set0 (v : list Z) (d : gic_dist_map) : gic_dist_map :=
  mk_gic_dist (enable d) (ic_type d) (dist_ident d) (irq_group0 d) (irq_group d)
    v (enable_set d) (enable_clr0 d) (enable_clr d)
    (pending_set0 d) (pending_set d) (pending_clr0 d) (pending_clr d)
    (active0 d) (active d) (active_clr0 d) (active_clr d)
    (priority0 d) (priority d) (targets0 d) (targets d) (config d) (spi d)
    (sgi_control d) (sgi_pending_clr d) (sgi_pending_set d) (periph_id d).

Definition with_enable_set (v : list Z) (d : gic_dist_map) : gic_dist_map :=
  mk_gic_dist (enable d) (ic_type d) (dist_ident d) (irq_group0 d) (irq_group d)
    (enable_set0 d) v (enable_clr0 d) (enable_clr d)
    (pending_set0 d) (pending_set d) (pending_clr0 d) (pending_clr d)
    (active0 d) (active d) (active_clr0 d) (active_clr d)
    (priority0 d) (priority d) (targets0 d) (targets d) (config d) (spi d)
    (sgi_control d) (sgi_pending_clr d) (sgi_pending_set d) (periph_id d).

Definition with_enable_clr0 (v : list Z) (d : gic_dist_map) : gic_dist_map :=
  mk_gic_dist (enable d) (ic_type d) (dist_ident d) (irq_group0 d) (irq_group d)
    (enable_set0 d) (enable_set d) v (enable_clr d)
    (pending_set0 d) (pending_set d) (pending_clr0 d) (pending_clr d)
    (active0 d) (active d) (active_clr0 d) (active_clr d)
    (priority0 d) (priority d) (targets0 d) (targets d) (config d) (spi d)
    (sgi_control d) (sgi_pending_clr d) (sgi_pending_set d) (periph_id d).

Definition with_enable_clr (v : list Z) (d : gic_dist_map) : gic_dist_map :=
  mk_gic_dist (enable d) (ic_type d) (dist_ident d) (irq_group0 d) (irq_group d)
    (enable_set0 d) (enable_set d) (enable_clr0 d) v
    (pending_set0 d) (pending_set d) (pending_clr0 d) (pending_clr d)
    (active0 d) (active d) (active_clr0 d) (active_clr d)
    (priority0 d) (priority d) (targets0 d) (targets d) (config d) (spi d)
    (sgi_control d) (sgi_pending_clr d) (sgi_pending_set d) (periph_id d).

Definition with_pending_set0 (v : list Z) (d : gic_dist_map) : gic_dist_map :=
  mk_gic_dist (enable d) (ic_type d) (dist_ident d) (irq_group0 d) (irq_group d)
    (enable_set0 d) (enable_set d) (enable_clr0 d) (enable_clr d)
    v (pending_set d) (pending_clr0 d) (pending_clr d)
    (active0 d) (active d) (active_clr0 d) (active_clr d)
    (priority0 d) (priority d) (targets0 d) (targets d) (config d) (spi d)
    (sgi_control d) (sgi_pending_clr d) (sgi_pending_set d) (periph_id d).

Definition with_pending_set (v : list Z) (d : gic_dist_map) : gic_dist_map :=
  mk_gic_dist (enable d) (ic_type d) (dist_ident d) (irq_group0 d) (irq_group d)
    (enable_set0 d) (enable_set d) (enable_clr0 d) (enable_clr d)
    (pending_set0 d) v (pending_clr0 d) (pending_clr d)
    (active0 d) (active d) (active_clr0 d) (active_clr d)
    (priority0 d) (priority d) (targets0 d) (targets d) (config d) (spi d)
    (sgi_control d) (sgi_pending_clr d) (sgi_pending_set d) (periph_id d).

Definition with_pending_clr0 (v : list Z) (d : gic_dist_map) : gic_dist_map :=
  mk_gic_dist (enable d) (ic_type d) (dist_ident d) (irq_group0 d) (irq_group d)
    (enable_set0 d) (enable_set d) (enable_clr0 d) (enable_clr d)
    (pending_set0 d) (pending_set d) v (pending_clr d)
    (active0 d) (active d) (active_clr0 d) (active_clr d)
    (priority0 d) (priority d) (targets0 d) (targets d) (config d) (spi d)
    (sgi_control d) (sgi_pending_clr d) (sgi_pending_set d) (periph_id d).

Definition with_pending_clr (v : list Z) (d : gic_dist_map) : gic_dist_map :=
  mk_gic_dist (enable d) (ic_type d) (dist_ident d) (irq_group0 d) (irq_group d)
    (enable_set0 d) (enable_set d) (enable_clr0 d) (enable_clr d)
    (pending_set0 d) (pending_set d) (pending_clr0 d) v
    (active0 d) (active d) (active_clr0 d) (active_clr d)
    (priority0 d) (priority d) (targets0 d) (targets d) (config d) (spi d)
    (sgi_control d) (sgi_pending_clr d) (sgi_pending_set d) (periph_id d).

Definition with_active0 (v : list Z) (d : gic_dist_map) : gic_dist_map :=
  mk_gic_dist (enable d) (ic_type d) (dist_ident d) (irq_group0 d) (irq_group d)
    (enable_set0 d) (enable_set d) (enable_clr0 d) (enable_clr d)
    (pending_set0 d) (pending_set d) (pending_clr0 d) (pending_clr d)
    v (active d) (active_clr0 d) (active_clr d)
    (priority0 d) (priority d) (targets0 d) (targets d) (config d) (spi d)
    (sgi_control d) (sgi_pending_clr d) (sgi_pending_set d) (periph_id d).

Definition with_active (v : list Z) (d : gic_dist_map) : gic_dist_map :=
  mk_gic_dist (enable d) (ic_type d) (dist_ident d) (irq_group0 d) (irq_group d)
    (enable_set0 d) (enable_set d) (enable_clr0 d) (enable_clr d)
    (pending_set0 d) (pending_set d) (pending_clr0 d) (pending_clr d)
    (active0 d) v (active_clr0 d) (active_clr d)
    (priority0 d) (priority d) (targets0 d) (targets d) (config d) (spi d)
    (sgi_control d) (sgi_pending_clr d) (sgi_pending_set d) (periph_id d).

Definition with_active_clr0 (v : list Z) (d : gic_dist_map) : gic_dist_map :=
  mk_gic_dist (enable d) (ic_type d) (dist_ident d) (irq_group0 d) (irq_group d)
    (enable_set0 d) (enable_set d) (enable_clr0 d) (enable_clr d)
    (pending_set0 d) (pending_set d) (pending_clr0 d) (pending_clr d)
    (active0 d) (active d) v (active_clr d)
    (priority0 d) (priority d) (targets0 d) (targets d) (config d) (spi d)
    (sgi_control d) (sgi_pending_clr d) (sgi_pending_set d) (periph_id d).

Definition with_active_clr (v : list Z) (d : gic_dist_map) : gic_dist_map :=
  mk_gic_dist (enable d) (ic_type d) (dist_ident d) (irq_group0 d) (irq_group d)
    (enable_set0 d) (enable_set d) (enable_clr0 d) (enable_clr d)
    (pending_set0 d) (pending_set d) (pending_clr0 d) (pending_clr d)
    (active0 d) (active d) (active_clr0 d) v
    (priority0 d) (priority d) (targets0 d) (targets d) (config d) (spi d)
    (sgi_control d) (sgi_pending_clr d) (sgi_pending_set d) (periph_id d).

(** ** The outside world *)

(** Calls that leave the two sources, in the order they are made. *)
Inductive event : Type :=
| EvAck (vcpu : Z) (irq : Z) (fn : Z) (tok : Z)
| EvLoadListReg (vcpu : Z) (idx : Z) (irq : Z)
| EvInjectIRQ (vcpu : Z) (irq : Z)
| EvFaultSetData (data : Z)
| EvAdvanceFault
| EvIgnoreFault.

(** What the collaborators answer. *)
Record env : Type := mk_env {
  is_vcpu_online : Z -> bool;
  load_list_reg_hw : Z -> Z -> Z -> Z;
  advance_fault_err : Z;
  ignore_fault_err : Z
}.

(** The fault object as the handlers query it. *)
Record fault_t : Type := mk_fault {
  fault_get_address : Z;
  fault_is_read : bool;
  fault_get_data : Z;
  fault_get_data_mask : Z
}.

(** [struct vgic_dist_device]: only the base address is used. *)
Record vgic_dist_device : Type := mk_dev { pstart : Z }.

Inductive memory_fault_result_t : Type :=
| FAULT_HANDLED
| FAULT_ERROR.

(** ** The monad *)

Record state : Type := mk_state {
  st_dist : gic_dist_map;
  st_vgic : vgic_t;
  st_log : list event
}.

Definition M (A : Type) : Type := state -> option (A * state).

Definition ret {A : Type} (a : A) : M A := fun s => Some (a, s).

Definition bind {A B : Type} (m : M A) (k : A -> M B) : M B :=
  fun s => match m s with
           | Some (a, s') => k a s'
           | None => None
           end.

Definition abort {A : Type} : M A := fun _ => None.

Notation "x <-- m ; k" := (bind m (fun x => k))
  (at level 20, m at level 100, k at level 200, only parsing).
Notation "m ;;; k" := (bind m (fun _ => k))
  (at level 100, k at level 200, only parsing, right associativity).

Definition c_assert (b : bool) : M unit := if b then ret tt else abort.

Definition get_dist : M gic_dist_map := fun s => Some (st_dist s, s).
Definition get_vgic : M vgic_t := fun s => Some (st_vgic s, s).

Definition modify_dist (f : gic_dist_map -> gic_dist_map) : M unit :=
  fun s => Some (tt, mk_state (f (st_dist s)) (st_vgic s) (st_log s)).

Definition modify_vgic (f : vgic_t -> vgic_t) : M unit :=
  fun s => Some (tt, mk_state (st_dist s) (f (st_vgic s)) (st_log s)).

Definition emit (e : event) : M unit :=
  fun s => Some (tt, mk_state (st_dist s) (st_vgic s) (st_log s ++ [e])).

(** Field updates of [vgic_t]. *)
Definition with_lr_shadow (v : list (list (option virq_handle))) (g : vgic_t) : vgic_t :=
  mk_vgic v (irq_queue g) (sgi_ppi_irq g) (virqs g).
Definition with_irq_queue (v : list irq_queue_t) (g : vgic_t) : vgic_t :=
  mk_vgic (lr_shadow g) v (sgi_ppi_irq g) (virqs g).
Definition with_sgi_ppi_irq (v : list (list (option virq_handle))) (g : vgic_t) : vgic_t :=
  mk_vgic (lr_shadow g) (irq_queue g) v (virqs g).
Definition with_virqs (v : list (option virq_handle)) (g : vgic_t) : vgic_t :=
  mk_vgic (lr_shadow g) (irq_queue g) (sgi_ppi_irq g) v.

(** The value read through a queue pointer that points past the array. *)
Definition no_queue : irq_queue_t := mk_irq_queue [] 0 0.

Section VGIC.

(** The kernel configuration constant; its value is not fixed by the two
    sources. *)
Variable CONFIG_MAX_NUM_NODES : Z.

(** ** virq.h: operations *)

Definition virq_ack (vcpu : vm_vcpu_t) (irq : virq_handle) : M unit :=
  emit (EvAck (vcpu_id vcpu) (virq irq) (ack irq) (token irq)).

Definition virq_get_sgi_ppi (vcpu : vm_vcpu_t) (v : Z) : M (option virq_handle) :=
  c_assert (vcpu_id vcpu <? CONFIG_MAX_NUM_NODES) ;;;
  vgic <-- get_vgic;
  ret (arr_get None (arr_get [] (sgi_ppi_irq vgic) (vcpu_id vcpu)) v).

(** [for (int i = 0; i < MAX_VIRQS; i++)] of [virq_find_spi_irq_data]:
    [n] iterations are left, the index is [i]. *)
Fixpoint virq_find_spi_loop (n : nat) (i : Z) (vgic : vgic_t) (v : Z)
  : option virq_handle :=
  match n with
  | O => None
  | S n' =>
      match arr_get None (virqs vgic) i with
      | Some h => if virq h =? v then Some h
                  else virq_find_spi_loop n' (i + 1) vgic v
      | None => virq_find_spi_loop n' (i + 1) vgic v
      end
  end.

Definition virq_find_spi_irq_data (v : Z) : M (option virq_handle) :=
  vgic <-- get_vgic;
  ret (virq_find_spi_loop (Z.to_nat MAX_VIRQS) 0 vgic v).

Definition virq_find_irq_data (vcpu : vm_vcpu_t) (v : Z) : M (option virq_handle) :=
  if v <? GIC_SPI_IRQ_MIN then virq_get_sgi_ppi vcpu v
  else virq_find_spi_irq_data v.

(** The loop of [virq_spi_add]. *)
Fixpoint virq_spi_add_loop (n : nat) (i : Z) (virq_data : virq_handle) : M Z :=
  match n with
  | O => ret (-1)
  | S n' =>
      vgic <-- get_vgic;
      match arr_get None (virqs vgic) i with
      | None =>
          modify_vgic (with_virqs (arr_set (virqs vgic) i (Some virq_data))) ;;;
          ret 0
      | Some _ => virq_spi_add_loop n' (i + 1) virq_data
      end
  end.

Definition virq_spi_add (virq_data : virq_handle) : M Z :=
  virq_spi_add_loop (Z.to_nat MAX_VIRQS) 0 virq_data.

Definition virq_sgi_ppi_add (vcpu : vm_vcpu_t) (virq_data : virq_handle) : M Z :=
  vgic <-- get_vgic;
  let row := arr_get [] (sgi_ppi_irq vgic) (vcpu_id vcpu) in
  match arr_get None row (virq virq_data) with
  | Some _ => ret (-1)
  | None =>
      modify_vgic (with_sgi_ppi_irq
        (arr_set (sgi_ppi_irq vgic) (vcpu_id vcpu)
           (arr_set row (virq virq_data) (Some virq_data)))) ;;;
      ret 0
  end.

Definition virq_add (vcpu : vm_vcpu_t) (virq_data : virq_handle) : M Z :=
  if virq virq_data <? GIC_SPI_IRQ_MIN then virq_sgi_ppi_add vcpu virq_data
  else virq_spi_add virq_data.

Definition vgic_shadow_irq (i : Z) (irq : virq_handle) (vcpu : vm_vcpu_t) : M unit :=
  vgic <-- get_vgic;
  let row := arr_get [] (lr_shadow vgic) (vcpu_id vcpu) in
  modify_vgic (with_lr_shadow
    (arr_set (lr_shadow vgic) (vcpu_id vcpu) (arr_set row i (Some irq)))).

Definition vgic_irq_enqueue (vcpu : vm_vcpu_t) (irq : virq_handle) : M Z :=
  vgic <-- get_vgic;
  let q := arr_get no_queue (irq_queue vgic) (vcpu_id vcpu) in
  if IRQ_QUEUE_NEXT (tail q) =? head q then ret (-1)
  else
    modify_vgic (with_irq_queue
      (arr_set (irq_queue vgic) (vcpu_id vcpu)
         (mk_irq_queue (arr_set (irqs q) (tail q) (Some irq))
                       (head q) (IRQ_QUEUE_NEXT (tail q))))) ;;;
    ret 0.

Definition vgic_irq_dequeue (vcpu : vm_vcpu_t) : M (option virq_handle) :=
  vgic <-- get_vgic;
  let q := arr_get no_queue (irq_queue vgic) (vcpu_id vcpu) in
  if negb (head q =? tail q) then
    modify_vgic (with_irq_queue
      (arr_set (irq_queue vgic) (vcpu_id vcpu)
         (mk_irq_queue (irqs q) (IRQ_QUEUE_NEXT (head q)) (tail q)))) ;;;
    ret (arr_get None (irqs q) (head q))
  else ret None.

(** The loop of [vgic_find_empty_list_reg]. *)
Fixpoint find_empty_list_reg_loop (n : nat) (i : Z) (row : list (option virq_handle)) : Z :=
  match n with
  | O => -1
  | S n' =>
      match arr_get None row i with
      | None => i
      | Some _ => find_empty_list_reg_loop n' (i + 1) row
      end
  end.

Definition vgic_find_empty_list_reg (vcpu : vm_vcpu_t) : M Z :=
  vgic <-- get_vgic;
  ret (find_empty_list_reg_loop (Z.to_nat NUM_LIST_REGS) 0
         (arr_get [] (lr_shadow vgic) (vcpu_id vcpu))).

Definition virq_init (irq : Z) (ack_fn : Z) (tok : Z) : virq_handle :=
  mk_virq_handle irq ack_fn tok.

(** Modelled from the spec: [vgic_vcpu_load_list_reg], declared in [virq.h]
    and defined outside the two sources.  It programs the physical list
    register through the hypervisor call, records the handler in
    [lr_shadow], and hands the call's return code back. *)
Definition vgic_vcpu_load_list_reg (e : env) (vcpu : vm_vcpu_t) (idx : Z)
    (irq : virq_handle) : M Z :=
  emit (EvLoadListReg (vcpu_id vcpu) idx (virq irq)) ;;;
  vgic_shadow_irq idx irq vcpu ;;;
  ret (load_list_reg_hw e (vcpu_id vcpu) idx (virq irq)).

(** ** vdist.h: register map *)

(** Modelled from the spec: the GICv2 register offsets and the SGIR field
    encodings, whose [#define]s are not among the sources.  The spec gives
    CTLR, TYPER, IIDR, ISENABLER1, ISPENDR1, ICPENDR0, NSACR and SGIR by
    number and the rest by reference to the GICv2 layout (one 32-word bank
    per register kind, byte-granular priority and target banks). *)
Definition GIC_ENABLED : Z := 1.
Definition GIC_DIST_CTLR : Z := 0x000.
Definition GIC_DIST_TYPER : Z := 0x004.
Definition GIC_DIST_IIDR : Z := 0x008.
Definition GIC_DIST_IGROUPR0 : Z := 0x080.
Definition GIC_DIST_IGROUPR1 : Z := 0x084.
Definition GIC_DIST_IGROUPRN : Z := 0x0FC.
Definition GIC_DIST_ISENABLER0 : Z := 0x100.
Definition GIC_DIST_ISENABLER1 : Z := 0x104.
Definition GIC_DIST_ISENABLERN : Z := 0x17C.
Definition GIC_DIST_ICENABLER0 : Z := 0x180.
Definition GIC_DIST_ICENABLER1 : Z := 0x184.
Definition GIC_DIST_ICENABLERN : Z := 0x1FC.
Definition GIC_DIST_ISPENDR0 : Z := 0x200.
Definition GIC_DIST_ISPENDR1 : Z := 0x204.
Definition GIC_DIST_ISPENDRN : Z := 0x27C.
Definition GIC_DIST_ICPENDR0 : Z := 0x280.
Definition GIC_DIST_ICPENDR1 : Z := 0x284.
Definition GIC_DIST_ICPENDRN : Z := 0x2FC.
Definition GIC_DIST_ISACTIVER0 : Z := 0x300.
Definition GIC_DIST_ISACTIVER1 : Z := 0x304.
Definition GIC_DIST_ISACTIVERN : Z := 0x37C.
Definition GIC_DIST_ICACTIVER0 : Z := 0x380.
Definition GIC_DIST_ICACTIVER1 : Z := 0x384.
Definition GIC_DIST_ICACTIVERN : Z := 0x3FC.
Definition GIC_DIST_IPRIORITYR0 : Z := 0x400.
Definition GIC_DIST_IPRIORITYR7 : Z := 0x41C.
Definition GIC_DIST_IPRIORITYR8 : Z := 0x420.
Definition GIC_DIST_IPRIORITYRN : Z := 0x7F8.
Definition GIC_DIST_ITARGETSR0 : Z := 0x800.
Definition GIC_DIST_ITARGETSR7 : Z := 0x81C.
Definition GIC_DIST_ITARGETSR8 : Z := 0x820.
Definition GIC_DIST_ITARGETSRN : Z := 0xBF8.
Definition GIC_DIST_ICFGR0 : Z := 0xC00.
Definition GIC_DIST_ICFGRN : Z := 0xCFC.
Definition GIC_DIST_SGIR : Z := 0xF00.
Definition GIC_DIST_CPENDSGIR0 : Z := 0xF10.
Definition GIC_DIST_CPENDSGIRN : Z := 0xF1C.
Definition GIC_DIST_SPENDSGIR0 : Z := 0xF20.
Definition GIC_DIST_SPENDSGIRN : Z := 0xF2C.

Definition GIC_DIST_SGI_TARGET_LIST_FILTER_SHIFT : Z := 24.
Definition GIC_DIST_SGI_TARGET_LIST_FILTER_MASK : Z :=
  Z.shiftl 0x3 GIC_DIST_SGI_TARGET_LIST_FILTER_SHIFT.
Definition GIC_DIST_SGI_TARGET_LIST_SPEC : Z := 0.
Definition GIC_DIST_SGI_TARGET_LIST_OTHERS : Z := 1.
Definition GIC_DIST_SGI_TARGET_SELF : Z := 2.
Definition GIC_DIST_SGI_CPU_TARGET_LIST_SHIFT : Z := 16.
Definition GIC_DIST_SGI_CPU_TARGET_LIST_MASK : Z :=
  Z.shiftl 0xFF GIC_DIST_SGI_CPU_TARGET_LIST_SHIFT.
Definition GIC_DIST_SGI_INTID_MASK : Z := 0xF.

(** [GIC_DIST_REGN(offset, reg)] and the case label [RANGE32(a, b)], which
    is [a ... b + (sizeof(uint32_t) - 1)]. *)
Definition GIC_DIST_REGN (offset reg : Z) : Z := (offset - reg) / 4.
Definition RANGE32 (a b : Z) (offset : Z) : bool :=
  (a <=? offset) && (offset <=? b + 3).

(** [IRQ_IDX(irq)] and [IRQ_BIT(irq)]; [/] and [%] on [int] truncate. *)
Definition IRQ_IDX (irq : Z) : Z := Z.quot irq 32.
Definition IRQ_BIT (irq : Z) : Z := u32 (Z.shiftl 1 (Z.rem irq 32)).

(** ** vdist.h: bit accessors *)

Definition set_sgi_ppi_pending (d : gic_dist_map) (irq : Z) (b : bool) (v : Z)
  : gic_dist_map :=
  if b then
    let d1 := with_pending_set0
      (arr_set (pending_set0 d) v (Z.lor (arr_get 0 (pending_set0 d) v) (IRQ_BIT irq))) d in
    with_pending_clr0
      (arr_set (pending_clr0 d1) v (Z.lor (arr_get 0 (pending_clr0 d1) v) (IRQ_BIT irq))) d1
  else
    let d1 := with_pending_set0
      (arr_set (pending_set0 d) v (Z.land (arr_get 0 (pending_set0 d) v) (not32 (IRQ_BIT irq)))) d in
    with_pending_clr0
      (arr_set (pending_clr0 d1) v (Z.land (arr_get 0 (pending_clr0 d1) v) (not32 (IRQ_BIT irq)))) d1.

Definition set_spi_pending (d : gic_dist_map) (irq : Z) (b : bool) : gic_dist_map :=
  let k := IRQ_IDX irq in
  if b then
    let d1 := with_pending_set
      (arr_set (pending_set d) k (Z.lor (arr_get 0 (pending_set d) k) (IRQ_BIT irq))) d in
    with_pending_clr
      (arr_set (pending_clr d1) k (Z.lor (arr_get 0 (pending_clr d1) k) (IRQ_BIT irq))) d1
  else
    let d1 := with_pending_set
      (arr_set (pending_set d) k (Z.land (arr_get 0 (pending_set d) k) (not32 (IRQ_BIT irq)))) d in
    with_pending_clr
      (arr_set (pending_clr d1) k (Z.land (arr_get 0 (pending_clr d1) k) (not32 (IRQ_BIT irq)))) d1.

Definition set_pending (d : gic_dist_map) (irq : Z) (b : bool) (v : Z) : gic_dist_map :=
  if irq <? GIC_SPI_IRQ_MIN then set_sgi_ppi_pending d irq b v
  else set_spi_pending d irq b.

Definition is_sgi_ppi_pending (d : gic_dist_map) (irq : Z) (v : Z) : bool :=
  negb (Z.land (arr_get 0 (pending_set0 d) v) (IRQ_BIT irq) =? 0).

Definition is_spi_pending (d : gic_dist_map) (irq : Z) : bool :=
  negb (Z.land (arr_get 0 (pending_set d) (IRQ_IDX irq)) (IRQ_BIT irq) =? 0).

Definition is_pending (d : gic_dist_map) (irq : Z) (v : Z) : bool :=
  if irq <? GIC_SPI_IRQ_MIN then is_sgi_ppi_pending d irq v
  else is_spi_pending d irq.

Definition set_sgi_ppi_enable (d : gic_dist_map) (irq : Z) (b : bool) (v : Z)
  : gic_dist_map :=
  if b then
    let d1 := with_enable_set0
      (arr_set (enable_set0 d) v (Z.lor (arr_get 0 (enable_set0 d) v) (IRQ_BIT irq))) d in
    with_enable_clr0
      (arr_set (enable_clr0 d1) v (Z.lor (arr_get 0 (enable_clr0 d1) v) (IRQ_BIT irq))) d1
  else
    let d1 := with_enable_set0
      (arr_set (enable_set0 d) v (Z.land (arr_get 0 (enable_set0 d) v) (not32 (IRQ_BIT irq)))) d in
    with_enable_clr0
      (arr_set (enable_clr0 d1) v (Z.land (arr_get 0 (enable_clr0 d1) v) (not32 (IRQ_BIT irq)))) d1.

Definition set_spi_enable (d : gic_dist_map) (irq : Z) (b : bool) : gic_dist_map :=
  let k := IRQ_IDX irq in
  if b then
    let d1 := with_enable_set
      (arr_set (enable_set d) k (Z.lor (arr_get 0 (enable_set d) k) (IRQ_BIT irq))) d in
    with_enable_clr
      (arr_set (enable_clr d1) k (Z.lor (arr_get 0 (enable_clr d1) k) (IRQ_BIT irq))) d1
  else
    let d1 := with_enable_set
      (arr_set (enable_set d) k (Z.land (arr_get 0 (enable_set d) k) (not32 (IRQ_BIT irq)))) d in
    with_enable_clr
      (arr_set (enable_clr d1) k (Z.land (arr_get 0 (enable_clr d1) k) (not32 (IRQ_BIT irq)))) d1.

Definition set_enable (d : gic_dist_map) (irq : Z) (b : bool) (v : Z) : gic_dist_map :=
  if irq <? GIC_SPI_IRQ_MIN then set_sgi_ppi_enable d irq b v
  else set_spi_enable d irq b.

Definition is_sgi_ppi_enabled (d : gic_dist_map) (irq : Z) (v : Z) : bool :=
  negb (Z.land (arr_get 0 (enable_set0 d) v) (IRQ_BIT irq) =? 0).

Definition is_spi_enabled (d : gic_dist_map) (irq : Z) : bool :=
  negb (Z.land (arr_get 0 (enable_set d) (IRQ_IDX irq)) (IRQ_BIT irq) =? 0).

Definition is_enabled (d : gic_dist_map) (irq : Z) (v : Z) : bool :=
  if irq <? GIC_SPI_IRQ_MIN then is_sgi_ppi_enabled d irq v
  else is_spi_enabled d irq.

Definition is_sgi_ppi_active (d : gic_dist_map) (irq : Z) (v : Z) : bool :=
  negb (Z.land (arr_get 0 (active0 d) v) (IRQ_BIT irq) =? 0).

Definition is_spi_active (d : gic_dist_map) (irq : Z) : bool :=
  negb (Z.land (arr_get 0 (active d) (IRQ_IDX irq)) (IRQ_BIT irq) =? 0).

Definition is_active (d : gic_dist_map) (irq : Z) (v : Z) : bool :=
  if irq <? GIC_SPI_IRQ_MIN then is_sgi_ppi_active d irq v
  else is_spi_active d irq.

(** Modelled from the spec: [gic_dist_enable], [gic_dist_disable] and
    [gic_dist_is_enabled], defined outside the two sources; they toggle and
    test the distributor control word. *)
Definition gic_dist_enable (d : gic_dist_map) : gic_dist_map := with_enable GIC_ENABLED d.
Definition gic_dist_disable (d : gic_dist_map) : gic_dist_map := with_enable 0 d.
Definition gic_dist_is_enabled (d : gic_dist_map) : bool := negb (enable d =? 0).

(** ** vdist.h: semantic operations *)

Definition vgic_dist_enable : M Z :=
  modify_dist gic_dist_enable ;;; ret 0.

Definition vgic_dist_disable : M Z :=
  modify_dist gic_dist_disable ;;; ret 0.

Definition vgic_dist_enable_irq (vcpu : vm_vcpu_t) (irq : Z) : M Z :=
  virq_data <-- virq_find_irq_data vcpu irq;
  modify_dist (fun d => set_enable d irq true (vcpu_id vcpu)) ;;;
  match virq_data with
  | Some h =>
      d <-- get_dist;
      if negb (is_pending d (virq h) (vcpu_id vcpu)) then virq_ack vcpu h ;;; ret 0
      else ret 0
  | None => ret 0
  end.

Definition vgic_dist_disable_irq (vcpu : vm_vcpu_t) (irq : Z) : M Z :=
  if NUM_SGI_VIRQS <=? irq then
    modify_dist (fun d => set_enable d irq false (vcpu_id vcpu)) ;;; ret 0
  else ret 0.

Definition vgic_dist_set_pending_irq (e : env) (vcpu : vm_vcpu_t) (irq : Z) : M Z :=
  gic_dist <-- get_dist;
  virq_data <-- virq_find_irq_data vcpu irq;
  match virq_data with
  | None => ret (-1)
  | Some h =>
      if negb (gic_dist_is_enabled gic_dist)
         || negb (is_enabled gic_dist irq (vcpu_id vcpu))
      then ret (-1)
      else if is_pending gic_dist (virq h) (vcpu_id vcpu) then ret 0
      else
        modify_dist (fun d => set_pending d (virq h) true (vcpu_id vcpu)) ;;;
        err <-- vgic_irq_enqueue vcpu h;
        if negb (err =? 0) then ret (-1)
        else
          idx <-- vgic_find_empty_list_reg vcpu;
          if idx <? 0 then ret 0
          else
            q <-- vgic_irq_dequeue vcpu;
            match q with
            | None => abort
            | Some irq' => vgic_vcpu_load_list_reg e vcpu idx irq'
            end
  end.

Definition vgic_dist_clr_pending_irq (vcpu : vm_vcpu_t) (irq : Z) : M Z :=
  modify_dist (fun d => set_pending d irq false (vcpu_id vcpu)) ;;; ret 0.

(** Modelled from the spec: [vm_inject_irq], the public injection entry
    point, defined outside the two sources; it is a synonym for
    [vgic_dist_set_pending_irq].  The call itself is logged. *)
Definition vm_inject_irq (e : env) (vcpu : vm_vcpu_t) (irq : Z) : M Z :=
  emit (EvInjectIRQ (vcpu_id vcpu) irq) ;;;
  vgic_dist_set_pending_irq e vcpu irq.

(** ** vdist.h: the MMIO fault handlers *)

(** Modelled from the spec: [fault_emulate], part of the fault object's
    interface: it computes [(prev & ~mask) | (data & mask)]. *)
Definition fault_emulate (f : fault_t) (o : Z) : Z :=
  let m := u32 (fault_get_data_mask f) in
  Z.lor (Z.land o (not32 m)) (Z.land (fault_get_data f) m).

(** [*(uint32_t * )(base + off)] on a little-endian word array. *)
Definition load32 (words : list Z) (off : Z) : Z :=
  let k := off / 4 in
  let r := off mod 4 in
  u32 (Z.lor (Z.shiftr (arr_get 0 words k) (8 * r))
             (Z.shiftl (arr_get 0 words (k + 1)) (32 - 8 * r))).

(** The [switch] of [handle_vgic_dist_read_fault]: the word that ends up in
    [reg], or [None] on the [default] label. *)
Definition read_switch (d : gic_dist_map) (vcpu : vm_vcpu_t) (offset : Z) : option Z :=
  let id := vcpu_id vcpu in
  if RANGE32 GIC_DIST_CTLR GIC_DIST_CTLR offset then Some (enable d)
  else if RANGE32 GIC_DIST_TYPER GIC_DIST_TYPER offset then Some (ic_type d)
  else if RANGE32 GIC_DIST_IIDR GIC_DIST_IIDR offset then Some (dist_ident d)
  else if RANGE32 0x00C 0x01C offset then Some 0
  else if RANGE32 0x020 0x03C offset then Some 0
  else if RANGE32 0x040 0x07C offset then Some 0
  else if RANGE32 GIC_DIST_IGROUPR0 GIC_DIST_IGROUPR0 offset then
    Some (arr_get 0 (irq_group0 d) id)
  else if RANGE32 GIC_DIST_IGROUPR1 GIC_DIST_IGROUPRN offset then
    Some (arr_get 0 (irq_group d) (GIC_DIST_REGN offset GIC_DIST_IGROUPR1))
  else if RANGE32 GIC_DIST_ISENABLER0 GIC_DIST_ISENABLER0 offset then
    Some (arr_get 0 (enable_set0 d) id)
  else if RANGE32 GIC_DIST_ISENABLER1 GIC_DIST_ISENABLERN offset then
    Some (arr_get 0 (enable_set d) (GIC_DIST_REGN offset GIC_DIST_ISENABLER1))
  else if RANGE32 GIC_DIST_ICENABLER0 GIC_DIST_ICENABLER0 offset then
    Some (arr_get 0 (enable_clr0 d) id)
  else if RANGE32 GIC_DIST_ICENABLER1 GIC_DIST_ICENABLERN offset then
    Some (arr_get 0 (enable_clr d) (GIC_DIST_REGN offset GIC_DIST_ICENABLER1))
  else if RANGE32 GIC_DIST_ISPENDR0 GIC_DIST_ISPENDR0 offset then
    Some (arr_get 0 (pending_set0 d) id)
  else if RANGE32 GIC_DIST_ISPENDR1 GIC_DIST_ISPENDRN offset then
    Some (arr_get 0 (pending_set d) (GIC_DIST_REGN offset GIC_DIST_ISPENDR1))
  else if RANGE32 GIC_DIST_ICPENDR0 GIC_DIST_ICPENDR0 offset then
    Some (arr_get 0 (pending_clr0 d) id)
  else if RANGE32 GIC_DIST_ICPENDR1 GIC_DIST_ICPENDRN offset then
    Some (arr_get 0 (pending_clr d) (GIC_DIST_REGN offset GIC_DIST_ICPENDR1))
  else if RANGE32 GIC_DIST_ISACTIVER0 GIC_DIST_ISACTIVER0 offset then
    Some (arr_get 0 (active0 d) id)
  else if RANGE32 GIC_DIST_ISACTIVER1 GIC_DIST_ISACTIVERN offset then
    Some (arr_get 0 (active d) (GIC_DIST_REGN offset GIC_DIST_ISACTIVER1))
  else if RANGE32 GIC_DIST_ICACTIVER0 GIC_DIST_ICACTIVER0 offset then
    Some (arr_get 0 (active_clr0 d) id)
  else if RANGE32 GIC_DIST_ICACTIVER1 GIC_DIST_ICACTIVERN offset then
    Some (arr_get 0 (active_clr d) (GIC_DIST_REGN offset GIC_DIST_ICACTIVER1))
  else if RANGE32 GIC_DIST_IPRIORITYR0 GIC_DIST_IPRIORITYR7 offset then
    Some (arr_get 0 (arr_get [] (priority0 d) id)
            (GIC_DIST_REGN offset GIC_DIST_IPRIORITYR0))
  else if RANGE32 GIC_DIST_IPRIORITYR8 GIC_DIST_IPRIORITYRN offset then
    Some (arr_get 0 (priority d) (GIC_DIST_REGN offset GIC_DIST_IPRIORITYR8))
  else if RANGE32 0x7FC 0x7FC offset then Some 0
  else if RANGE32 GIC_DIST_ITARGETSR0 GIC_DIST_ITARGETSR7 offset then
    Some (arr_get 0 (arr_get [] (targets0 d) id)
            (GIC_DIST_REGN offset GIC_DIST_ITARGETSR0))
  else if RANGE32 GIC_DIST_ITARGETSR8 GIC_DIST_ITARGETSRN offset then
    Some (arr_get 0 (targets d) (GIC_DIST_REGN offset GIC_DIST_ITARGETSR8))
  else if RANGE32 0xBFC 0xBFC offset then Some 0
  else if RANGE32 GIC_DIST_ICFGR0 GIC_DIST_ICFGRN offset then
    Some (arr_get 0 (config d) (GIC_DIST_REGN offset GIC_DIST_ICFGR0))
  else if RANGE32 0xD00 0xDE4 offset then Some (load32 (spi d) (offset - 0xD00))
  else if RANGE32 0xDE8 0xEFC offset then Some 0
  else if RANGE32 GIC_DIST_SGIR GIC_DIST_SGIR offset then Some (sgi_control d)
  else if RANGE32 0xF04 0xF0C offset then Some 0
  else if RANGE32 GIC_DIST_CPENDSGIR0 GIC_DIST_CPENDSGIRN offset then
    Some (arr_get 0 (arr_get [] (sgi_pending_clr d) id)
            (GIC_DIST_REGN offset GIC_DIST_CPENDSGIR0))
  else if RANGE32 GIC_DIST_SPENDSGIR0 GIC_DIST_SPENDSGIRN offset then
    Some (arr_get 0 (arr_get [] (sgi_pending_set d) id)
            (GIC_DIST_REGN offset GIC_DIST_SPENDSGIR0))
  else if RANGE32 0xF30 0xFBC offset then Some 0
  else if RANGE32 0xFC0 0xFFB offset then Some (load32 (periph_id d) (offset - 0xFC0))
  else None.

(** [if (err) return FAULT_ERROR; return FAULT_HANDLED;] *)
Definition fault_result (err : Z) : memory_fault_result_t :=
  if err =? 0 then FAULT_HANDLED else FAULT_ERROR.

Definition handle_vgic_dist_read_fault (e : env) (dev : vgic_dist_device)
    (vcpu : vm_vcpu_t) (fault : fault_t) : M memory_fault_result_t :=
  gic_dist <-- get_dist;
  let offset := fault_get_address fault - pstart dev in
  match read_switch gic_dist vcpu offset with
  | None =>
      emit EvIgnoreFault ;;;
      ret (fault_result (ignore_fault_err e))
  | Some reg =>
      let mask := u32 (fault_get_data_mask fault) in
      emit (EvFaultSetData (Z.land reg mask)) ;;;
      emit EvAdvanceFault ;;;
      ret (fault_result (advance_fault_err e))
  end.

(** [while (data) { irq = CTZ(data); data &= ~(1U << irq); ... }]: a word
    has 32 bits, so 32 rounds of [fuel] are enough ([bit_loop_fuel]). *)
Fixpoint bit_loop (fuel : nat) (data : Z) (body : Z -> M unit) : M unit :=
  match fuel with
  | O => ret tt
  | S fuel' =>
      if data =? 0 then ret tt
      else
        let irq := CTZ data in
        body irq ;;;
        bit_loop fuel' (Z.land data (not32 (u32 (Z.shiftl 1 irq)))) body
  end.

(** [for (int i = 0; i < vcpu->vm->num_vcpus; i++)] of the SGIR case: [n]
    rounds are left, the index is [i]. *)
Fixpoint sgir_loop (e : env) (vcpu : vm_vcpu_t) (v : Z) (target_list : Z)
    (n : nat) (i : Z) : M unit :=
  match n with
  | O => ret tt
  | S n' =>
      let target_vcpu := vcpus (vm vcpu) i in
      (if (Z.land target_list (Z.shiftl 1 i) =? 0)
          || negb (is_vcpu_online e (vcpu_id target_vcpu))
       then ret tt
       else vm_inject_irq e target_vcpu v ;;; ret tt) ;;;
      sgir_loop e vcpu v target_list n' (i + 1)
  end.

(** The [switch] of [handle_vgic_dist_write_fault], up to the label
    [ignore_fault]. *)
Definition write_switch (e : env) (vcpu : vm_vcpu_t) (fault : fault_t) (offset : Z)
  : M unit :=
  let id := vcpu_id vcpu in
  let mask := u32 (fault_get_data_mask fault) in
  if RANGE32 GIC_DIST_CTLR GIC_DIST_CTLR offset then
    let data := u32 (fault_get_data fault) in
    if data =? GIC_ENABLED then vgic_dist_enable ;;; ret tt
    else if data =? 0 then vgic_dist_disable ;;; ret tt
    else ret tt
  else if RANGE32 GIC_DIST_TYPER GIC_DIST_TYPER offset then ret tt
  else if RANGE32 GIC_DIST_IIDR GIC_DIST_IIDR offset then ret tt
  else if RANGE32 0x00C 0x01C offset then ret tt
  else if RANGE32 0x020 0x03C offset then ret tt
  else if RANGE32 0x040 0x07C offset then ret tt
  else if RANGE32 GIC_DIST_IGROUPR0 GIC_DIST_IGROUPR0 offset then
    modify_dist (fun d => with_irq_group0
      (arr_set (irq_group0 d) id (u32 (fault_emulate fault (arr_get 0 (irq_group0 d) id)))) d)
  else if RANGE32 GIC_DIST_IGROUPR1 GIC_DIST_IGROUPRN offset then
    let reg_offset := GIC_DIST_REGN offset GIC_DIST_IGROUPR1 in
    modify_dist (fun d => with_irq_group
      (arr_set (irq_group d) reg_offset
         (u32 (fault_emulate fault (arr_get 0 (irq_group d) reg_offset)))) d)
  else if RANGE32 GIC_DIST_ISENABLER0 GIC_DIST_ISENABLERN offset then
    let data := Z.land (u32 (fault_get_data fault)) mask in
    bit_loop 32 data (fun irq =>
      vgic_dist_enable_irq vcpu (irq + (offset - GIC_DIST_ISENABLER0) * 8) ;;; ret tt)
  else if RANGE32 GIC_DIST_ICENABLER0 GIC_DIST_ICENABLERN offset then
    let data := Z.land (u32 (fault_get_data fault)) mask in
    bit_loop 32 data (fun irq =>
      vgic_dist_disable_irq vcpu (irq + (offset - GIC_DIST_ICENABLER0) * 8) ;;; ret tt)
  else if RANGE32 GIC_DIST_ISPENDR0 GIC_DIST_ISPENDRN offset then
    let data := Z.land (u32 (fault_get_data fault)) mask in
    bit_loop 32 data (fun irq =>
      vgic_dist_set_pending_irq e vcpu (irq + (offset - GIC_DIST_ISPENDR0) * 8) ;;; ret tt)
  else if RANGE32 GIC_DIST_ICPENDR0 GIC_DIST_ICPENDRN offset then
    let data := Z.land (u32 (fault_get_data fault)) mask in
    bit_loop 32 data (fun irq =>
      vgic_dist_clr_pending_irq vcpu (irq + (offset - 0x280) * 8) ;;; ret tt)
  else if RANGE32 GIC_DIST_ISACTIVER0 GIC_DIST_ISACTIVER0 offset then
    modify_dist (fun d => with_active0
      (arr_set (active0 d) id (u32 (fault_emulate fault (arr_get 0 (active0 d) id)))) d)
  else if RANGE32 GIC_DIST_ISACTIVER1 GIC_DIST_ISACTIVERN offset then
    let reg_offset := GIC_DIST_REGN offset GIC_DIST_ISACTIVER1 in
    modify_dist (fun d => with_active
      (arr_set (active d) reg_offset
         (u32 (fault_emulate fault (arr_get 0 (active d) reg_offset)))) d)
  else if RANGE32 GIC_DIST_ICACTIVER0 GIC_DIST_ICACTIVER0 offset then
    modify_dist (fun d => with_active_clr0
      (arr_set (active_clr0 d) id (u32 (fault_emulate fault (arr_get 0 (active0 d) id)))) d)
  else if RANGE32 GIC_DIST_ICACTIVER1 GIC_DIST_ICACTIVERN offset then
    let reg_offset := GIC_DIST_REGN offset GIC_DIST_ICACTIVER1 in
    modify_dist (fun d => with_active_clr
      (arr_set (active_clr d) reg_offset
         (u32 (fault_emulate fault (arr_get 0 (active_clr d) reg_offset)))) d)
  else if RANGE32 GIC_DIST_IPRIORITYR0 GIC_DIST_IPRIORITYRN offset then ret tt
  else if RANGE32 0x7FC 0x7FC offset then ret tt
  else if RANGE32 GIC_DIST_ITARGETSR0 GIC_DIST_ITARGETSRN offset then ret tt
  else if RANGE32 0xBFC 0xBFC offset then ret tt
  else if RANGE32 GIC_DIST_ICFGR0 GIC_DIST_ICFGRN offset then ret tt
  else if RANGE32 0xD00 0xDE4 offset then ret tt
  else if RANGE32 0xDE8 0xEFC offset then ret tt
  else if RANGE32 GIC_DIST_SGIR GIC_DIST_SGIR offset then
    let data := u32 (fault_get_data fault) in
    let mode := Z.shiftr (Z.land data GIC_DIST_SGI_TARGET_LIST_FILTER_MASK)
                  GIC_DIST_SGI_TARGET_LIST_FILTER_SHIFT in
    let v := Z.land data GIC_DIST_SGI_INTID_MASK in
    let n := Z.to_nat (num_vcpus (vm vcpu)) in
    if mode =? GIC_DIST_SGI_TARGET_LIST_SPEC then
      sgir_loop e vcpu v
        (u16 (Z.shiftr (Z.land data GIC_DIST_SGI_CPU_TARGET_LIST_MASK)
                GIC_DIST_SGI_CPU_TARGET_LIST_SHIFT)) n 0
    else if mode =? GIC_DIST_SGI_TARGET_LIST_OTHERS then
      let target_list := u16 (Z.shiftl 1 (num_vcpus (vm vcpu)) - 1) in
      sgir_loop e vcpu v (u16 (Z.land target_list (Z.lnot (Z.shiftl 1 id)))) n 0
    else if mode =? GIC_DIST_SGI_TARGET_SELF then
      sgir_loop e vcpu v (u16 (Z.shiftl 1 id)) n 0
    else ret tt
  else if RANGE32 0xF04 0xF0C offset then ret tt
  else if RANGE32 GIC_DIST_CPENDSGIR0 GIC_DIST_SPENDSGIRN offset then abort
  else if RANGE32 0xF30 0xFBC offset then ret tt
  else if RANGE32 0xFC0 0xFFB offset then ret tt
  else ret tt.

Definition handle_vgic_dist_write_fault (e : env) (dev : vgic_dist_device)
    (vcpu : vm_vcpu_t) (fault : fault_t) : M memory_fault_result_t :=
  let offset := fault_get_address fault - pstart dev in
  write_switch e vcpu fault offset ;;;
  emit EvIgnoreFault ;;;
  ret (fault_result (ignore_fault_err e)).

Definition handle_vgic_dist_fault (e : env) (dev : vgic_dist_device)
    (vcpu : vm_vcpu_t) (fault : fault_t) : M memory_fault_result_t :=
  if fault_is_read fault then handle_vgic_dist_read_fault e dev vcpu fault
  else handle_vgic_dist_write_fault e dev vcpu fault.

(** ** Notions used by the statements *)


(** The loops are unfolded by hand, one round at a time. *)
Arguments virq_find_spi_loop : simpl never.
Arguments virq_spi_add_loop : simpl never.
Arguments find_empty_list_reg_loop : simpl never.
Arguments bit_loop : simpl never.
Arguments sgir_loop : simpl never.


(** The word that holds the pending bit of [irq] for vCPU [v] exists in the
    distributor image. *)
Definition pending_word_exists (d : gic_dist_map) (irq v : Z) : Prop :=
  if irq <? GIC_SPI_IRQ_MIN then 0 <= v < Z.of_nat (length (pending_set0 d))
  else irq / 32 < Z.of_nat (length (pending_set d)).


(** The ring [q] holds the handlers [l], oldest first: [l] sits in the
    slots from [head] on, modulo the capacity, and [tail] is the slot after
    the last of them. *)
Definition ring_holds (q : irq_queue_t) (l : list virq_handle) : Prop :=
  length (irqs q) = Z.to_nat MAX_IRQ_QUEUE_LEN
  /\ 0 <= head q < MAX_IRQ_QUEUE_LEN
  /\ Z.of_nat (length l) < MAX_IRQ_QUEUE_LEN
  /\ tail q = (head q + Z.of_nat (length l)) mod MAX_IRQ_QUEUE_LEN
  /\ forall (k : nat) (x : virq_handle),
       l !! k = Some x ->
       arr_get None (irqs q) ((head q + Z.of_nat k) mod MAX_IRQ_QUEUE_LEN) = Some x.

(** The state with the overflow queue of vCPU [v] replaced. *)
Definition with_queue_of (v : Z) (q : irq_queue_t) (s : state) : state :=
  mk_state (st_dist s)
    (with_irq_queue (arr_set (irq_queue (st_vgic s)) v q) (st_vgic s))
    (st_log s).


(** Both handler tables hold no handler. *)
Definition tables_empty (g : vgic_t) : Prop :=
  (forall i j, arr_get None (arr_get [] (sgi_ppi_irq g) i) j = None)
  /\ forall i, arr_get None (virqs g) i = None.

(** The states that registrations ([virq_add]) build from empty tables. *)
Inductive registered : state -> Prop :=
| registered_init (s : state) :
    tables_empty (st_vgic s) -> registered s
| registered_add (s : state) (vcpu : vm_vcpu_t) (h : virq_handle) (r : Z) (s' : state) :
    registered s -> virq_add vcpu h s = Some (r, s') -> registered s'.

(** Every SGI/PPI handler sits in the slot of its own number. *)
Definition sgi_ppi_indexed (g : vgic_t) : Prop :=
  forall i j h, arr_get None (arr_get [] (sgi_ppi_irq g) i) j = Some h -> virq h = j.

(** The tables and the pipeline of a machine with [nodes] vCPUs before any
    registration, and the all-zero distributor image with [words] words in
    each shared bit bank. *)
Definition vgic_init (nodes : nat) : vgic_t :=
  mk_vgic (replicate nodes (replicate (Z.to_nat NUM_LIST_REGS) None))
          (replicate nodes (mk_irq_queue (replicate (Z.to_nat MAX_IRQ_QUEUE_LEN) None) 0 0))
          (replicate nodes (replicate (Z.to_nat GIC_SPI_IRQ_MIN) None))
          (replicate (Z.to_nat MAX_VIRQS) None).

Definition dist_zero (nodes words : nat) : gic_dist_map :=
  mk_gic_dist 0 0 0
    (replicate nodes 0) (replicate words 0)
    (replicate nodes 0) (replicate words 0) (replicate nodes 0) (replicate words 0)
    (replicate nodes 0) (replicate words 0) (replicate nodes 0) (replicate words 0)
    (replicate nodes 0) (replicate words 0) (replicate nodes 0) (replicate words 0)
    (replicate nodes (replicate 8 0)) (replicate 247 0)
    (replicate nodes (replicate 8 0)) (replicate 247 0)
    (replicate 64 0) (replicate 58 0) 0
    (replicate nodes (replicate 4 0)) (replicate nodes (replicate 4 0))
    (replicate 16 0).

Definition state_init (nodes words : nat) : state :=
  mk_state (dist_zero nodes words) (vgic_init nodes) [].




(** A full-width guest access at offset [off] of the distributor window. *)
Definition read_fault (dev : vgic_dist_device) (off : Z) : fault_t :=
  mk_fault (pstart dev + off) true 0 0xFFFFFFFF.
Definition write_fault (dev : vgic_dist_device) (off : Z) (W : Z) : fault_t :=
  mk_fault (pstart dev + off) false W 0xFFFFFFFF.

(** The guest reads the word [v] at offset [off]: the fault handler puts [v]
    into the fault's data register and advances the fault. *)
Definition guest_reads (e : env) (dev : vgic_dist_device) (vcpu : vm_vcpu_t)
    (off : Z) (s : state) (v : Z) (s' : state) : Prop :=
  handle_vgic_dist_fault e dev vcpu (read_fault dev off) s
    = Some (fault_result (advance_fault_err e), s')
  /\ s' = mk_state (st_dist s) (st_vgic s)
            (st_log s ++ [EvFaultSetData v; EvAdvanceFault]).


(** ** Reachable states *)

(** The entry points that change the distributor: a fault of the guest on
    the distributor window, the four per-IRQ operations, and a registration. *)
Inductive op : Type :=
| OpFault (dev : vgic_dist_device) (vcpu : vm_vcpu_t) (f : fault_t)
| OpEnableIrq (vcpu : vm_vcpu_t) (irq : Z)
| OpDisableIrq (vcpu : vm_vcpu_t) (irq : Z)
| OpSetPendingIrq (vcpu : vm_vcpu_t) (irq : Z)
| OpClrPendingIrq (vcpu : vm_vcpu_t) (irq : Z)
| OpVirqAdd (vcpu : vm_vcpu_t) (h : virq_handle).

Definition run_op (e : env) (o : op) : M unit :=
  match o with
  | OpFault dev vcpu f => handle_vgic_dist_fault e dev vcpu f ;;; ret tt
  | OpEnableIrq vcpu irq => vgic_dist_enable_irq vcpu irq ;;; ret tt
  | OpDisableIrq vcpu irq => vgic_dist_disable_irq vcpu irq ;;; ret tt
  | OpSetPendingIrq vcpu irq => vgic_dist_set_pending_irq e vcpu irq ;;; ret tt
  | OpClrPendingIrq vcpu irq => vgic_dist_clr_pending_irq vcpu irq ;;; ret tt
  | OpVirqAdd vcpu h => virq_add vcpu h ;;; ret tt
  end.

(** [reachable s0 s]: some sequence of entry points, each with its own
    answers from the outside world, takes [s0] to [s]. *)
Inductive reachable (s0 : state) : state -> Prop :=
| reachable_init : reachable s0 s0
| reachable_step (s : state) (e : env) (o : op) (s' : state) :
    reachable s0 s -> run_op e o s = Some (tt, s') -> reachable s0 s'.



(** The part of it that the code maintains, word by word. *)
Definition enable_pending_paired (d : gic_dist_map) : Prop :=
  enable_set0 d = enable_clr0 d /\ enable_set d = enable_clr d
  /\ pending_set0 d = pending_clr0 d /\ pending_set d = pending_clr d.


(** ** SGIR *)

(** The calls of [vm_inject_irq] in a stretch of the log, as (vCPU, IRQ)
    pairs in call order. *)
Fixpoint injections (l : list event) : list (Z * Z) :=
  match l with
  | [] => []
  | EvInjectIRQ c i :: l' => (c, i) :: injections l'
  | _ :: l' => injections l'
  end.

(** The fields of an SGIR value as the specification numbers them: the
    target list filter in bits 25:24, the CPU target list in bits 23:16, the
    interrupt number in bits 3:0. *)
Definition sgir_filter (data : Z) : Z := Z.land (Z.shiftr data 24) 0x3.
Definition sgir_cpu_targets (data : Z) : Z := Z.land (Z.shiftr data 16) 0xFF.
Definition sgir_intid (data : Z) : Z := Z.land data 0xF.

(** The target bitmask as the specification gives it for the three filter
    modes (nothing is targeted in the fourth, reserved mode). *)
Definition sgir_target_mask (data : Z) (vcpu : vm_vcpu_t) : Z :=
  if sgir_filter data =? 0 then sgir_cpu_targets data
  else if sgir_filter data =? 1 then
    Z.land (Z.shiftl 1 (num_vcpus (vm vcpu)) - 1) (Z.lnot (Z.shiftl 1 (vcpu_id vcpu)))
  else if sgir_filter data =? 2 then Z.shiftl 1 (vcpu_id vcpu)
  else 0.

(** That bitmask held in the 16-bit [target_list]. *)
Definition sgir_target_list (data : Z) (vcpu : vm_vcpu_t) : Z :=
  u16 (sgir_target_mask data vcpu).

(** Every vCPU of the machine has an overflow ring in good order. *)
Definition wf_pipeline (s : state) : Prop :=
  forall v, 0 <= v < CONFIG_MAX_NUM_NODES ->
    exists q l, irq_queue (st_vgic s) !! Z.to_nat v = Some q /\ ring_holds q l.


(** A step from [s] to [s1] that keeps the rings in good order and calls
    [vm_inject_irq] not once. *)
Definition quiet_step (s s1 : state) : Prop :=
  wf_pipeline s1
  /\ exists evs, st_log s1 = st_log s ++ evs /\ injections evs = [].




(** ** Scenarios *)

(** A sequence of entry points, each with the answers of the outside world
    it gets; [None] when an [assert] fails on the way. *)
Fixpoint run_ops (l : list (env * op)) (s : state) : option state :=
  match l with
  | [] => Some s
  | (e, o) :: l' =>
      match run_op e o s with
      | Some (_, s') => run_ops l' s'
      | None => None
      end
  end.

(** The state the sequence ends in (the start state if it does not end). *)
Definition state_after (l : list (env * op)) (s : state) : state :=
  match run_ops l s with
  | Some s' => s'
  | None => s
  end.

(** An outside world in which every call succeeds and every vCPU is on
    line, and one in which vCPU 2 is off line. *)
Definition env_ok : env := mk_env (fun _ => true) (fun _ _ _ => 0) 0 0.

Definition dev0 : vgic_dist_device := mk_dev 0x8000000.
Definition boot_vcpu : vm_vcpu_t := vcpus (mk_vm 1) 0.
Definition quad_vcpu0 : vm_vcpu_t := vcpus (mk_vm 4) 0.

(** Two handlers for the shared interrupt 42. *)
Definition uart_irq : virq_handle := virq_init 42 1 100.
Definition uart_irq_again : virq_handle := virq_init 42 2 200.

(** Register the handler of interrupt 42, enable the distributor, enable
    interrupt 42 (bit 10 of ISENABLER1) and set it pending. *)
Definition ops_spi42_pending : list (env * op) :=
  [ (env_ok, OpVirqAdd boot_vcpu uart_irq);
    (env_ok, OpFault dev0 boot_vcpu (write_fault dev0 GIC_DIST_CTLR 1));
    (env_ok, OpFault dev0 boot_vcpu (write_fault dev0 GIC_DIST_ISENABLER1 (Z.shiftl 1 10)));
    (env_ok, OpSetPendingIrq boot_vcpu 42) ].

(** Enable SGI 0 (bit 0 of ISENABLER0). *)
Definition ops_sgi0_enabled : list (env * op) :=
  [ (env_ok, OpFault dev0 boot_vcpu (write_fault dev0 GIC_DIST_ISENABLER0 1)) ].


(** The round trip as the specification states it, for every register pair
    ICENABLERn / ISENABLERn: the guest reads [prior], writes [W] to
    ICENABLERn with a full mask, and then reads [prior & ~W]. *)
Definition icenabler_roundtrip_law : Prop :=
  forall (e0 e1 e2 : env) (dev : vgic_dist_device) (vcpu : vm_vcpu_t)
         (n W : Z) (s s0 s1 s2 : state) (prior v : Z) (r : memory_fault_result_t),
    0 <= n < 32 -> 0 <= W < 2 ^ 32 ->
    guest_reads e0 dev vcpu (GIC_DIST_ISENABLER0 + 4 * n) s prior s0 ->
    handle_vgic_dist_fault e1 dev vcpu
      (write_fault dev (GIC_DIST_ICENABLER0 + 4 * n) W) s0 = Some (r, s1) ->
    guest_reads e2 dev vcpu (GIC_DIST_ISENABLER0 + 4 * n) s1 v s2 ->
    v = Z.land prior (Z.lnot W).

(** ** Notions used by the proofs *)

(** [preserves I m]: every run of [m] that returns keeps [I]. *)
Definition preserves {A : Type} (I : state -> Prop) (m : M A) : Prop :=
  forall s a s', I s -> m s = Some (a, s') -> I s'.

(** A predicate that looks at the distributor image and the two handler
    tables only. *)
Definition ignores_pipeline (I : state -> Prop) : Prop :=
  forall s lr q lg,
    I s ->
    I (mk_state (st_dist s)
         (mk_vgic lr q (sgi_ppi_irq (st_vgic s)) (virqs (st_vgic s))) lg).

(** ** Notions used by the further properties *)

(** The slot [sgi_ppi_irq[v][irq]] lies inside the table. *)
Definition sgi_ppi_slot_exists (g : vgic_t) (v irq : Z) : Prop :=
  0 <= v < Z.of_nat (length (sgi_ppi_irq g))
  /\ 0 <= irq < Z.of_nat (length (arr_get [] (sgi_ppi_irq g) v)).


(** The word that holds the enable bit of [irq] for vCPU [v] exists in the
    distributor image. *)
Definition enable_word_exists (d : gic_dist_map) (irq v : Z) : Prop :=
  if irq <? GIC_SPI_IRQ_MIN then 0 <= v < Z.of_nat (length (enable_set0 d))
  else irq / 32 < Z.of_nat (length (enable_set d)).


(** The indexes of the set bits of [data] among [k], [k+1], ..., [k+n-1],
    lowest first, and the set bits of a 32-bit word. *)
Fixpoint set_bits_from (n : nat) (k : Z) (data : Z) : list Z :=
  match n with
  | O => []
  | S n' =>
      if Z.testbit data k then k :: set_bits_from n' (k + 1) data
      else set_bits_from n' (k + 1) data
  end.

Definition set_bits (data : Z) : list Z := set_bits_from 32 0 data.

(** [body] run on the elements of [l], first to last. *)
Fixpoint for_each (l : list Z) (body : Z -> M unit) : M unit :=
  match l with
  | [] => ret tt
  | c :: l' => body c ;;; for_each l' body
  end.


(** The offsets at which a guest write can have an effect: the control
    register, the group, enable, pending and active banks, SGIR, and the SGI
    pending registers. *)
Definition write_effect_offset (offset : Z) : bool :=
  RANGE32 GIC_DIST_CTLR GIC_DIST_CTLR offset
  || RANGE32 GIC_DIST_IGROUPR0 GIC_DIST_ICACTIVERN offset
  || RANGE32 GIC_DIST_SGIR GIC_DIST_SGIR offset
  || RANGE32 GIC_DIST_CPENDSGIR0 GIC_DIST_SPENDSGIRN offset.


(** The global handler table is filled from slot 0 on without a gap:
    behind an empty slot every slot is empty. *)
Definition virqs_compact (g : vgic_t) : Prop :=
  forall i j, 0 <= i <= j ->
    arr_get None (virqs g) i = None -> arr_get None (virqs g) j = None.


(** A handler waits in the overflow ring of a vCPU only while
    [vgic_find_empty_list_reg] finds no empty list register for that vCPU. *)
Definition queued_behind_full_registers (s : state) : Prop :=
  forall v q, 0 <= v < CONFIG_MAX_NUM_NODES ->
    irq_queue (st_vgic s) !! Z.to_nat v = Some q ->
    head q <> tail q ->
    find_empty_list_reg_loop (Z.to_nat NUM_LIST_REGS) 0
      (arr_get [] (lr_shadow (st_vgic s)) v) = -1.


(** ** Further scenarios *)

(** A handler for the private interrupt 27 and handlers for shared
    interrupts. *)
Definition timer_irq : virq_handle := virq_init 27 3 300.
Definition spi_irq (n : Z) : virq_handle := virq_init n 1 n.

(** Register the handler of interrupt 42, enable the distributor and enable
    interrupt 42. *)
Definition ops_spi42_enabled : list (env * op) :=
  [ (env_ok, OpVirqAdd boot_vcpu uart_irq);
    (env_ok, OpFault dev0 boot_vcpu (write_fault dev0 GIC_DIST_CTLR 1));
    (env_ok, OpFault dev0 boot_vcpu (write_fault dev0 GIC_DIST_ISENABLER1 (Z.shiftl 1 10))) ].

(** Register handlers for the interrupts 42 to 46, enable the distributor,
    enable the five interrupts (bits 10 to 14 of ISENABLER1) and set 42 to
    45 pending: the four list registers of the vCPU are taken. *)
Definition ops_four_loaded : list (env * op) :=
  [ (env_ok, OpVirqAdd boot_vcpu (spi_irq 42));
    (env_ok, OpVirqAdd boot_vcpu (spi_irq 43));
    (env_ok, OpVirqAdd boot_vcpu (spi_irq 44));
    (env_ok, OpVirqAdd boot_vcpu (spi_irq 45));
    (env_ok, OpVirqAdd boot_vcpu (spi_irq 46));
    (env_ok, OpFault dev0 boot_vcpu (write_fault dev0 GIC_DIST_CTLR 1));
    (env_ok, OpFault dev0 boot_vcpu (write_fault dev0 GIC_DIST_ISENABLER1 0x7C00));
    (env_ok, OpSetPendingIrq boot_vcpu 42);
    (env_ok, OpSetPendingIrq boot_vcpu 43);
    (env_ok, OpSetPendingIrq boot_vcpu 44);
    (env_ok, OpSetPendingIrq boot_vcpu 45) ].

(** A ring that holds [MAX_IRQ_QUEUE_LEN - 1] times the handler [h]. *)
Definition full_ring (h : virq_handle) : irq_queue_t :=
  mk_irq_queue (replicate 64 (Some h)) 0 63.


(** * Verification *)

(** ** Arrays *)

Lemma arr_set_length {A : Type} (l : list A) (i : Z) (x : A) :
  length (arr_set l i x) = length l.
Proof.
  unfold arr_set. destruct (i <? 0); [reflexivity | apply length_insert].
Qed.

Lemma arr_get_set {A : Type} (d : A) (l : list A) (i j : Z) (x : A) :
  arr_get d (arr_set l i x) j =
  if (j =? i) && (0 <=? i) && (i <? Z.of_nat (length l)) then x
  else arr_get d l j.
Proof.
  unfold arr_get, arr_set.
  destruct (Z.eqb_spec j i) as [-> | Hne]; simpl.
  - destruct (Z.ltb_spec i 0) as [Hneg | Hpos].
    + destruct (Z.leb_spec 0 i); [lia | reflexivity].
    + destruct (Z.leb_spec 0 i); [simpl | lia].
      destruct (Z.ltb_spec i (Z.of_nat (length l))) as [Hin | Hout].
      * rewrite list_lookup_insert_eq by lia. reflexivity.
      * rewrite list_insert_ge by lia. reflexivity.
  - destruct (Z.ltb_spec j 0) as [Hj | Hj]; [reflexivity |].
    destruct (Z.ltb_spec i 0) as [Hi | Hi]; [reflexivity |].
    rewrite list_lookup_insert_ne by lia. reflexivity.
Qed.

Lemma arr_get_set_eq {A : Type} (d : A) (l : list A) (i : Z) (x : A) :
  0 <= i < Z.of_nat (length l) -> arr_get d (arr_set l i x) i = x.
Proof.
  intros Hi. rewrite arr_get_set, Z.eqb_refl.
  destruct (Z.leb_spec 0 i); [| lia].
  destruct (Z.ltb_spec i (Z.of_nat (length l))); [reflexivity | lia].
Qed.

Lemma arr_get_set_ne {A : Type} (d : A) (l : list A) (i j : Z) (x : A) :
  j <> i -> arr_get d (arr_set l i x) j = arr_get d l j.
Proof.
  intros Hne. rewrite arr_get_set.
  destruct (Z.eqb_spec j i); [contradiction | reflexivity].
Qed.

Lemma arr_get_lookup {A : Type} (d : A) (l : list A) (i : Z) (x : A) :
  0 <= i -> l !! Z.to_nat i = Some x -> arr_get d l i = x.
Proof.
  intros Hi Hx. unfold arr_get.
  destruct (Z.ltb_spec i 0); [lia |]. rewrite Hx. reflexivity.
Qed.

(** ** Words *)

Lemma u32_testbit (x j : Z) :
  Z.testbit (u32 x) j = (j <? 32) && Z.testbit x j.
Proof. unfold u32. apply Z.testbit_mod_pow2. lia. Qed.

Lemma not32_testbit (x j : Z) :
  0 <= j -> Z.testbit (not32 x) j = (j <? 32) && negb (Z.testbit x j).
Proof.
  intros Hj. unfold not32. rewrite u32_testbit, Z.lnot_spec by lia. reflexivity.
Qed.

Lemma IRQ_BIT_testbit (irq j : Z) :
  0 <= irq -> Z.testbit (IRQ_BIT irq) j = (j =? irq mod 32).
Proof.
  intros Hirq. unfold IRQ_BIT.
  rewrite Z.rem_mod_nonneg by lia.
  assert (Hm : 0 <= irq mod 32 < 32) by (apply Z.mod_pos_bound; lia).
  rewrite u32_testbit, Z.shiftl_1_l, Z.pow2_bits_eqb by lia.
  destruct (Z.eqb_spec (irq mod 32) j) as [<- | Hne].
  - rewrite Z.eqb_refl. destruct (Z.ltb_spec (irq mod 32) 32); [reflexivity | lia].
  - destruct (Z.eqb_spec j (irq mod 32)); [congruence |]. apply andb_false_r.
Qed.

Lemma IRQ_IDX_nonneg (irq : Z) : 0 <= irq -> IRQ_IDX irq = irq / 32.
Proof. intros H. unfold IRQ_IDX. apply Z.quot_div_nonneg; lia. Qed.

(** A word is non-zero under a one-bit mask exactly when that bit is set. *)
Lemma land_IRQ_BIT_nonzero (w irq : Z) :
  0 <= irq ->
  negb (Z.land w (IRQ_BIT irq) =? 0) = Z.testbit w (irq mod 32).
Proof.
  intros Hirq.
  assert (Hm : 0 <= irq mod 32 < 32) by (apply Z.mod_pos_bound; lia).
  destruct (Z.testbit w (irq mod 32)) eqn:Hb.
  - destruct (Z.eqb_spec (Z.land w (IRQ_BIT irq)) 0) as [H0 | H0]; [| reflexivity].
    assert (Hc : Z.testbit (Z.land w (IRQ_BIT irq)) (irq mod 32) = true).
    { rewrite Z.land_spec, Hb, IRQ_BIT_testbit, Z.eqb_refl by lia. reflexivity. }
    rewrite H0, Z.bits_0 in Hc. discriminate.
  - destruct (Z.eqb_spec (Z.land w (IRQ_BIT irq)) 0) as [H0 | H0]; [reflexivity |].
    exfalso. apply H0. apply Z.bits_inj'. intros n Hn.
    rewrite Z.land_spec, Z.bits_0, IRQ_BIT_testbit by lia.
    destruct (Z.eqb_spec n (irq mod 32)) as [-> | Hne].
    + rewrite Hb. reflexivity.
    + apply andb_false_r.
Qed.

(** Clearing one bit of a word. *)
Lemma clear_bit_testbit (w irq j : Z) :
  0 <= irq -> 0 <= j < 32 ->
  Z.testbit (Z.land w (not32 (IRQ_BIT irq))) j
  = Z.testbit w j && negb (j =? irq mod 32).
Proof.
  intros Hirq Hj.
  rewrite Z.land_spec, not32_testbit, IRQ_BIT_testbit by lia.
  destruct (Z.ltb_spec j 32); [reflexivity | lia].
Qed.

(** Setting one bit of a word. *)
Lemma set_bit_testbit (w irq j : Z) :
  0 <= irq ->
  Z.testbit (Z.lor w (IRQ_BIT irq)) j = Z.testbit w j || (j =? irq mod 32).
Proof.
  intros Hirq. rewrite Z.lor_spec, IRQ_BIT_testbit by lia. reflexivity.
Qed.

(** ** [vgic_dist_disable_irq] *)


(** The bit of a cleared word: gone at the cleared position when the word is
    the one written, unchanged everywhere else. *)
Lemma cleared_word_testbit (l : list Z) (i k irq j : Z) :
  0 <= irq -> 0 <= j < 32 ->
  Z.testbit (arr_get 0 (arr_set l i (Z.land (arr_get 0 l i) (not32 (IRQ_BIT irq)))) k) j
  = Z.testbit (arr_get 0 l k) j && negb ((k =? i) && (j =? irq mod 32)).
Proof.
  intros Hirq Hj. rewrite arr_get_set.
  destruct (Z.eqb_spec k i) as [-> | Hne]; simpl.
  - destruct ((0 <=? i) && (i <? Z.of_nat (length l))) eqn:Hin.
    + apply clear_bit_testbit; lia.
    + assert (H0 : arr_get 0 l i = 0).
      { unfold arr_get. destruct (Z.ltb_spec i 0); [reflexivity |].
        rewrite lookup_ge_None_2; [reflexivity |].
        apply andb_false_iff in Hin. destruct Hin as [Hin | Hin].
        - apply Z.leb_gt in Hin. lia.
        - apply Z.ltb_ge in Hin. lia. }
      rewrite H0, Z.bits_0. reflexivity.
  - rewrite andb_true_r. reflexivity.
Qed.


(** ** Running monadic code *)

Ltac munfold :=
  unfold bind, ret, abort, c_assert, get_dist, get_vgic, modify_dist,
    modify_vgic, emit.

Lemma preserves_ret {A : Type} (I : state -> Prop) (a : A) : preserves I (ret a).
Proof. intros s a' s' HI H. inversion H; subst. exact HI. Qed.

Lemma preserves_abort {A : Type} (I : state -> Prop) : preserves I (@abort A).
Proof. intros s a s' _ H. discriminate. Qed.

Lemma preserves_bind {A B : Type} (I : state -> Prop) (m : M A) (k : A -> M B) :
  preserves I m -> (forall a, preserves I (k a)) -> preserves I (bind m k).
Proof.
  intros Hm Hk s b s' HI H. unfold bind in H.
  destruct (m s) as [[a s1] |] eqn:Em; [| discriminate].
  eapply Hk; [| exact H]. eapply Hm; eauto.
Qed.

Lemma preserves_get_dist (I : state -> Prop) : preserves I get_dist.
Proof. intros s a s' HI H. inversion H; subst. exact HI. Qed.

Lemma preserves_get_vgic (I : state -> Prop) : preserves I get_vgic.
Proof. intros s a s' HI H. inversion H; subst. exact HI. Qed.

Lemma preserves_c_assert (I : state -> Prop) (b : bool) : preserves I (c_assert b).
Proof.
  destruct b; [apply preserves_ret | apply preserves_abort].
Qed.

Lemma preserves_modify_dist (I : state -> Prop) (f : gic_dist_map -> gic_dist_map) :
  (forall s, I s -> I (mk_state (f (st_dist s)) (st_vgic s) (st_log s))) ->
  preserves I (modify_dist f).
Proof. intros Hf s a s' HI H. inversion H; subst. apply Hf, HI. Qed.

Lemma preserves_modify_vgic (I : state -> Prop) (f : vgic_t -> vgic_t) :
  (forall s, I s -> I (mk_state (st_dist s) (f (st_vgic s)) (st_log s))) ->
  preserves I (modify_vgic f).
Proof. intros Hf s a s' HI H. inversion H; subst. apply Hf, HI. Qed.

Lemma preserves_emit (I : state -> Prop) (ev : event) :
  (forall s, I s -> I (mk_state (st_dist s) (st_vgic s) (st_log s ++ [ev]))) ->
  preserves I (emit ev).
Proof. intros Hf s a s' HI H. inversion H; subst. apply Hf, HI. Qed.

(** A reader leaves the state alone. *)
Lemma virq_find_irq_data_state (vcpu : vm_vcpu_t) (v : Z) (s s' : state)
    (r : option virq_handle) :
  virq_find_irq_data vcpu v s = Some (r, s') -> s' = s.
Proof.
  unfold virq_find_irq_data, virq_get_sgi_ppi, virq_find_spi_irq_data. munfold.
  destruct (v <? GIC_SPI_IRQ_MIN).
  - destruct (vcpu_id vcpu <? CONFIG_MAX_NUM_NODES); simpl; intros H;
      [inversion H; reflexivity | discriminate].
  - simpl. intros H. inversion H; reflexivity.
Qed.

(** The lookup returns for every vCPU of the machine. *)
Lemma virq_find_irq_data_returns (vcpu : vm_vcpu_t) (v : Z) (s : state) :
  vcpu_id vcpu < CONFIG_MAX_NUM_NODES ->
  exists r, virq_find_irq_data vcpu v s = Some (r, s).
Proof.
  intros Hid.
  unfold virq_find_irq_data, virq_get_sgi_ppi, virq_find_spi_irq_data. munfold.
  destruct (v <? GIC_SPI_IRQ_MIN).
  - destruct (Z.ltb_spec (vcpu_id vcpu) CONFIG_MAX_NUM_NODES); [| lia].
    simpl. eexists; reflexivity.
  - simpl. eexists; reflexivity.
Qed.

(** One round of each loop. *)
Lemma virq_find_spi_loop_S (n : nat) (i : Z) (vgic : vgic_t) (v : Z) :
  virq_find_spi_loop (S n) i vgic v =
  match arr_get None (virqs vgic) i with
  | Some h => if virq h =? v then Some h else virq_find_spi_loop n (i + 1) vgic v
  | None => virq_find_spi_loop n (i + 1) vgic v
  end.
Proof. reflexivity. Qed.

Lemma virq_spi_add_loop_S (n : nat) (i : Z) (virq_data : virq_handle) :
  virq_spi_add_loop (S n) i virq_data =
  bind get_vgic (fun vgic =>
    match arr_get None (virqs vgic) i with
    | None =>
        bind (modify_vgic (with_virqs (arr_set (virqs vgic) i (Some virq_data))))
             (fun _ => ret 0)
    | Some _ => virq_spi_add_loop n (i + 1) virq_data
    end).
Proof. reflexivity. Qed.

Lemma find_empty_list_reg_loop_S (n : nat) (i : Z) (row : list (option virq_handle)) :
  find_empty_list_reg_loop (S n) i row =
  match arr_get None row i with
  | None => i
  | Some _ => find_empty_list_reg_loop n (i + 1) row
  end.
Proof. reflexivity. Qed.

Lemma bit_loop_S (fuel : nat) (data : Z) (body : Z -> M unit) :
  bit_loop (S fuel) data body =
  if data =? 0 then ret tt
  else bind (body (CTZ data)) (fun _ =>
         bit_loop fuel (Z.land data (not32 (u32 (Z.shiftl 1 (CTZ data))))) body).
Proof. reflexivity. Qed.

Lemma sgir_loop_S (e : env) (vcpu : vm_vcpu_t) (v target_list : Z) (n : nat) (i : Z) :
  sgir_loop e vcpu v target_list (S n) i =
  bind (if (Z.land target_list (Z.shiftl 1 i) =? 0)
           || negb (is_vcpu_online e (vcpu_id (vcpus (vm vcpu) i)))
        then ret tt
        else bind (vm_inject_irq e (vcpus (vm vcpu) i) v) (fun _ => ret tt))
       (fun _ => sgir_loop e vcpu v target_list n (i + 1)).
Proof. reflexivity. Qed.

Lemma virq_find_spi_loop_ext (n : nat) (i : Z) (g1 g2 : vgic_t) (v : Z) :
  virqs g1 = virqs g2 ->
  virq_find_spi_loop n i g1 v = virq_find_spi_loop n i g2 v.
Proof.
  intros H. revert i. induction n as [| n IH]; intros i; [reflexivity |].
  rewrite !virq_find_spi_loop_S, H, !IH. reflexivity.
Qed.

(** The lookup reads the two handler tables and nothing else. *)
Lemma virq_find_irq_data_tables (vcpu : vm_vcpu_t) (v : Z) (s t : state)
    (r : option virq_handle) :
  sgi_ppi_irq (st_vgic t) = sgi_ppi_irq (st_vgic s) ->
  virqs (st_vgic t) = virqs (st_vgic s) ->
  virq_find_irq_data vcpu v s = Some (r, s) ->
  virq_find_irq_data vcpu v t = Some (r, t).
Proof.
  intros H1 H2.
  unfold virq_find_irq_data, virq_get_sgi_ppi, virq_find_spi_irq_data. munfold.
  destruct (v <? GIC_SPI_IRQ_MIN).
  - destruct (vcpu_id vcpu <? CONFIG_MAX_NUM_NODES); simpl; [| discriminate].
    rewrite H1. intros H. inversion H. reflexivity.
  - simpl. intros H. inversion H as [Hr].
    rewrite (virq_find_spi_loop_ext _ _ (st_vgic t) (st_vgic s)) by exact H2.
    reflexivity.
Qed.

(** ** [vgic_dist_set_pending_irq]: the paths that do nothing *)

(** C2.  For a vCPU of the machine, [vgic_dist_set_pending_irq] returns -1
    and leaves the whole state as it was (distributor image, handler tables,
    overflow queues, [lr_shadow], and the log of outside calls) whenever the
    lookup finds no handler, or the distributor is disabled, or the enable
    bit of the IRQ is clear for that vCPU.  [vm_inject_irq] then returns -1
    too, with the same distributor image and tables; only the call itself is
    logged. *)
Theorem vgic_dist_set_pending_irq_rejects (e : env) (vcpu : vm_vcpu_t) (irq : Z)
    (s : state) :
  vcpu_id vcpu < CONFIG_MAX_NUM_NODES ->
  virq_find_irq_data vcpu irq s = Some (None, s)
  \/ gic_dist_is_enabled (st_dist s) = false
  \/ is_enabled (st_dist s) irq (vcpu_id vcpu) = false ->
  vgic_dist_set_pending_irq e vcpu irq s = Some (-1, s)
  /\ vm_inject_irq e vcpu irq s
     = Some (-1, mk_state (st_dist s) (st_vgic s)
                   (st_log s ++ [EvInjectIRQ (vcpu_id vcpu) irq])).
Proof.
  intros Hid Hcase.
  assert (Hgen : forall t, sgi_ppi_irq (st_vgic t) = sgi_ppi_irq (st_vgic s) ->
                   virqs (st_vgic t) = virqs (st_vgic s) ->
                   st_dist t = st_dist s ->
                   vgic_dist_set_pending_irq e vcpu irq t = Some (-1, t)).
  { intros t Ht1 Ht2 Ht3.
    destruct (virq_find_irq_data_returns vcpu irq s Hid) as [r Hr].
    pose proof (virq_find_irq_data_tables vcpu irq s t r Ht1 Ht2 Hr) as Hrt.
    unfold vgic_dist_set_pending_irq. unfold bind at 1, get_dist.
    unfold bind at 1. rewrite Hrt, Ht3.
    destruct r as [h |]; [| reflexivity].
    destruct Hcase as [Hnone | [Hdis | Hdis]].
    - rewrite Hr in Hnone. discriminate.
    - rewrite Hdis. reflexivity.
    - rewrite Hdis, orb_true_r. reflexivity. }
  split.
  - apply Hgen; reflexivity.
  - unfold vm_inject_irq. unfold bind at 1, emit. apply Hgen; reflexivity.
Qed.

Lemma ignores_pipeline_same (I : state -> Prop) (s : state) :
  ignores_pipeline I -> I s ->
  I (mk_state (st_dist s) (st_vgic s) (st_log s)).
Proof. intros _ HI. destruct s; exact HI. Qed.

Lemma vgic_irq_enqueue_frame (I : state -> Prop) (vcpu : vm_vcpu_t) (h : virq_handle) :
  ignores_pipeline I -> preserves I (vgic_irq_enqueue vcpu h).
Proof.
  intros HI s a s' Hs. unfold vgic_irq_enqueue. munfold.
  destruct (IRQ_QUEUE_NEXT _ =? _); intros H; inversion H; subst.
  - exact Hs.
  - apply (HI s _ _ _ Hs).
Qed.

Lemma vgic_irq_dequeue_frame (I : state -> Prop) (vcpu : vm_vcpu_t) :
  ignores_pipeline I -> preserves I (vgic_irq_dequeue vcpu).
Proof.
  intros HI s a s' Hs. unfold vgic_irq_dequeue. munfold.
  destruct (negb _); intros H; inversion H; subst.
  - apply (HI s _ _ _ Hs).
  - exact Hs.
Qed.

Lemma vgic_find_empty_list_reg_state (vcpu : vm_vcpu_t) (s s' : state) (i : Z) :
  vgic_find_empty_list_reg vcpu s = Some (i, s') -> s' = s.
Proof.
  unfold vgic_find_empty_list_reg. munfold. intros H. inversion H. reflexivity.
Qed.

Lemma vgic_find_empty_list_reg_frame (I : state -> Prop) (vcpu : vm_vcpu_t) :
  preserves I (vgic_find_empty_list_reg vcpu).
Proof.
  intros s a s' Hs H. apply vgic_find_empty_list_reg_state in H. subst. exact Hs.
Qed.

Lemma vgic_vcpu_load_list_reg_frame (I : state -> Prop) (e : env) (vcpu : vm_vcpu_t)
    (idx : Z) (h : virq_handle) :
  ignores_pipeline I -> preserves I (vgic_vcpu_load_list_reg e vcpu idx h).
Proof.
  intros HI s a s' Hs. unfold vgic_vcpu_load_list_reg, vgic_shadow_irq. munfold.
  intros H. inversion H; subst. apply (HI s _ _ _ Hs).
Qed.

(** What [vgic_dist_set_pending_irq] does to the distributor image and the
    handler tables: nothing, or exactly [set_pending] for the handler found. *)
Lemma vgic_dist_set_pending_irq_dist (e : env) (vcpu : vm_vcpu_t) (irq : Z)
    (s s1 : state) (r : Z) :
  vgic_dist_set_pending_irq e vcpu irq s = Some (r, s1) ->
  sgi_ppi_irq (st_vgic s1) = sgi_ppi_irq (st_vgic s)
  /\ virqs (st_vgic s1) = virqs (st_vgic s)
  /\ match virq_find_irq_data vcpu irq s with
     | Some (Some h, _) =>
         if negb (gic_dist_is_enabled (st_dist s))
            || negb (is_enabled (st_dist s) irq (vcpu_id vcpu))
         then s1 = s /\ r = -1
         else if is_pending (st_dist s) (virq h) (vcpu_id vcpu)
         then s1 = s /\ r = 0
         else st_dist s1 = set_pending (st_dist s) (virq h) true (vcpu_id vcpu)
     | Some (None, _) => s1 = s /\ r = -1
     | None => False
     end.
Proof.
  unfold vgic_dist_set_pending_irq. unfold bind at 1, get_dist. unfold bind at 1.
  destruct (virq_find_irq_data vcpu irq s) as [[o s0] |] eqn:Hfind; [| discriminate].
  pose proof (virq_find_irq_data_state _ _ _ _ _ Hfind) as ->.
  destruct o as [h |]; [| intros H; inversion H; subst; auto].
  destruct (negb _ || negb _); [intros H; inversion H; subst; auto |].
  destruct (is_pending _ _ _); [intros H; inversion H; subst; auto |].
  unfold bind at 1, modify_dist.
  set (I := fun t : state =>
              sgi_ppi_irq (st_vgic t) = sgi_ppi_irq (st_vgic s)
              /\ virqs (st_vgic t) = virqs (st_vgic s)
              /\ st_dist t = set_pending (st_dist s) (virq h) true (vcpu_id vcpu)).
  assert (HI : ignores_pipeline I).
  { intros t lr q lg (H1 & H2 & H3). repeat split; assumption. }
  intros H.
  assert (Hs1 : I s1).
  { revert H. apply (preserves_bind I); [apply vgic_irq_enqueue_frame, HI | | ].
    - intros err. destruct (negb (err =? 0)); [apply preserves_ret |].
      apply preserves_bind; [apply vgic_find_empty_list_reg_frame |].
      intros idx. destruct (idx <? 0); [apply preserves_ret |].
      apply preserves_bind; [apply vgic_irq_dequeue_frame, HI |].
      intros [h' |]; [apply vgic_vcpu_load_list_reg_frame, HI | apply preserves_abort].
    - repeat split; reflexivity. }
  exact Hs1.
Qed.

Lemma set_pending_enable_fields (d : gic_dist_map) (irq v : Z) (b : bool) :
  enable (set_pending d irq b v) = enable d
  /\ enable_set0 (set_pending d irq b v) = enable_set0 d
  /\ enable_set (set_pending d irq b v) = enable_set d.
Proof.
  unfold set_pending, set_sgi_ppi_pending, set_spi_pending.
  destruct (irq <? GIC_SPI_IRQ_MIN), b; simpl; auto.
Qed.

Lemma is_pending_set_pending (d : gic_dist_map) (irq v : Z) :
  0 <= irq -> pending_word_exists d irq v ->
  is_pending (set_pending d irq true v) irq v = true.
Proof.
  intros Hirq. unfold pending_word_exists, is_pending, set_pending,
    is_sgi_ppi_pending, is_spi_pending, set_sgi_ppi_pending, set_spi_pending.
  destruct (irq <? GIC_SPI_IRQ_MIN); simpl; intros Hin.
  - rewrite arr_get_set_eq by lia.
    rewrite land_IRQ_BIT_nonzero, set_bit_testbit, Z.eqb_refl, orb_true_r by lia.
    reflexivity.
  - rewrite IRQ_IDX_nonneg by lia.
    assert (0 <= irq / 32) by (apply Z.div_pos; lia).
    rewrite arr_get_set_eq by lia.
    rewrite land_IRQ_BIT_nonzero, set_bit_testbit, Z.eqb_refl, orb_true_r by lia.
    reflexivity.
Qed.

(** C3.  With a handler registered for the IRQ under its own number, the
    distributor enabled and the IRQ enabled:
    - if the pending bit is already set, [vgic_dist_set_pending_irq] returns
      0 and leaves the whole state as it was, so nothing is enqueued and no
      list register is loaded (the log of outside calls is unchanged);
    - hence, for an IRQ whose pending word exists, whatever a first
      set-pending returned, a second one right after it returns 0 and changes
      nothing. *)
Theorem vgic_dist_set_pending_irq_idempotent (e : env) (vcpu : vm_vcpu_t) (irq : Z)
    (s : state) (h : virq_handle) :
  virq_find_irq_data vcpu irq s = Some (Some h, s) ->
  virq h = irq ->
  gic_dist_is_enabled (st_dist s) = true ->
  is_enabled (st_dist s) irq (vcpu_id vcpu) = true ->
  (is_pending (st_dist s) irq (vcpu_id vcpu) = true ->
   vgic_dist_set_pending_irq e vcpu irq s = Some (0, s))
  /\ (0 <= irq -> pending_word_exists (st_dist s) irq (vcpu_id vcpu) ->
      forall r s1, vgic_dist_set_pending_irq e vcpu irq s = Some (r, s1) ->
      forall e', vgic_dist_set_pending_irq e' vcpu irq s1 = Some (0, s1)).
Proof.
  intros Hfind Hvirq Hen Hirq.
  assert (Hnoop : forall e0 t,
            virq_find_irq_data vcpu irq t = Some (Some h, t) ->
            gic_dist_is_enabled (st_dist t) = true ->
            is_enabled (st_dist t) irq (vcpu_id vcpu) = true ->
            is_pending (st_dist t) irq (vcpu_id vcpu) = true ->
            vgic_dist_set_pending_irq e0 vcpu irq t = Some (0, t)).
  { intros e0 t Hf He Hi Hp.
    unfold vgic_dist_set_pending_irq. unfold bind at 1, get_dist.
    unfold bind at 1. rewrite Hf, He, Hi, Hvirq, Hp. reflexivity. }
  split; [intros Hpend; apply Hnoop; assumption |].
  intros Hnn Hword r s1 Hrun e'.
  destruct (vgic_dist_set_pending_irq_dist _ _ _ _ _ _ Hrun) as (Ht1 & Ht2 & Hd).
  pose proof (virq_find_irq_data_tables vcpu irq s s1 _ Ht1 Ht2 Hfind) as Hfind1.
  rewrite Hfind, Hen, Hirq, Hvirq in Hd. simpl in Hd.
  destruct (is_pending (st_dist s) irq (vcpu_id vcpu)) eqn:Hp.
  - destruct Hd as [-> _]. apply Hnoop; assumption.
  - destruct (set_pending_enable_fields (st_dist s) irq (vcpu_id vcpu) true)
      as (E1 & E2 & E3).
    apply Hnoop; [assumption | | |].
    + unfold gic_dist_is_enabled in *. rewrite Hd, E1. exact Hen.
    + unfold is_enabled, is_sgi_ppi_enabled, is_spi_enabled in *.
      rewrite Hd, E2, E3. exact Hirq.
    + rewrite Hd. apply is_pending_set_pending; assumption.
Qed.

(** ** The overflow ring *)

Ltac mlia := Z.div_mod_to_equations; lia.

Lemma IRQ_QUEUE_NEXT_mod (i : Z) :
  0 <= i -> IRQ_QUEUE_NEXT i = (i + 1) mod MAX_IRQ_QUEUE_LEN.
Proof.
  intros Hi. unfold IRQ_QUEUE_NEXT, MAX_IRQ_QUEUE_LEN.
  change (64 - 1) with (Z.ones 6). rewrite Z.land_ones by lia. reflexivity.
Qed.

Lemma ring_holds_empty (slots : list (option virq_handle)) (i : Z) :
  length slots = Z.to_nat MAX_IRQ_QUEUE_LEN -> 0 <= i < MAX_IRQ_QUEUE_LEN ->
  ring_holds (mk_irq_queue slots i i) [].
Proof.
  intros Hlen Hi. unfold ring_holds, MAX_IRQ_QUEUE_LEN in *. simpl.
  repeat split; try lia.
  - rewrite Z.add_0_r, Z.mod_small; lia.
  - intros k x Hk. rewrite lookup_nil in Hk. discriminate.
Qed.

Lemma ring_holds_full_iff (q : irq_queue_t) (l : list virq_handle) :
  ring_holds q l ->
  (IRQ_QUEUE_NEXT (tail q) = head q <-> Z.of_nat (length l) = MAX_IRQ_QUEUE_LEN - 1).
Proof.
  intros (Hlen & Hh & Hl & Ht & _). unfold MAX_IRQ_QUEUE_LEN in *.
  rewrite IRQ_QUEUE_NEXT_mod by (rewrite Ht; mlia).
  unfold MAX_IRQ_QUEUE_LEN. rewrite Ht. split; intros H; mlia.
Qed.

Lemma ring_holds_empty_iff (q : irq_queue_t) (l : list virq_handle) :
  ring_holds q l -> (head q = tail q <-> l = []).
Proof.
  intros (Hlen & Hh & Hl & Ht & _). unfold MAX_IRQ_QUEUE_LEN in *.
  rewrite Ht. split.
  - intros H. destruct l as [| x l]; [reflexivity |]. simpl length in *. mlia.
  - intros ->. simpl. rewrite Z.add_0_r, Z.mod_small; lia.
Qed.

Lemma ring_holds_enqueue (q : irq_queue_t) (l : list virq_handle) (irq : virq_handle) :
  ring_holds q l ->
  IRQ_QUEUE_NEXT (tail q) <> head q ->
  ring_holds (mk_irq_queue (arr_set (irqs q) (tail q) (Some irq)) (head q)
                (IRQ_QUEUE_NEXT (tail q)))
             (l ++ [irq]).
Proof.
  intros Hq Hfull.
  pose proof (ring_holds_full_iff q l Hq) as Hiff.
  destruct Hq as (Hlen & Hh & Hl & Ht & Hslots).
  unfold ring_holds, MAX_IRQ_QUEUE_LEN in *. simpl.
  assert (Hl' : Z.of_nat (length l) < 63) by lia.
  assert (Htr : 0 <= tail q < 64) by (rewrite Ht; mlia).
  rewrite arr_set_length, length_app. simpl length.
  repeat split; try lia.
  - rewrite IRQ_QUEUE_NEXT_mod by lia. unfold MAX_IRQ_QUEUE_LEN. rewrite Ht. mlia.
  - intros k x Hk.
    destruct (Nat.lt_ge_cases k (length l)) as [Hlt | Hge].
    + rewrite lookup_app_l in Hk by exact Hlt.
      rewrite arr_get_set_ne by (rewrite Ht; mlia).
      apply Hslots, Hk.
    + rewrite lookup_app_r in Hk by exact Hge.
      destruct (k - length l)%nat as [| n] eqn:Hn; [| destruct n; discriminate].
      simpl in Hk. inversion Hk; subst x.
      assert (k = length l) by lia. subst k.
      rewrite <- Ht. apply arr_get_set_eq. lia.
Qed.

Lemma ring_holds_dequeue (q : irq_queue_t) (x : virq_handle) (l : list virq_handle) :
  ring_holds q (x :: l) ->
  arr_get None (irqs q) (head q) = Some x
  /\ ring_holds (mk_irq_queue (irqs q) (IRQ_QUEUE_NEXT (head q)) (tail q)) l.
Proof.
  intros (Hlen & Hh & Hl & Ht & Hslots).
  unfold ring_holds, MAX_IRQ_QUEUE_LEN in *. simpl length in *. simpl.
  rewrite IRQ_QUEUE_NEXT_mod by lia. unfold MAX_IRQ_QUEUE_LEN.
  split.
  - specialize (Hslots 0%nat x eq_refl). simpl in Hslots.
    rewrite Z.add_0_r, Z.mod_small in Hslots by lia. exact Hslots.
  - repeat split; try lia; try mlia.
    intros k y Hk. specialize (Hslots (S k) y Hk).
    replace (((head q + 1) mod 64 + Z.of_nat k) mod 64)
      with ((head q + Z.of_nat (S k)) mod 64) by mlia.
    exact Hslots.
Qed.

Lemma vgic_irq_enqueue_run (vcpu : vm_vcpu_t) (s : state) (q : irq_queue_t)
    (irq : virq_handle) :
  0 <= vcpu_id vcpu ->
  irq_queue (st_vgic s) !! Z.to_nat (vcpu_id vcpu) = Some q ->
  vgic_irq_enqueue vcpu irq s
  = if IRQ_QUEUE_NEXT (tail q) =? head q then Some (-1, s)
    else Some (0, with_queue_of (vcpu_id vcpu)
                    (mk_irq_queue (arr_set (irqs q) (tail q) (Some irq)) (head q)
                       (IRQ_QUEUE_NEXT (tail q))) s).
Proof.
  intros Hid Hq.
  assert (Hget : arr_get no_queue (irq_queue (st_vgic s)) (vcpu_id vcpu) = q)
    by (apply arr_get_lookup; assumption).
  unfold vgic_irq_enqueue. munfold. rewrite Hget.
  destruct (IRQ_QUEUE_NEXT (tail q) =? head q); reflexivity.
Qed.

Lemma vgic_irq_dequeue_run (vcpu : vm_vcpu_t) (s : state) (q : irq_queue_t) :
  0 <= vcpu_id vcpu ->
  irq_queue (st_vgic s) !! Z.to_nat (vcpu_id vcpu) = Some q ->
  vgic_irq_dequeue vcpu s
  = if head q =? tail q then Some (None, s)
    else Some (arr_get None (irqs q) (head q),
               with_queue_of (vcpu_id vcpu)
                 (mk_irq_queue (irqs q) (IRQ_QUEUE_NEXT (head q)) (tail q)) s).
Proof.
  intros Hid Hq.
  assert (Hget : arr_get no_queue (irq_queue (st_vgic s)) (vcpu_id vcpu) = q)
    by (apply arr_get_lookup; assumption).
  unfold vgic_irq_dequeue. munfold. rewrite Hget.
  destruct (head q =? tail q); reflexivity.
Qed.

(** C8.  For the overflow ring [q] of a vCPU, holding the handlers [l]
    (oldest first):
    - [vgic_irq_enqueue] returns -1, leaving the state alone, exactly when
      [IRQ_QUEUE_NEXT (tail q)] equals [head q], which is when the ring
      holds [MAX_IRQ_QUEUE_LEN - 1] handlers; otherwise it returns 0, stores
      the handler in slot [tail q], advances [tail] by [IRQ_QUEUE_NEXT], and
      the ring then holds [l] followed by the new handler;
    - [vgic_irq_dequeue] returns NULL, leaving the state alone, exactly when
      [head q] equals [tail q], which is when the ring is empty; otherwise it
      returns the oldest handler, advances [head] by [IRQ_QUEUE_NEXT], and
      the ring then holds the rest;
    - the ring never holds [MAX_IRQ_QUEUE_LEN] handlers. *)
Theorem irq_queue_ring_discipline (vcpu : vm_vcpu_t) (s : state) (q : irq_queue_t)
    (l : list virq_handle) (irq : virq_handle) :
  0 <= vcpu_id vcpu ->
  irq_queue (st_vgic s) !! Z.to_nat (vcpu_id vcpu) = Some q ->
  ring_holds q l ->
  Z.of_nat (length l) < MAX_IRQ_QUEUE_LEN
  /\ (IRQ_QUEUE_NEXT (tail q) = head q
      <-> Z.of_nat (length l) = MAX_IRQ_QUEUE_LEN - 1)
  /\ (if IRQ_QUEUE_NEXT (tail q) =? head q
      then vgic_irq_enqueue vcpu irq s = Some (-1, s)
      else
        let q' := mk_irq_queue (arr_set (irqs q) (tail q) (Some irq)) (head q)
                    (IRQ_QUEUE_NEXT (tail q)) in
        vgic_irq_enqueue vcpu irq s = Some (0, with_queue_of (vcpu_id vcpu) q' s)
        /\ ring_holds q' (l ++ [irq]))
  /\ (head q = tail q <-> l = [])
  /\ match l with
     | [] => vgic_irq_dequeue vcpu s = Some (None, s)
     | x :: l' =>
         let q' := mk_irq_queue (irqs q) (IRQ_QUEUE_NEXT (head q)) (tail q) in
         vgic_irq_dequeue vcpu s = Some (Some x, with_queue_of (vcpu_id vcpu) q' s)
         /\ ring_holds q' l'
     end.
Proof.
  intros Hid Hq Hring.
  pose proof (ring_holds_full_iff q l Hring) as Hfull.
  pose proof (ring_holds_empty_iff q l Hring) as Hempty.
  split; [destruct Hring as (_ & _ & Hl & _); exact Hl |].
  split; [exact Hfull |].
  split; [| split; [exact Hempty |]].
  - rewrite (vgic_irq_enqueue_run vcpu s q irq Hid Hq).
    destruct (Z.eqb_spec (IRQ_QUEUE_NEXT (tail q)) (head q)) as [Heq | Hne].
    + reflexivity.
    + cbv zeta. split; [reflexivity |]. apply ring_holds_enqueue; assumption.
  - rewrite (vgic_irq_dequeue_run vcpu s q Hid Hq).
    destruct l as [| x l'].
    + destruct (Z.eqb_spec (head q) (tail q)) as [_ | Hne]; [reflexivity |].
      exfalso. apply Hne, Hempty. reflexivity.
    + destruct (Z.eqb_spec (head q) (tail q)) as [Heq | _].
      * apply Hempty in Heq. discriminate.
      * destruct (ring_holds_dequeue q x l' Hring) as [Hx Hq'].
        cbv zeta. rewrite Hx. split; [reflexivity | exact Hq'].
Qed.

(** ** The handler tables *)

Lemma virq_find_spi_loop_virq (n : nat) (i : Z) (g : vgic_t) (v : Z) (h : virq_handle) :
  virq_find_spi_loop n i g v = Some h -> virq h = v.
Proof.
  revert i. induction n as [| n IH]; intros i; [discriminate |].
  rewrite virq_find_spi_loop_S.
  destruct (arr_get None (virqs g) i) as [h' |]; [| apply IH].
  destruct (Z.eqb_spec (virq h') v) as [Heq | _]; [| apply IH].
  intros H. inversion H as [Hh]. rewrite <- Hh. exact Heq.
Qed.

Lemma virq_spi_add_loop_sgi_ppi (n : nat) (i : Z) (h : virq_handle) (T : list (list (option virq_handle))) :
  preserves (fun s => sgi_ppi_irq (st_vgic s) = T) (virq_spi_add_loop n i h).
Proof.
  revert i. induction n as [| n IH]; intros i; [apply preserves_ret |].
  rewrite virq_spi_add_loop_S.
  apply preserves_bind; [apply preserves_get_vgic |].
  intros g. destruct (arr_get None (virqs g) i); [apply IH |].
  apply preserves_bind; [| intros; apply preserves_ret].
  apply preserves_modify_vgic. intros s Hs. exact Hs.
Qed.

Lemma virq_add_sgi_ppi_indexed (vcpu : vm_vcpu_t) (h : virq_handle) :
  preserves (fun s => sgi_ppi_indexed (st_vgic s)) (virq_add vcpu h).
Proof.
  intros s r s' Hs. unfold virq_add.
  destruct (virq h <? GIC_SPI_IRQ_MIN).
  - unfold virq_sgi_ppi_add. munfold.
    destruct (arr_get None (arr_get [] (sgi_ppi_irq (st_vgic s)) (vcpu_id vcpu)) (virq h))
      eqn:Hslot; intros H; inversion H; subst; [exact Hs |].
    unfold sgi_ppi_indexed. simpl. intros i j h' Hh'. rewrite arr_get_set in Hh'.
    destruct ((i =? vcpu_id vcpu) && (0 <=? vcpu_id vcpu)
              && (vcpu_id vcpu <? Z.of_nat (length (sgi_ppi_irq (st_vgic s))))).
    + rewrite arr_get_set in Hh'.
      destruct (Z.eqb_spec j (virq h)) as [-> | Hne]; simpl in Hh'.
      * destruct ((0 <=? virq h) && _) in Hh'.
        -- inversion Hh'; subst. reflexivity.
        -- rewrite Hslot in Hh'. discriminate.
      * apply (Hs (vcpu_id vcpu) j h' Hh').
    + apply (Hs i j h' Hh').
  - intros H. unfold sgi_ppi_indexed.
    rewrite (virq_spi_add_loop_sgi_ppi _ _ _ (sgi_ppi_irq (st_vgic s)) s r s' eq_refl H).
    exact Hs.
Qed.

Lemma registered_sgi_ppi_indexed (s : state) :
  registered s -> sgi_ppi_indexed (st_vgic s).
Proof.
  induction 1 as [s [Hsgi _] | s vcpu h r s' _ IH Hadd].
  - intros i j h Hh. rewrite Hsgi in Hh. discriminate.
  - exact (virq_add_sgi_ppi_indexed vcpu h s r s' IH Hadd).
Qed.

(** The lookup under the indexing invariant. *)
Lemma virq_find_irq_data_indexed (vcpu : vm_vcpu_t) (v : Z) (s s' : state)
    (h : virq_handle) :
  sgi_ppi_indexed (st_vgic s) ->
  virq_find_irq_data vcpu v s = Some (Some h, s') -> virq h = v.
Proof.
  intros Hinv. unfold virq_find_irq_data, virq_get_sgi_ppi, virq_find_spi_irq_data.
  munfold. destruct (v <? GIC_SPI_IRQ_MIN).
  - destruct (vcpu_id vcpu <? CONFIG_MAX_NUM_NODES); simpl; [| discriminate].
    intros H. inversion H as [[Hh Hs]]. apply (Hinv _ _ _ Hh).
  - simpl. intros H. inversion H as [[Hh Hs]].
    apply (virq_find_spi_loop_virq _ _ _ _ _ Hh).
Qed.

(** C9.  In every state that registrations build from empty tables, a
    handler that [virq_find_irq_data] returns for the number [v] has [v] in
    its [virq] field: the SPI scan returns matching entries only, and
    [virq_sgi_ppi_add] files each SGI/PPI handler under its own number. *)
Theorem virq_find_irq_data_virq (vcpu : vm_vcpu_t) (v : Z) (s s' : state)
    (h : virq_handle) :
  registered s ->
  virq_find_irq_data vcpu v s = Some (Some h, s') ->
  virq h = v.
Proof.
  intros Hreg. apply virq_find_irq_data_indexed, registered_sgi_ppi_indexed, Hreg.
Qed.

(** ** The dispatch on the offset *)

Lemma RANGE32_spec (a b offset : Z) :
  reflect (a <= offset <= b + 3) (RANGE32 a b offset).
Proof.
  unfold RANGE32.
  destruct (a <=? offset) eqn:E1, (offset <=? b + 3) eqn:E2; simpl; constructor;
    rewrite ?Z.leb_le, ?Z.leb_gt in E1, E2; lia.
Qed.

Ltac unfold_regs :=
  unfold GIC_DIST_CTLR, GIC_DIST_TYPER, GIC_DIST_IIDR, GIC_DIST_IGROUPR0,
    GIC_DIST_IGROUPR1, GIC_DIST_IGROUPRN, GIC_DIST_ISENABLER0,
    GIC_DIST_ISENABLER1, GIC_DIST_ISENABLERN, GIC_DIST_ICENABLER0,
    GIC_DIST_ICENABLER1, GIC_DIST_ICENABLERN, GIC_DIST_ISPENDR0,
    GIC_DIST_ISPENDR1, GIC_DIST_ISPENDRN, GIC_DIST_ICPENDR0, GIC_DIST_ICPENDR1,
    GIC_DIST_ICPENDRN, GIC_DIST_ISACTIVER0, GIC_DIST_ISACTIVER1,
    GIC_DIST_ISACTIVERN, GIC_DIST_ICACTIVER0, GIC_DIST_ICACTIVER1,
    GIC_DIST_ICACTIVERN, GIC_DIST_IPRIORITYR0, GIC_DIST_IPRIORITYR7,
    GIC_DIST_IPRIORITYR8, GIC_DIST_IPRIORITYRN, GIC_DIST_ITARGETSR0,
    GIC_DIST_ITARGETSR7, GIC_DIST_ITARGETSR8, GIC_DIST_ITARGETSRN,
    GIC_DIST_ICFGR0, GIC_DIST_ICFGRN, GIC_DIST_SGIR, GIC_DIST_CPENDSGIR0,
    GIC_DIST_CPENDSGIRN, GIC_DIST_SPENDSGIR0, GIC_DIST_SPENDSGIRN in *.




(** ** Count trailing zeros and the bit loop *)

Lemma ctz_pos_spec (p : positive) :
  0 <= ctz_pos p
  /\ Z.testbit (Zpos p) (ctz_pos p) = true
  /\ forall j, 0 <= j < ctz_pos p -> Z.testbit (Zpos p) j = false.
Proof.
  induction p as [q IH | q IH |]; simpl ctz_pos.
  - split; [lia |]. split; [reflexivity | intros j Hj; lia].
  - destruct IH as (H0 & H1 & H2).
    split; [lia |]. split.
    + rewrite Pos2Z.inj_xO, Z.double_bits_succ. exact H1.
    + intros j Hj. rewrite Pos2Z.inj_xO.
      destruct (Z.eq_dec j 0) as [-> | Hne]; [apply Z.testbit_even_0 |].
      replace j with (Z.succ (j - 1)) by lia.
      rewrite Z.double_bits_succ. apply H2. lia.
  - split; [lia |]. split; [reflexivity | intros j Hj; lia].
Qed.

Lemma CTZ_spec (x : Z) :
  0 < x ->
  0 <= CTZ x
  /\ Z.testbit x (CTZ x) = true
  /\ forall j, 0 <= j < CTZ x -> Z.testbit x j = false.
Proof.
  destruct x as [| p | p]; try lia. intros _. apply ctz_pos_spec.
Qed.

(** A 32-bit word has no bit at 32 or above. *)
Lemma word_high_bits (x j : Z) : 0 <= x < 2 ^ 32 -> 32 <= j -> Z.testbit x j = false.
Proof.
  intros Hx Hj. rewrite <- (Z.mod_small x (2 ^ 32)) by lia.
  apply Z.mod_pow2_bits_high. lia.
Qed.

Lemma CTZ_word (x : Z) : 0 < x < 2 ^ 32 -> 0 <= CTZ x < 32.
Proof.
  intros Hx. destruct (CTZ_spec x) as (H0 & H1 & _); [lia |].
  split; [exact H0 |].
  destruct (Z.lt_ge_cases (CTZ x) 32) as [? | Hge]; [assumption |].
  rewrite word_high_bits in H1 by lia. discriminate.
Qed.

(** [data &= ~(1U << irq)] *)
Lemma clear_lowest_testbit (data c j : Z) :
  0 <= c < 32 -> 0 <= j ->
  Z.testbit (Z.land data (not32 (u32 (Z.shiftl 1 c)))) j
  = Z.testbit data j && (j <? 32) && negb (j =? c).
Proof.
  intros Hc Hj.
  rewrite Z.land_spec, not32_testbit, u32_testbit, Z.shiftl_1_l, Z.pow2_bits_eqb by lia.
  destruct (Z.ltb_spec j 32); simpl.
  - rewrite andb_true_r. rewrite (Z.eqb_sym c j). reflexivity.
  - rewrite !andb_false_r. reflexivity.
Qed.

Lemma clear_lowest_range (data c : Z) :
  0 <= data < 2 ^ 32 -> 0 <= c < 32 ->
  0 <= Z.land data (not32 (u32 (Z.shiftl 1 c))) < 2 ^ 32.
Proof.
  intros Hd Hc.
  assert (Hnn : 0 <= Z.land data (not32 (u32 (Z.shiftl 1 c))))
    by (apply Z.land_nonneg; lia).
  split; [exact Hnn |].
  apply (Z.bounded_iff_bits_nonneg 32); [lia | exact Hnn |].
  intros l Hl. rewrite Z.land_spec, (word_high_bits data l) by lia. reflexivity.
Qed.

Lemma word_zero_from_bits (x : Z) :
  0 <= x < 2 ^ 32 -> (forall j, 0 <= j < 32 -> Z.testbit x j = false) -> x = 0.
Proof.
  intros Hx Hb. apply Z.bits_inj'. intros n Hn. rewrite Z.bits_0.
  destruct (Z.lt_ge_cases n 32); [apply Hb; lia | apply word_high_bits; lia].
Qed.

Lemma bit_loop_preserves (I : state -> Prop) (body : Z -> M unit) (fuel : nat) (data : Z) :
  (forall c, preserves I (body c)) -> preserves I (bit_loop fuel data body).
Proof.
  intros Hbody. revert data. induction fuel as [| fuel IH]; intros data.
  - apply preserves_ret.
  - rewrite bit_loop_S. destruct (data =? 0); [apply preserves_ret |].
    apply preserves_bind; [apply Hbody | intros _; apply IH].
Qed.

(** The loop visits the set bits of a word in ascending order and stops
    after the last one: with [Inv k] saying that the bits below [k] have
    been dealt with, 32 rounds take [Inv 0] to [Inv 32]. *)
Lemma bit_loop_rule (body : Z -> M unit) (Inv : Z -> state -> Prop) (data : Z) :
  0 <= data < 2 ^ 32 ->
  (forall c s, 0 <= c < 32 -> Z.testbit data c = true -> Inv c s ->
     exists s', body c s = Some (tt, s') /\ Inv (c + 1) s') ->
  (forall c s, 0 <= c < 32 -> Z.testbit data c = false -> Inv c s -> Inv (c + 1) s) ->
  forall (fuel : nat) (k : Z) (rest : Z) (s : state),
    0 <= k <= 32 -> 32 <= Z.of_nat fuel + k ->
    0 <= rest < 2 ^ 32 ->
    (forall j, 0 <= j -> Z.testbit rest j = Z.testbit data j && (k <=? j)) ->
    Inv k s ->
    exists s', bit_loop fuel rest body s = Some (tt, s') /\ Inv 32 s'.
Proof.
  intros Hdata Hset Hclr.
  assert (Hskip : forall (n : nat) (k : Z) (s : state),
            0 <= k -> k + Z.of_nat n <= 32 ->
            (forall c, k <= c < k + Z.of_nat n -> Z.testbit data c = false) ->
            Inv k s -> Inv (k + Z.of_nat n) s).
  { induction n as [| n IH]; intros k s Hk Hn Hz HI.
    - rewrite Z.add_0_r. exact HI.
    - replace (k + Z.of_nat (S n)) with ((k + 1) + Z.of_nat n) by lia.
      apply IH; [lia | lia | intros c Hc; apply Hz; lia |].
      apply Hclr; [lia | apply Hz; lia | exact HI]. }
  induction fuel as [| fuel IH]; intros k rest s Hk Hfuel Hrest Hbits HI.
  - assert (k = 32) by lia. subst k. exists s. split; [reflexivity | exact HI].
  - rewrite bit_loop_S.
    destruct (Z.eqb_spec rest 0) as [-> | Hnz].
    + exists s. split; [reflexivity |].
      replace 32 with (k + Z.of_nat (Z.to_nat (32 - k))) by lia.
      apply Hskip; [lia | lia | | exact HI].
      intros c Hc. specialize (Hbits c ltac:(lia)).
      rewrite Z.bits_0 in Hbits.
      destruct (Z.leb_spec k c); [| lia]. rewrite andb_true_r in Hbits. congruence.
    + assert (Hpos : 0 < rest < 2 ^ 32) by lia.
      destruct (CTZ_spec rest) as (_ & Hc1 & Hc2); [lia |].
      pose proof (CTZ_word rest Hpos) as Hc.
      set (c := CTZ rest) in *.
      assert (Hkc : k <= c).
      { destruct (Z.le_gt_cases k c) as [? | Hlt]; [assumption |].
        rewrite Hbits in Hc1 by lia.
        destruct (Z.leb_spec k c); [lia |]. rewrite andb_false_r in Hc1. discriminate. }
      assert (Hdc : Z.testbit data c = true).
      { rewrite Hbits in Hc1 by lia. apply andb_true_iff in Hc1. tauto. }
      assert (HIc : Inv c s).
      { replace c with (k + Z.of_nat (Z.to_nat (c - k))) by lia.
        apply Hskip; [lia | lia | | exact HI].
        intros j Hj. specialize (Hc2 j ltac:(lia)). rewrite Hbits in Hc2 by lia.
        destruct (Z.leb_spec k j); [| lia]. rewrite andb_true_r in Hc2. exact Hc2. }
      destruct (Hset c s Hc Hdc HIc) as (s1 & Hrun & HI1).
      unfold bind at 1. rewrite Hrun.
      apply (IH (c + 1)); [lia | lia | apply clear_lowest_range; lia | | exact HI1].
      intros j Hj. rewrite clear_lowest_testbit by lia.
      destruct (Z.ltb_spec j 32) as [Hj32 | Hj32].
      * rewrite Hbits by lia. rewrite andb_true_r.
        destruct (Z.eqb_spec j c) as [-> | Hne]; simpl.
        -- destruct (Z.leb_spec (c + 1) c); [lia |]. rewrite !andb_false_r. reflexivity.
        -- rewrite andb_true_r.
           destruct (Z.leb_spec k j), (Z.leb_spec (c + 1) j); try lia; try reflexivity.
           rewrite andb_true_r, andb_false_r.
           specialize (Hc2 j ltac:(lia)). rewrite Hbits in Hc2 by lia.
           destruct (Z.leb_spec k j); [| lia]. rewrite andb_true_r in Hc2. exact Hc2.
      * rewrite (word_high_bits data j) by lia. rewrite andb_false_r. reflexivity.
Qed.

(** Thirty-two rounds are enough: more fuel changes nothing. *)
Lemma bit_loop_fuel (body : Z -> M unit) (data : Z) (n : nat) (s : state) :
  0 <= data < 2 ^ 32 ->
  bit_loop (32 + n) data body s = bit_loop 32 data body s.
Proof.
  intros Hdata.
  assert (Hgen : forall (f1 f2 : nat) (k : Z) (rest : Z) (t : state),
            0 <= k -> 0 <= rest < 2 ^ 32 ->
            (forall j, 0 <= j < k -> Z.testbit rest j = false) ->
            32 <= Z.of_nat f1 + k -> 32 <= Z.of_nat f2 + k ->
            bit_loop f1 rest body t = bit_loop f2 rest body t).
  { induction f1 as [| f1 IH]; intros f2 k rest t Hk Hrest Hlow H1 H2.
    - assert (rest = 0) by (apply word_zero_from_bits; [lia | intros; apply Hlow; lia]).
      subst rest. destruct f2; [reflexivity |]. rewrite bit_loop_S. reflexivity.
    - destruct f2 as [| f2].
      + assert (rest = 0) by (apply word_zero_from_bits; [lia | intros; apply Hlow; lia]).
        subst rest. rewrite bit_loop_S. reflexivity.
      + rewrite !bit_loop_S.
        destruct (Z.eqb_spec rest 0) as [-> | Hnz]; [reflexivity |].
        assert (Hpos : 0 < rest < 2 ^ 32) by lia.
        destruct (CTZ_spec rest) as (_ & Hc1 & Hc2); [lia |].
        pose proof (CTZ_word rest Hpos) as Hc.
        assert (Hkc : k <= CTZ rest).
        { destruct (Z.le_gt_cases k (CTZ rest)) as [? | Hlt]; [assumption |].
          rewrite Hlow in Hc1 by lia. discriminate. }
        unfold bind. destruct (body (CTZ rest) t) as [[u t1] |]; [| reflexivity].
        apply (IH f2 (CTZ rest + 1)); [lia | apply clear_lowest_range; lia | | lia | lia].
        intros j Hj. rewrite clear_lowest_testbit by lia.
        destruct (Z.eqb_spec j (CTZ rest)) as [-> | Hne].
        * rewrite andb_false_r. reflexivity.
        * rewrite Hc2 by lia. reflexivity. }
  apply (Hgen _ _ 0); lia.
Qed.

(** ** ICENABLER0 and ISENABLER0 *)

Lemma testbit_ones32 (j : Z) : 0 <= j -> Z.testbit 0xFFFFFFFF j = (j <? 32).
Proof.
  intros Hj. change 0xFFFFFFFF with (Z.ones 32). apply Z.testbit_ones_nonneg; lia.
Qed.

Lemma testbit_high16 (j : Z) :
  0 <= j -> Z.testbit 0xFFFF0000 j = (16 <=? j) && (j <? 32).
Proof.
  intros Hj. change 0xFFFF0000 with (Z.shiftl (Z.ones 16) 16).
  rewrite Z.shiftl_spec by lia.
  destruct (Z.leb_spec 16 j) as [Hge | Hlt]; simpl.
  - rewrite Z.testbit_ones_nonneg by lia.
    destruct (Z.ltb_spec (j - 16) 16), (Z.ltb_spec j 32); lia || reflexivity.
  - apply Z.testbit_neg_r. lia.
Qed.

Lemma land_ones32 (x : Z) : 0 <= x < 2 ^ 32 -> Z.land x 0xFFFFFFFF = x.
Proof.
  intros Hx. change 0xFFFFFFFF with (Z.ones 32).
  rewrite Z.land_ones by lia. apply Z.mod_small. exact Hx.
Qed.

Lemma guest_reads_word (e : env) (dev : vgic_dist_device) (vcpu : vm_vcpu_t)
    (off : Z) (s : state) (w : Z) :
  read_switch (st_dist s) vcpu off = Some w ->
  guest_reads e dev vcpu off s (Z.land w 0xFFFFFFFF)
    (mk_state (st_dist s) (st_vgic s)
       (st_log s ++ [EvFaultSetData (Z.land w 0xFFFFFFFF); EvAdvanceFault])).
Proof.
  intros Hw. split; [| reflexivity].
  unfold handle_vgic_dist_fault, read_fault. cbn [fault_is_read].
  unfold handle_vgic_dist_read_fault. unfold bind at 1, get_dist.
  cbn [fault_get_address fault_get_data_mask].
  replace (pstart dev + off - pstart dev) with off by lia.
  rewrite Hw. munfold. cbn. rewrite <- app_assoc. reflexivity.
Qed.

Lemma read_switch_ISENABLER0 (d : gic_dist_map) (vcpu : vm_vcpu_t) :
  read_switch d vcpu GIC_DIST_ISENABLER0
  = Some (arr_get 0 (enable_set0 d) (vcpu_id vcpu)).
Proof. reflexivity. Qed.

(** One round of the ICENABLER0 loop on the calling vCPU's banked word. *)
Lemma vgic_dist_disable_irq_banked (vcpu : vm_vcpu_t) (c : Z) (s : state) :
  0 <= c < 32 ->
  exists d',
    vgic_dist_disable_irq vcpu c s = Some (0, mk_state d' (st_vgic s) (st_log s))
    /\ forall j, 0 <= j < 32 ->
         Z.testbit (arr_get 0 (enable_set0 d') (vcpu_id vcpu)) j
         = Z.testbit (arr_get 0 (enable_set0 (st_dist s)) (vcpu_id vcpu)) j
           && negb ((16 <=? c) && (j =? c)).
Proof.
  intros Hc. unfold vgic_dist_disable_irq, NUM_SGI_VIRQS.
  destruct (Z.leb_spec 16 c) as [Hge | Hlt].
  - eexists. split; [reflexivity |]. intros j Hj.
    unfold set_enable, GIC_SPI_IRQ_MIN, NUM_SGI_VIRQS, NUM_PPI_VIRQS.
    destruct (Z.ltb_spec c (16 + 16)); [| lia].
    unfold set_sgi_ppi_enable. simpl.
    rewrite cleared_word_testbit by lia.
    rewrite Z.eqb_refl, Z.mod_small by lia. reflexivity.
  - exists (st_dist s). split; [destruct s; reflexivity |].
    intros j Hj. rewrite andb_true_r. reflexivity.
Qed.

(** The whole ICENABLER0 loop. *)
Lemma icenabler0_loop (vcpu : vm_vcpu_t) (data : Z) (s : state) :
  0 <= data < 2 ^ 32 ->
  exists s',
    bit_loop 32 data
      (fun irq => bind (vgic_dist_disable_irq vcpu
                          (irq + (GIC_DIST_ICENABLER0 - GIC_DIST_ICENABLER0) * 8))
                       (fun _ => ret tt)) s
    = Some (tt, s')
    /\ st_vgic s' = st_vgic s /\ st_log s' = st_log s
    /\ forall j, 0 <= j < 32 ->
         Z.testbit (arr_get 0 (enable_set0 (st_dist s')) (vcpu_id vcpu)) j
         = Z.testbit (arr_get 0 (enable_set0 (st_dist s)) (vcpu_id vcpu)) j
           && negb (Z.testbit data j && (16 <=? j)).
Proof.
  intros Hdata.
  set (Inv := fun (k : Z) (t : state) =>
    st_vgic t = st_vgic s /\ st_log t = st_log s
    /\ forall j, 0 <= j < 32 ->
         Z.testbit (arr_get 0 (enable_set0 (st_dist t)) (vcpu_id vcpu)) j
         = Z.testbit (arr_get 0 (enable_set0 (st_dist s)) (vcpu_id vcpu)) j
           && negb (Z.testbit data j && (16 <=? j) && (j <? k))).
  destruct (bit_loop_rule
              (fun irq => bind (vgic_dist_disable_irq vcpu
                          (irq + (GIC_DIST_ICENABLER0 - GIC_DIST_ICENABLER0) * 8))
                       (fun _ => ret tt))
              Inv data Hdata) with (fuel := 32%nat) (k := 0) (rest := data) (s := s)
    as (s' & Hrun & (Hv & Hl & Hb)).
  - intros c t Hc Hbit (Hv & Hl & Hb).
    replace (c + (GIC_DIST_ICENABLER0 - GIC_DIST_ICENABLER0) * 8) with c by lia.
    destruct (vgic_dist_disable_irq_banked vcpu c t Hc) as (d' & Hrun & Hd').
    eexists. split; [unfold bind; rewrite Hrun; reflexivity |].
    unfold Inv. simpl. repeat split; try assumption.
    intros j Hj. rewrite Hd', Hb by lia.
    destruct (Z.eqb_spec j c) as [-> | Hne].
    + rewrite Hbit.
      destruct (Z.ltb_spec c c), (Z.ltb_spec c (c + 1)); try lia.
      rewrite !andb_false_r, !andb_true_r. simpl. reflexivity.
    + rewrite andb_false_r, andb_true_r.
      destruct (Z.ltb_spec j c), (Z.ltb_spec j (c + 1)); try lia; reflexivity.
  - intros c t Hc Hbit (Hv & Hl & Hb).
    unfold Inv. repeat split; try assumption.
    intros j Hj. rewrite Hb by lia.
    destruct (Z.eqb_spec j c) as [-> | Hne].
    + rewrite Hbit. reflexivity.
    + destruct (Z.ltb_spec j c), (Z.ltb_spec j (c + 1)); try lia; reflexivity.
  - lia.
  - lia.
  - exact Hdata.
  - intros j Hj. destruct (Z.leb_spec 0 j); [| lia]. rewrite andb_true_r. reflexivity.
  - unfold Inv. repeat split; try reflexivity.
    intros j Hj. destruct (Z.ltb_spec j 0); [lia |].
    rewrite !andb_false_r, andb_true_r. reflexivity.
  - exists s'. repeat split; try assumption.
    intros j Hj. rewrite Hb by lia.
    destruct (Z.ltb_spec j 32); [| lia]. rewrite andb_true_r. reflexivity.
Qed.

Lemma write_switch_ICENABLER0 (e : env) (vcpu : vm_vcpu_t) (f : fault_t) :
  write_switch e vcpu f GIC_DIST_ICENABLER0
  = bit_loop 32 (Z.land (u32 (fault_get_data f)) (u32 (fault_get_data_mask f)))
      (fun irq => bind (vgic_dist_disable_irq vcpu
                          (irq + (GIC_DIST_ICENABLER0 - GIC_DIST_ICENABLER0) * 8))
                       (fun _ => ret tt)).
Proof. reflexivity. Qed.

(** C6, as the code has it for register 0.  The guest reads ISENABLER0 and
    gets [prior]; it writes a 32-bit [W] to ICENABLER0 with a full data mask;
    it reads ISENABLER0 again and gets [prior & ~(W & 0xFFFF0000)]: the PPI
    bits 16..31 named in [W] are cleared, the SGI bits 0..15 stay as they
    were. *)
Theorem icenabler0_then_isenabler0 (e0 e1 e2 : env) (dev : vgic_dist_device)
    (vcpu : vm_vcpu_t) (W : Z) (s : state) :
  0 <= W < 2 ^ 32 ->
  exists prior s0 s1 s2,
    guest_reads e0 dev vcpu GIC_DIST_ISENABLER0 s prior s0
    /\ handle_vgic_dist_fault e1 dev vcpu (write_fault dev GIC_DIST_ICENABLER0 W) s0
       = Some (fault_result (ignore_fault_err e1), s1)
    /\ guest_reads e2 dev vcpu GIC_DIST_ISENABLER0 s1
         (Z.land prior (Z.lnot (Z.land W 0xFFFF0000))) s2.
Proof.
  intros HW.
  set (w := arr_get 0 (enable_set0 (st_dist s)) (vcpu_id vcpu)).
  pose proof (guest_reads_word e0 dev vcpu GIC_DIST_ISENABLER0 s w
                (read_switch_ISENABLER0 _ _)) as Hrd0.
  set (s0 := mk_state (st_dist s) (st_vgic s)
               (st_log s ++ [EvFaultSetData (Z.land w 0xFFFFFFFF); EvAdvanceFault])) in *.
  destruct (icenabler0_loop vcpu W s0 HW) as (t & Hloop & Hv & Hl & Hb).
  set (s1 := mk_state (st_dist t) (st_vgic t) (st_log t ++ [EvIgnoreFault])).
  set (w1 := arr_get 0 (enable_set0 (st_dist s1)) (vcpu_id vcpu)).
  pose proof (guest_reads_word e2 dev vcpu GIC_DIST_ISENABLER0 s1 w1
                (read_switch_ISENABLER0 _ _)) as Hrd1.
  exists (Z.land w 0xFFFFFFFF), s0, s1. eexists.
  split; [exact Hrd0 |]. split.
  - unfold handle_vgic_dist_fault, write_fault. cbn [fault_is_read].
    unfold handle_vgic_dist_write_fault. cbn [fault_get_address].
    replace (pstart dev + GIC_DIST_ICENABLER0 - pstart dev)
      with GIC_DIST_ICENABLER0 by lia.
    rewrite write_switch_ICENABLER0. cbn [fault_get_data fault_get_data_mask].
    unfold bind at 1.
    replace (Z.land (u32 W) (u32 0xFFFFFFFF)) with W.
    + rewrite Hloop. reflexivity.
    + unfold u32. rewrite (Z.mod_small W) by lia.
      change (0xFFFFFFFF mod 2 ^ 32) with 0xFFFFFFFF.
      symmetry. apply land_ones32. exact HW.
  - replace (Z.land (Z.land w 0xFFFFFFFF) (Z.lnot (Z.land W 0xFFFF0000)))
      with (Z.land w1 0xFFFFFFFF); [exact Hrd1 |].
    apply Z.bits_inj'. intros n Hn.
    rewrite !Z.land_spec, Z.lnot_spec, Z.land_spec, testbit_ones32, testbit_high16 by lia.
    destruct (Z.ltb_spec n 32) as [Hlt | Hge].
    + unfold w1, s1. cbn [st_dist]. rewrite Hb by lia.
      rewrite !andb_true_r. reflexivity.
    + rewrite !andb_false_r. reflexivity.
Qed.

(** ** The paired enable and pending banks *)



Lemma virq_find_irq_data_preserves (I : state -> Prop) (vcpu : vm_vcpu_t) (v : Z) :
  preserves I (virq_find_irq_data vcpu v).
Proof.
  intros s a s' HI H. apply virq_find_irq_data_state in H. subst. exact HI.
Qed.

(** Steps of a proof that a piece of code keeps a property of the
    distributor image: the code is taken apart down to the places where it
    writes the image or runs a loop. *)
Ltac pres_step :=
  first
    [ apply preserves_ret
    | apply preserves_abort
    | apply preserves_get_dist
    | apply preserves_get_vgic
    | apply preserves_c_assert
    | apply virq_find_irq_data_preserves
    | apply vgic_find_empty_list_reg_frame
    | apply preserves_emit; intros ? ?; assumption
    | apply preserves_modify_vgic; intros ? ?; assumption
    | match goal with
      | |- preserves _ (if ?b then _ else _) => destruct b
      | |- preserves _ (match ?x with Some _ => _ | None => _ end) => destruct x
      | |- preserves _ (let _ := _ in _) => cbv zeta
      end
    | apply preserves_bind; [| intros ?] ].

Ltac pres := repeat pres_step.

Section Paired.

Let I : state -> Prop := fun s => enable_pending_paired (st_dist s).











End Paired.




(** ** SGIR dispatch *)

Lemma injections_app (l1 l2 : list event) :
  injections (l1 ++ l2) = injections l1 ++ injections l2.
Proof.
  induction l1 as [| ev l1 IH]; [reflexivity |].
  destruct ev; simpl; rewrite IH; reflexivity.
Qed.

Lemma lookup_arr_set {A : Type} (l : list A) (i j : Z) (x : A) :
  0 <= i -> 0 <= j ->
  arr_set l i x !! Z.to_nat j
  = if (j =? i) && (i <? Z.of_nat (length l)) then Some x else l !! Z.to_nat j.
Proof.
  intros Hi Hj. unfold arr_set. destruct (Z.ltb_spec i 0); [lia |].
  destruct (Z.eqb_spec j i) as [-> | Hne]; simpl.
  - destruct (Z.ltb_spec i (Z.of_nat (length l))).
    + apply list_lookup_insert_eq. lia.
    + rewrite list_insert_ge by lia. reflexivity.
  - apply list_lookup_insert_ne. lia.
Qed.

Lemma wf_pipeline_with_queue (s : state) (v : Z) (q : irq_queue_t)
    (l : list virq_handle) :
  wf_pipeline s -> 0 <= v -> ring_holds q l -> wf_pipeline (with_queue_of v q s).
Proof.
  intros Hwf Hv Hq u Hu. unfold with_queue_of. simpl.
  rewrite lookup_arr_set by lia.
  destruct ((u =? v) && _); [exists q, l; split; [reflexivity | exact Hq] |].
  apply Hwf, Hu.
Qed.


Lemma quiet_step_trans (s s1 s2 : state) :
  quiet_step s s1 -> quiet_step s1 s2 -> quiet_step s s2.
Proof.
  intros (_ & evs1 & Hl1 & Hi1) (Hwf & evs2 & Hl2 & Hi2).
  split; [exact Hwf |]. exists (evs1 ++ evs2).
  rewrite Hl2, Hl1, <- app_assoc, injections_app, Hi1, Hi2. split; reflexivity.
Qed.








Lemma u16_testbit (x j : Z) : Z.testbit (u16 x) j = (j <? 16) && Z.testbit x j.
Proof. unfold u16. apply Z.testbit_mod_pow2. lia. Qed.


Lemma sgir_filter_code (data : Z) :
  Z.shiftr (Z.land data GIC_DIST_SGI_TARGET_LIST_FILTER_MASK)
    GIC_DIST_SGI_TARGET_LIST_FILTER_SHIFT
  = sgir_filter data.
Proof.
  unfold sgir_filter, GIC_DIST_SGI_TARGET_LIST_FILTER_MASK,
    GIC_DIST_SGI_TARGET_LIST_FILTER_SHIFT.
  rewrite Z.shiftr_land. reflexivity.
Qed.

Lemma sgir_cpu_targets_code (data : Z) :
  Z.shiftr (Z.land data GIC_DIST_SGI_CPU_TARGET_LIST_MASK)
    GIC_DIST_SGI_CPU_TARGET_LIST_SHIFT
  = sgir_cpu_targets data.
Proof.
  unfold sgir_cpu_targets, GIC_DIST_SGI_CPU_TARGET_LIST_MASK,
    GIC_DIST_SGI_CPU_TARGET_LIST_SHIFT.
  rewrite Z.shiftr_land. reflexivity.
Qed.

Lemma sgir_others_code (n id : Z) :
  u16 (Z.land (u16 (Z.shiftl 1 n - 1)) (Z.lnot (Z.shiftl 1 id)))
  = u16 (Z.land (Z.shiftl 1 n - 1) (Z.lnot (Z.shiftl 1 id))).
Proof.
  apply Z.bits_inj'. intros j Hj.
  rewrite !u16_testbit, !Z.land_spec, u16_testbit.
  destruct (j <? 16); reflexivity.
Qed.

(** The SGIR case of the write handler's [switch]. *)
Lemma write_switch_SGIR (e : env) (vcpu : vm_vcpu_t) (f : fault_t) :
  write_switch e vcpu f GIC_DIST_SGIR
  = if (sgir_filter (u32 (fault_get_data f)) =? 0)
       || (sgir_filter (u32 (fault_get_data f)) =? 1)
       || (sgir_filter (u32 (fault_get_data f)) =? 2)
    then sgir_loop e vcpu (sgir_intid (u32 (fault_get_data f)))
           (sgir_target_list (u32 (fault_get_data f)) vcpu)
           (Z.to_nat (num_vcpus (vm vcpu))) 0
    else ret tt.
Proof.
  set (data := u32 (fault_get_data f)).
  change (write_switch e vcpu f GIC_DIST_SGIR) with
    (let mode := Z.shiftr (Z.land data GIC_DIST_SGI_TARGET_LIST_FILTER_MASK)
                   GIC_DIST_SGI_TARGET_LIST_FILTER_SHIFT in
     let v := Z.land data GIC_DIST_SGI_INTID_MASK in
     let n := Z.to_nat (num_vcpus (vm vcpu)) in
     if mode =? GIC_DIST_SGI_TARGET_LIST_SPEC then
       sgir_loop e vcpu v
         (u16 (Z.shiftr (Z.land data GIC_DIST_SGI_CPU_TARGET_LIST_MASK)
                 GIC_DIST_SGI_CPU_TARGET_LIST_SHIFT)) n 0
     else if mode =? GIC_DIST_SGI_TARGET_LIST_OTHERS then
       sgir_loop e vcpu v
         (u16 (Z.land (u16 (Z.shiftl 1 (num_vcpus (vm vcpu)) - 1))
                 (Z.lnot (Z.shiftl 1 (vcpu_id vcpu))))) n 0
     else if mode =? GIC_DIST_SGI_TARGET_SELF then
       sgir_loop e vcpu v (u16 (Z.shiftl 1 (vcpu_id vcpu))) n 0
     else ret tt).
  cbv zeta. rewrite sgir_filter_code, sgir_cpu_targets_code, sgir_others_code.
  unfold sgir_target_list, sgir_target_mask, GIC_DIST_SGI_TARGET_LIST_SPEC,
    GIC_DIST_SGI_TARGET_LIST_OTHERS, GIC_DIST_SGI_TARGET_SELF.
  destruct (sgir_filter data =? 0); [reflexivity |].
  destruct (sgir_filter data =? 1); [reflexivity |].
  destruct (sgir_filter data =? 2); reflexivity.
Qed.



(** ** Scenarios and initial states *)

Lemma run_ops_reachable (l : list (env * op)) (s0 s s' : state) :
  reachable s0 s -> run_ops l s = Some s' -> reachable s0 s'.
Proof.
  revert s. induction l as [| [e o] l IH]; intros s Hs; simpl.
  - intros H. inversion H; subst. exact Hs.
  - destruct (run_op e o s) as [[[] s1] |] eqn:Hstep; [| discriminate].
    apply IH. eapply reachable_step; [exact Hs | exact Hstep].
Qed.

Lemma state_after_reachable (l : list (env * op)) (s : state) :
  reachable s (state_after l s).
Proof.
  unfold state_after. destruct (run_ops l s) as [s' |] eqn:Hrun.
  - eapply run_ops_reachable; [apply reachable_init | exact Hrun].
  - apply reachable_init.
Qed.

Lemma arr_get_replicate {A : Type} (d x : A) (n : nat) (i : Z) :
  arr_get d (replicate n x) i = if (0 <=? i) && (i <? Z.of_nat n) then x else d.
Proof.
  unfold arr_get. destruct (Z.ltb_spec i 0) as [Hneg | Hpos].
  - destruct (Z.leb_spec 0 i); [lia | reflexivity].
  - destruct (Z.leb_spec 0 i); [simpl | lia].
    destruct (Z.ltb_spec i (Z.of_nat n)).
    + rewrite lookup_replicate_2 by lia. reflexivity.
    + rewrite lookup_ge_None_2 by (rewrite length_replicate; lia). reflexivity.
Qed.

Lemma tables_empty_init (nodes : nat) : tables_empty (vgic_init nodes).
Proof.
  split.
  - intros i j. unfold vgic_init. cbn [sgi_ppi_irq]. rewrite arr_get_replicate.
    destruct ((0 <=? i) && _).
    + rewrite arr_get_replicate. destruct (_ && _); reflexivity.
    + unfold arr_get. destruct (j <? 0); [reflexivity |].
      rewrite lookup_nil. reflexivity.
  - intros i. unfold vgic_init. cbn [virqs]. rewrite arr_get_replicate.
    destruct (_ && _); reflexivity.
Qed.

Lemma wf_pipeline_init (nodes words : nat) :
  CONFIG_MAX_NUM_NODES <= Z.of_nat nodes -> wf_pipeline (state_init nodes words).
Proof.
  intros Hn v Hv.
  exists (mk_irq_queue (replicate (Z.to_nat MAX_IRQ_QUEUE_LEN) None) 0 0), [].
  split.
  - unfold state_init, vgic_init. cbn [st_vgic irq_queue].
    apply lookup_replicate_2. lia.
  - apply ring_holds_empty; [apply length_replicate | unfold MAX_IRQ_QUEUE_LEN; lia].
Qed.

(** ** Properties of the tables and rings in every reachable state *)

Section InjectionInvariant.

(** A property that the steps of an injection for [vcpu] keep: the change
    of the pending bit, the enqueue, and the load of a list register. *)
Variable I : state -> Prop.
Variable vcpu : vm_vcpu_t.
Hypothesis I_dist : forall s d, I s -> I (mk_state d (st_vgic s) (st_log s)).
Hypothesis I_enqueue : forall h, preserves I (vgic_irq_enqueue vcpu h).
Hypothesis I_load : forall e,
  preserves I
    (idx <-- vgic_find_empty_list_reg vcpu;
     if idx <? 0 then ret 0
     else
       q <-- vgic_irq_dequeue vcpu;
       match q with
       | None => abort
       | Some irq' => vgic_vcpu_load_list_reg e vcpu idx irq'
       end).

Lemma vgic_dist_set_pending_irq_steps (e : env) (irq : Z) :
  preserves I (vgic_dist_set_pending_irq e vcpu irq).
Proof using I_dist I_enqueue I_load.
  unfold vgic_dist_set_pending_irq.
  repeat first
    [ apply I_enqueue
    | apply I_load
    | apply preserves_modify_dist; intros ? ?; apply I_dist; assumption
    | pres_step ].
Qed.

End InjectionInvariant.

Section VgicInvariant.

(** A property that the state changes of the entry points keep. *)
Variable I : state -> Prop.
Hypothesis I_dist : forall s d, I s -> I (mk_state d (st_vgic s) (st_log s)).
Hypothesis I_log : forall s l, I s -> I (mk_state (st_dist s) (st_vgic s) l).
Hypothesis I_inject : forall e vcpu irq,
  preserves I (vgic_dist_set_pending_irq e vcpu irq).
Hypothesis I_add : forall vcpu h, preserves I (virq_add vcpu h).

Ltac pres_vgic :=
  repeat first
    [ apply I_inject
    | apply I_add
    | apply preserves_emit; intros ? ?; apply I_log; assumption
    | apply preserves_modify_dist; intros ? ?; apply I_dist; assumption
    | pres_step ].

Lemma vgic_dist_set_pending_irq_inv (e : env) (vcpu : vm_vcpu_t) (irq : Z) :
  preserves I (vgic_dist_set_pending_irq e vcpu irq).
Proof using I_inject.
  apply I_inject.
Qed.

Lemma sgir_loop_inv (e : env) (vcpu : vm_vcpu_t) (v tl : Z) (n : nat) (i : Z) :
  preserves I (sgir_loop e vcpu v tl n i).
Proof using I_dist I_log I_inject.
  revert i. induction n as [| n IH]; intros i; [apply preserves_ret |].
  rewrite sgir_loop_S. apply preserves_bind; [| intros _; apply IH].
  destruct (_ || _); [apply preserves_ret |].
  apply preserves_bind; [| intros _; apply preserves_ret].
  unfold vm_inject_irq.
  apply preserves_bind; [pres_vgic |].
  intros _. apply vgic_dist_set_pending_irq_inv.
Qed.

Lemma write_switch_inv (e : env) (vcpu : vm_vcpu_t) (f : fault_t) (offset : Z) :
  preserves I (write_switch e vcpu f offset).
Proof using I_dist I_log I_inject.
  unfold write_switch.
  repeat match goal with
  | |- preserves _ (if RANGE32 ?a ?b ?o then _ else _) =>
      destruct (RANGE32 a b o)
  end;
  try apply preserves_ret; try apply preserves_abort;
  try (apply preserves_modify_dist; intros s Hs; apply I_dist; exact Hs);
  try (apply bit_loop_preserves; intros c;
       apply preserves_bind; [| intros _; apply preserves_ret];
       first [ apply vgic_dist_set_pending_irq_inv
             | unfold vgic_dist_enable_irq, virq_ack, vgic_dist_disable_irq,
                 vgic_dist_clr_pending_irq; pres_vgic ]).
  - cbv zeta. destruct (_ =? GIC_ENABLED); [| destruct (_ =? 0)];
      unfold vgic_dist_enable, vgic_dist_disable; pres_vgic.
  - cbv zeta.
    repeat match goal with
    | |- preserves _ (if ?b then _ else _) => destruct b
    end; try apply preserves_ret; apply sgir_loop_inv.
Qed.

Lemma run_op_inv (e : env) (o : op) : preserves I (run_op e o).
Proof using I_dist I_log I_inject I_add.
  destruct o; unfold run_op;
    (apply preserves_bind; [| intros _; apply preserves_ret]).
  - unfold handle_vgic_dist_fault, handle_vgic_dist_read_fault,
      handle_vgic_dist_write_fault.
    destruct (fault_is_read f); [pres_vgic |].
    apply preserves_bind; [apply write_switch_inv |]. intros _. pres_vgic.
  - unfold vgic_dist_enable_irq, virq_ack. pres_vgic.
  - unfold vgic_dist_disable_irq. pres_vgic.
  - apply vgic_dist_set_pending_irq_inv.
  - unfold vgic_dist_clr_pending_irq. pres_vgic.
  - apply I_add.
Qed.

Lemma reachable_inv (s0 s : state) : I s0 -> reachable s0 s -> I s.
Proof using I_dist I_log I_inject I_add.
  intros H0. induction 1 as [| s e o s' _ IH Hstep]; [exact H0 |].
  exact (run_op_inv e o s tt s' IH Hstep).
Qed.

End VgicInvariant.

(** The handler tables stay indexed by interrupt number. *)
Lemma reachable_sgi_ppi_indexed (s0 s : state) :
  sgi_ppi_indexed (st_vgic s0) -> reachable s0 s -> sgi_ppi_indexed (st_vgic s).
Proof.
  apply (reachable_inv (fun t => sgi_ppi_indexed (st_vgic t))).
  - intros t d H. exact H.
  - intros t l H. exact H.
  - intros e vcpu irq. apply vgic_dist_set_pending_irq_steps.
    + intros t d H. exact H.
    + intros h. apply vgic_irq_enqueue_frame. intros t lr q lg H. exact H.
    + intros e'.
      apply preserves_bind; [apply vgic_find_empty_list_reg_frame |]. intros idx.
      destruct (idx <? 0); [apply preserves_ret |].
      apply preserves_bind;
        [apply vgic_irq_dequeue_frame; intros t lr q lg H; exact H |].
      intros [x |]; [| apply preserves_abort].
      apply vgic_vcpu_load_list_reg_frame. intros t lr q lg H. exact H.
  - apply virq_add_sgi_ppi_indexed.
Qed.

Lemma wf_pipeline_other_queue (s : state) (v : Z) (q : irq_queue_t) :
  wf_pipeline s -> ~ (0 <= v < CONFIG_MAX_NUM_NODES) ->
  wf_pipeline (with_queue_of v q s).
Proof.
  intros Hwf Hv u Hu. unfold with_queue_of. simpl.
  destruct (Z.ltb_spec v 0) as [Hneg | Hpos].
  - unfold arr_set. destruct (Z.ltb_spec v 0); [| lia]. apply Hwf, Hu.
  - rewrite lookup_arr_set by lia.
    destruct (Z.eqb_spec u v); [lia |]. simpl. apply Hwf, Hu.
Qed.

Lemma vgic_irq_enqueue_wf (vcpu : vm_vcpu_t) (h : virq_handle) :
  preserves wf_pipeline (vgic_irq_enqueue vcpu h).
Proof.
  intros s a s' Hwf.
  destruct (Z_le_dec 0 (vcpu_id vcpu)) as [Hlo | Hlo];
    [destruct (Z_lt_dec (vcpu_id vcpu) CONFIG_MAX_NUM_NODES) as [Hhi | Hhi] |].
  - destruct (Hwf (vcpu_id vcpu)) as (q & l & Hq & Hring); [lia |].
    rewrite (vgic_irq_enqueue_run vcpu s q h Hlo Hq).
    destruct (Z.eqb_spec (IRQ_QUEUE_NEXT (tail q)) (head q)) as [_ | Hroom];
      intros H; inversion H; subst; [exact Hwf |].
    apply (wf_pipeline_with_queue s _ _ (l ++ [h])); [exact Hwf | lia |].
    apply ring_holds_enqueue; assumption.
  - unfold vgic_irq_enqueue. munfold.
    destruct (_ =? _); intros H; inversion H; subst; [exact Hwf |].
    apply wf_pipeline_other_queue; [exact Hwf | lia].
  - unfold vgic_irq_enqueue. munfold.
    destruct (_ =? _); intros H; inversion H; subst; [exact Hwf |].
    apply wf_pipeline_other_queue; [exact Hwf | lia].
Qed.

Lemma vgic_irq_dequeue_wf (vcpu : vm_vcpu_t) :
  preserves wf_pipeline (vgic_irq_dequeue vcpu).
Proof.
  intros s a s' Hwf.
  destruct (Z_le_dec 0 (vcpu_id vcpu)) as [Hlo | Hlo];
    [destruct (Z_lt_dec (vcpu_id vcpu) CONFIG_MAX_NUM_NODES) as [Hhi | Hhi] |].
  - destruct (Hwf (vcpu_id vcpu)) as (q & l & Hq & Hring); [lia |].
    rewrite (vgic_irq_dequeue_run vcpu s q Hlo Hq).
    destruct (Z.eqb_spec (head q) (tail q)) as [_ | Hne];
      intros H; inversion H; subst; [exact Hwf |].
    destruct l as [| x l'].
    + exfalso. apply Hne. apply (ring_holds_empty_iff q [] Hring). reflexivity.
    + apply (wf_pipeline_with_queue s _ _ l'); [exact Hwf | lia |].
      apply (ring_holds_dequeue q x l' Hring).
  - unfold vgic_irq_dequeue. munfold.
    destruct (negb _); intros H; inversion H; subst; [| exact Hwf].
    apply wf_pipeline_other_queue; [exact Hwf | lia].
  - unfold vgic_irq_dequeue. munfold.
    destruct (negb _); intros H; inversion H; subst; [| exact Hwf].
    apply wf_pipeline_other_queue; [exact Hwf | lia].
Qed.

Lemma virq_add_irq_queue (vcpu : vm_vcpu_t) (h : virq_handle)
    (qs : list irq_queue_t) :
  preserves (fun s => irq_queue (st_vgic s) = qs) (virq_add vcpu h).
Proof.
  unfold virq_add. destruct (virq h <? GIC_SPI_IRQ_MIN).
  - unfold virq_sgi_ppi_add. pres.
  - unfold virq_spi_add. generalize 0. generalize (Z.to_nat MAX_VIRQS).
    induction n as [| n IH]; intros i; [apply preserves_ret |].
    rewrite virq_spi_add_loop_S. pres. apply IH.
Qed.

(** The rings stay in good order: in particular no ring of a reachable
    state ever holds [MAX_IRQ_QUEUE_LEN] handlers. *)
Lemma reachable_wf_pipeline (s0 s : state) :
  wf_pipeline s0 -> reachable s0 s -> wf_pipeline s.
Proof.
  apply (reachable_inv wf_pipeline).
  - intros t d H. exact H.
  - intros t l H. exact H.
  - intros e vcpu irq. apply vgic_dist_set_pending_irq_steps.
    + intros t d H. exact H.
    + apply vgic_irq_enqueue_wf.
    + intros e'.
      apply preserves_bind; [apply vgic_find_empty_list_reg_frame |]. intros idx.
      destruct (idx <? 0); [apply preserves_ret |].
      apply preserves_bind; [apply vgic_irq_dequeue_wf |].
      intros [x |]; [| apply preserves_abort].
      intros t a t' Ht. unfold vgic_vcpu_load_list_reg, vgic_shadow_irq. munfold.
      intros H. inversion H; subst. exact Ht.
  - intros vcpu h t a t' Ht Hrun v Hv.
    rewrite (virq_add_irq_queue vcpu h (irq_queue (st_vgic t)) t a t' eq_refl Hrun).
    apply Ht, Hv.
Qed.

(** * Further properties of the code *)

(** ** The handler tables of virq.h *)

Lemma virq_find_spi_loop_first (n : nat) (i : Z) (g : vgic_t) (v : Z) :
  match virq_find_spi_loop n i g v with
  | Some h =>
      exists k, i <= k < i + Z.of_nat n
        /\ arr_get None (virqs g) k = Some h /\ virq h = v
        /\ forall j h', i <= j < k -> arr_get None (virqs g) j = Some h' -> virq h' <> v
  | None =>
      forall j h', i <= j < i + Z.of_nat n ->
        arr_get None (virqs g) j = Some h' -> virq h' <> v
  end.
Proof.
  revert i. induction n as [| n IH]; intros i.
  - simpl. intros j h' Hj. lia.
  - rewrite virq_find_spi_loop_S.
    destruct (arr_get None (virqs g) i) as [h |] eqn:Hi.
    + destruct (Z.eqb_spec (virq h) v) as [Hv | Hv].
      * exists i. repeat split; [lia | lia | exact Hi | exact Hv |].
        intros j h' Hj. lia.
      * specialize (IH (i + 1)).
        destruct (virq_find_spi_loop n (i + 1) g v) as [h1 |].
        -- destruct IH as (k & Hk & Hget & Hvirq & Hbefore).
           exists k. repeat split; [lia | lia | exact Hget | exact Hvirq |].
           intros j h' Hj Hj'.
           destruct (Z.eq_dec j i) as [-> | Hne].
           ++ rewrite Hi in Hj'. inversion Hj'; subst. exact Hv.
           ++ apply (Hbefore j h'); [lia | exact Hj'].
        -- intros j h' Hj Hj'.
           destruct (Z.eq_dec j i) as [-> | Hne].
           ++ rewrite Hi in Hj'. inversion Hj'; subst. exact Hv.
           ++ apply (IH j h'); [lia | exact Hj'].
    + specialize (IH (i + 1)).
      destruct (virq_find_spi_loop n (i + 1) g v) as [h1 |].
      * destruct IH as (k & Hk & Hget & Hvirq & Hbefore).
        exists k. repeat split; [lia | lia | exact Hget | exact Hvirq |].
        intros j h' Hj Hj'.
        destruct (Z.eq_dec j i) as [-> | Hne].
        -- rewrite Hi in Hj'. discriminate.
        -- apply (Hbefore j h'); [lia | exact Hj'].
      * intros j h' Hj Hj'.
        destruct (Z.eq_dec j i) as [-> | Hne].
        -- rewrite Hi in Hj'. discriminate.
        -- apply (IH j h'); [lia | exact Hj'].
Qed.

(** X1.  [virq_find_spi_irq_data] scans the whole table and returns the
    first match: the handler it returns sits in a slot below [MAX_VIRQS],
    carries the number asked for, and no lower slot holds a handler with
    that number; it returns NULL exactly when no slot of the table holds a
    handler with that number.  The state is left alone. *)
Theorem virq_find_spi_irq_data_first_match (v : Z) (s : state) :
  exists r,
    virq_find_spi_irq_data v s = Some (r, s)
    /\ match r with
       | Some h =>
           exists k, 0 <= k < MAX_VIRQS
             /\ arr_get None (virqs (st_vgic s)) k = Some h /\ virq h = v
             /\ forall j h', 0 <= j < k ->
                  arr_get None (virqs (st_vgic s)) j = Some h' -> virq h' <> v
       | None =>
           forall j h', 0 <= j < MAX_VIRQS ->
             arr_get None (virqs (st_vgic s)) j = Some h' -> virq h' <> v
       end.
Proof.
  eexists. split; [reflexivity |].
  pose proof (virq_find_spi_loop_first (Z.to_nat MAX_VIRQS) 0 (st_vgic s) v) as H.
  destruct (virq_find_spi_loop (Z.to_nat MAX_VIRQS) 0 (st_vgic s) v).
  - destruct H as (k & Hk & H). exists k. split; [| exact H].
    unfold MAX_VIRQS in *. lia.
  - intros j h' Hj. apply H. unfold MAX_VIRQS in *. lia.
Qed.

Lemma virq_spi_add_loop_run (n : nat) (i : Z) (h : virq_handle) (s : state) :
  ((forall j, i <= j < i + Z.of_nat n -> arr_get None (virqs (st_vgic s)) j <> None)
   /\ virq_spi_add_loop n i h s = Some (-1, s))
  \/ exists k,
       i <= k < i + Z.of_nat n
       /\ arr_get None (virqs (st_vgic s)) k = None
       /\ (forall j, i <= j < k -> arr_get None (virqs (st_vgic s)) j <> None)
       /\ virq_spi_add_loop n i h s
          = Some (0, mk_state (st_dist s)
                       (with_virqs (arr_set (virqs (st_vgic s)) k (Some h)) (st_vgic s))
                       (st_log s)).
Proof.
  revert i. induction n as [| n IH]; intros i.
  - left. split; [intros j Hj; lia | reflexivity].
  - rewrite virq_spi_add_loop_S. munfold.
    destruct (arr_get None (virqs (st_vgic s)) i) as [h0 |] eqn:Hi.
    + destruct (IH (i + 1)) as [[Hfull Hrun] | (k & Hk & Hfree & Hlow & Hrun)].
      * left. split; [| exact Hrun].
        intros j Hj. destruct (Z.eq_dec j i) as [-> | Hne].
        -- rewrite Hi. discriminate.
        -- apply Hfull. lia.
      * right. exists k.
        split; [lia | split; [exact Hfree | split; [| exact Hrun]]].
        intros j Hj. destruct (Z.eq_dec j i) as [-> | Hne].
        -- rewrite Hi. discriminate.
        -- apply Hlow. lia.
    + right. exists i.
      split; [lia | split; [exact Hi | split; [| reflexivity]]].
      intros j Hj. lia.
Qed.

(** X2.  For a shared interrupt (number 32 or above) [virq_add] fills the
    lowest empty slot of [virqs] and returns 0, touching nothing else; it
    returns -1, with the state as it was, exactly when all [MAX_VIRQS]
    slots are taken. *)
Theorem virq_add_spi_first_free (vcpu : vm_vcpu_t) (h : virq_handle) (s : state) :
  GIC_SPI_IRQ_MIN <= virq h ->
  length (virqs (st_vgic s)) = Z.to_nat MAX_VIRQS ->
  ((forall i, 0 <= i < MAX_VIRQS -> arr_get None (virqs (st_vgic s)) i <> None)
   /\ virq_add vcpu h s = Some (-1, s))
  \/ exists k s',
       0 <= k < MAX_VIRQS
       /\ arr_get None (virqs (st_vgic s)) k = None
       /\ (forall i, 0 <= i < k -> arr_get None (virqs (st_vgic s)) i <> None)
       /\ virq_add vcpu h s = Some (0, s')
       /\ s' = mk_state (st_dist s)
                 (with_virqs (arr_set (virqs (st_vgic s)) k (Some h)) (st_vgic s))
                 (st_log s)
       /\ arr_get None (virqs (st_vgic s')) k = Some h.
Proof.
  intros Hspi Hlen. unfold virq_add, virq_spi_add.
  destruct (Z.ltb_spec (virq h) GIC_SPI_IRQ_MIN) as [Hlt | _]; [lia |].
  destruct (virq_spi_add_loop_run (Z.to_nat MAX_VIRQS) 0 h s)
    as [[Hfull Hrun] | (k & Hk & Hfree & Hlow & Hrun)].
  - left. split; [| exact Hrun].
    intros i Hi. apply Hfull. unfold MAX_VIRQS in *. lia.
  - right. eexists k, _.
    assert (Hk' : 0 <= k < MAX_VIRQS) by (unfold MAX_VIRQS in *; lia).
    split; [exact Hk' |]. split; [exact Hfree |]. split; [exact Hlow |].
    split; [exact Hrun |]. split; [reflexivity |].
    simpl. apply arr_get_set_eq. rewrite Hlen. unfold MAX_VIRQS in *. lia.
Qed.

Lemma virq_find_spi_loop_set (n : nat) (i k : Z) (g : vgic_t) (h : virq_handle) (v : Z) :
  arr_get None (virqs g) k = None -> virq h <> v ->
  virq_find_spi_loop n i (with_virqs (arr_set (virqs g) k (Some h)) g) v
  = virq_find_spi_loop n i g v.
Proof.
  intros Hfree Hv. revert i. induction n as [| n IH]; intros i; [reflexivity |].
  rewrite !virq_find_spi_loop_S. simpl. rewrite arr_get_set.
  destruct ((i =? k) && (0 <=? k) && (k <? Z.of_nat (length (virqs g)))) eqn:Hhit.
  - assert (i = k) as -> by lia.
    rewrite Hfree. destruct (Z.eqb_spec (virq h) v); [contradiction | apply IH].
  - destruct (arr_get None (virqs g) i) as [h0 |]; [| apply IH].
    destruct (virq h0 =? v); [reflexivity | apply IH].
Qed.

(** X3.  Registration and lookup of a shared interrupt.  After [virq_add]
    has returned 0 for a handler with number 32 or above, the lookup of that
    number finds a handler with that number, for whichever vCPU asks; it
    finds the new handler itself if the number was not registered before;
    and the lookup of every other number answers as before. *)
Theorem virq_add_spi_then_find (vcpu : vm_vcpu_t) (h : virq_handle) (s s' : state) :
  GIC_SPI_IRQ_MIN <= virq h ->
  length (virqs (st_vgic s)) = Z.to_nat MAX_VIRQS ->
  virq_add vcpu h s = Some (0, s') ->
  forall vcpu',
    (exists h', virq_find_irq_data vcpu' (virq h) s' = Some (Some h', s')
                /\ virq h' = virq h)
    /\ (virq_find_irq_data vcpu' (virq h) s = Some (None, s) ->
        virq_find_irq_data vcpu' (virq h) s' = Some (Some h, s'))
    /\ forall v r, v <> virq h ->
         virq_find_irq_data vcpu' v s = Some (r, s) ->
         virq_find_irq_data vcpu' v s' = Some (r, s').
Proof.
  intros Hspi Hlen Hadd vcpu'.
  revert Hadd. unfold virq_add, virq_spi_add.
  destruct (Z.ltb_spec (virq h) GIC_SPI_IRQ_MIN) as [Hlt | _]; [lia |].
  destruct (virq_spi_add_loop_run (Z.to_nat MAX_VIRQS) 0 h s)
    as [[_ Hrun] | (k & Hk & Hfree & Hlow & Hrun)];
    rewrite Hrun; intros Hadd; [discriminate |].
  set (s1 := mk_state (st_dist s)
               (with_virqs (arr_set (virqs (st_vgic s)) k (Some h)) (st_vgic s))
               (st_log s)) in *.
  assert (Hs1 : s1 = mk_state (st_dist s)
                       (with_virqs (arr_set (virqs (st_vgic s)) k (Some h)) (st_vgic s))
                       (st_log s)) by reflexivity.
  assert (Hslot : arr_get None (virqs (st_vgic s1)) k = Some h).
  { unfold s1. cbn [st_vgic virqs with_virqs]. apply arr_get_set_eq.
    rewrite Hlen. unfold MAX_VIRQS in *. lia. }
  clearbody s1. inversion Hadd; subst s'. clear Hadd.
  assert (Hfind : virq_find_irq_data vcpu' (virq h) s1
                  = Some (virq_find_spi_loop (Z.to_nat MAX_VIRQS) 0 (st_vgic s1) (virq h), s1)).
  { unfold virq_find_irq_data, virq_find_spi_irq_data.
    destruct (Z.ltb_spec (virq h) GIC_SPI_IRQ_MIN); [lia | reflexivity]. }
  pose proof (virq_find_spi_loop_first (Z.to_nat MAX_VIRQS) 0 (st_vgic s1) (virq h)) as Hfirst.
  assert (Hother : forall j, j <> k ->
            arr_get None (virqs (st_vgic s1)) j = arr_get None (virqs (st_vgic s)) j).
  { intros j Hj. rewrite Hs1. simpl. apply arr_get_set_ne. exact Hj. }
  split; [| split].
  - rewrite Hfind.
    destruct (virq_find_spi_loop (Z.to_nat MAX_VIRQS) 0 (st_vgic s1) (virq h)) as [h' |].
    + destruct Hfirst as (k' & _ & _ & Hv & _). exists h'. split; [reflexivity | exact Hv].
    + exfalso. apply (Hfirst k h); [unfold MAX_VIRQS in *; lia | exact Hslot | reflexivity].
  - intros Hnone. rewrite Hfind.
    assert (Hold : virq_find_spi_loop (Z.to_nat MAX_VIRQS) 0 (st_vgic s) (virq h) = None).
    { revert Hnone. unfold virq_find_irq_data, virq_find_spi_irq_data.
      destruct (Z.ltb_spec (virq h) GIC_SPI_IRQ_MIN); [lia |]. munfold.
      intros Hb. inversion Hb. reflexivity. }
    pose proof (virq_find_spi_loop_first (Z.to_nat MAX_VIRQS) 0 (st_vgic s) (virq h)) as Hbefore.
    rewrite Hold in Hbefore.
    destruct (virq_find_spi_loop (Z.to_nat MAX_VIRQS) 0 (st_vgic s1) (virq h)) as [h' |].
    + destruct Hfirst as (k' & Hk' & Hget & Hv & _).
      destruct (Z.eq_dec k' k) as [-> | Hne].
      * rewrite Hslot in Hget. inversion Hget; subst. reflexivity.
      * exfalso. rewrite (Hother k' Hne) in Hget.
        apply (Hbefore k' h' Hk' Hget Hv).
    + exfalso. apply (Hfirst k h); [unfold MAX_VIRQS in *; lia | exact Hslot | reflexivity].
  - intros v r Hv. rewrite Hs1.
    unfold virq_find_irq_data, virq_get_sgi_ppi, virq_find_spi_irq_data. munfold.
    destruct (v <? GIC_SPI_IRQ_MIN).
    + destruct (vcpu_id vcpu' <? CONFIG_MAX_NUM_NODES); simpl; [| discriminate].
      intros Hb. inversion Hb. reflexivity.
    + simpl. intros Hb. inversion Hb.
      rewrite (virq_find_spi_loop_set _ _ k (st_vgic s) h v Hfree) by congruence.
      reflexivity.
Qed.

(** X4.  Registration and lookup of an SGI or PPI.  After [virq_add] has
    returned 0 for a handler with a number below 32, the lookup of that
    number by the same vCPU returns that very handler, and every other
    lookup (another vCPU, another number) answers as before. *)
Theorem virq_add_sgi_ppi_then_find (vcpu : vm_vcpu_t) (h : virq_handle) (s s' : state) :
  virq h < GIC_SPI_IRQ_MIN ->
  vcpu_id vcpu < CONFIG_MAX_NUM_NODES ->
  sgi_ppi_slot_exists (st_vgic s) (vcpu_id vcpu) (virq h) ->
  virq_add vcpu h s = Some (0, s') ->
  virq_find_irq_data vcpu (virq h) s' = Some (Some h, s')
  /\ forall vcpu' v r,
       vcpu_id vcpu' <> vcpu_id vcpu \/ v <> virq h ->
       virq_find_irq_data vcpu' v s = Some (r, s) ->
       virq_find_irq_data vcpu' v s' = Some (r, s').
Proof.
  intros Hlow Hid [Hrow Hcol]. unfold virq_add, virq_sgi_ppi_add.
  destruct (Z.ltb_spec (virq h) GIC_SPI_IRQ_MIN) as [_ | Hge]; [| lia]. munfold.
  destruct (arr_get None (arr_get [] (sgi_ppi_irq (st_vgic s)) (vcpu_id vcpu)) (virq h))
    eqn:Hslot; intros Hadd; inversion Hadd; subst s'; clear Hadd.
  split.
  - unfold virq_find_irq_data, virq_get_sgi_ppi. munfold.
    destruct (Z.ltb_spec (virq h) GIC_SPI_IRQ_MIN) as [_ | Hge]; [| lia].
    destruct (Z.ltb_spec (vcpu_id vcpu) CONFIG_MAX_NUM_NODES) as [_ | Hge]; [| lia].
    simpl. rewrite (arr_get_set_eq _ _ _ _ Hrow), (arr_get_set_eq _ _ _ _ Hcol).
    reflexivity.
  - intros vcpu' v r Hne.
    unfold virq_find_irq_data, virq_get_sgi_ppi, virq_find_spi_irq_data. munfold.
    destruct (Z.ltb_spec v GIC_SPI_IRQ_MIN) as [Hv | Hv].
    + destruct (vcpu_id vcpu' <? CONFIG_MAX_NUM_NODES); simpl; [| discriminate].
      intros Hb. inversion Hb. clear Hb. f_equal. f_equal.
      rewrite (arr_get_set [] (sgi_ppi_irq (st_vgic s))).
      destruct ((vcpu_id vcpu' =? vcpu_id vcpu) && (0 <=? vcpu_id vcpu)
                && (vcpu_id vcpu <? Z.of_nat (length (sgi_ppi_irq (st_vgic s)))))
        eqn:Hhit; [| reflexivity].
      assert (Hsame : vcpu_id vcpu' = vcpu_id vcpu) by lia.
      rewrite Hsame. apply arr_get_set_ne.
      destruct Hne as [Hne | Hne]; [exact (False_ind _ (Hne Hsame)) | exact Hne].
    + intros Hb. inversion Hb as [Hr]. clear Hb.
      match goal with
      | |- Some (virq_find_spi_loop ?n ?i ?g1 ?v, ?t) = _ =>
          rewrite (virq_find_spi_loop_ext n i g1 (st_vgic s) v eq_refl)
      end.
      reflexivity.
Qed.

(** X5.  [virq_add] refuses an SGI or PPI number that the vCPU has a
    handler for: it returns -1 and leaves the state as it was, so the first
    handler stays the registered one. *)
Theorem virq_add_sgi_ppi_refuses_taken (vcpu : vm_vcpu_t) (h h0 : virq_handle)
    (s : state) :
  virq h < GIC_SPI_IRQ_MIN ->
  virq_find_irq_data vcpu (virq h) s = Some (Some h0, s) ->
  virq_add vcpu h s = Some (-1, s).
Proof.
  intros Hlow. unfold virq_find_irq_data, virq_get_sgi_ppi, virq_add, virq_sgi_ppi_add.
  destruct (Z.ltb_spec (virq h) GIC_SPI_IRQ_MIN) as [_ | Hge]; [| lia]. munfold.
  destruct (vcpu_id vcpu <? CONFIG_MAX_NUM_NODES); simpl; [| discriminate].
  intros Hb. inversion Hb as [Hslot]. rewrite Hslot. reflexivity.
Qed.

(** ** The list register shadow *)

Lemma find_empty_list_reg_loop_lowest (n : nat) (i : Z) (row : list (option virq_handle)) :
  let idx := find_empty_list_reg_loop n i row in
  (idx = -1 /\ forall j, i <= j < i + Z.of_nat n -> arr_get None row j <> None)
  \/ (i <= idx < i + Z.of_nat n /\ arr_get None row idx = None
      /\ forall j, i <= j < idx -> arr_get None row j <> None).
Proof.
  intros idx. subst idx. revert i. induction n as [| n IH]; intros i.
  - left. split; [reflexivity | intros j Hj; lia].
  - rewrite find_empty_list_reg_loop_S.
    destruct (arr_get None row i) as [h |] eqn:Hi.
    + destruct (IH (i + 1)) as [[Hm Hfull] | (Hk & Hfree & Hlow)].
      * left. split; [exact Hm |].
        intros j Hj. destruct (Z.eq_dec j i) as [-> | Hne].
        -- rewrite Hi. discriminate.
        -- apply Hfull. lia.
      * right. split; [lia | split; [exact Hfree |]].
        intros j Hj. destruct (Z.eq_dec j i) as [-> | Hne].
        -- rewrite Hi. discriminate.
        -- apply Hlow. lia.
    + right. split; [lia | split; [exact Hi |]]. intros j Hj. lia.
Qed.

(** X6.  [vgic_find_empty_list_reg] returns the lowest index below
    [NUM_LIST_REGS] whose shadow entry is NULL, and -1 exactly when all four
    entries of the vCPU are taken; it leaves the state alone. *)
Theorem vgic_find_empty_list_reg_lowest (vcpu : vm_vcpu_t) (s : state) :
  exists idx,
    vgic_find_empty_list_reg vcpu s = Some (idx, s)
    /\ let row := arr_get [] (lr_shadow (st_vgic s)) (vcpu_id vcpu) in
       (idx = -1 /\ forall i, 0 <= i < NUM_LIST_REGS -> arr_get None row i <> None)
       \/ (0 <= idx < NUM_LIST_REGS /\ arr_get None row idx = None
           /\ forall i, 0 <= i < idx -> arr_get None row i <> None).
Proof.
  eexists. split; [reflexivity |].
  apply (find_empty_list_reg_loop_lowest (Z.to_nat NUM_LIST_REGS) 0).
Qed.

(** ** The bit accessors of vdist.h *)

Lemma set_word_testbit (l : list Z) (i k irq j : Z) :
  0 <= irq -> 0 <= j ->
  Z.testbit (arr_get 0 (arr_set l i (Z.lor (arr_get 0 l i) (IRQ_BIT irq))) k) j
  = Z.testbit (arr_get 0 l k) j
    || ((k =? i) && (0 <=? i) && (i <? Z.of_nat (length l)) && (j =? irq mod 32)).
Proof.
  intros Hirq Hj. rewrite arr_get_set.
  destruct ((k =? i) && (0 <=? i) && (i <? Z.of_nat (length l))) eqn:Hhit; simpl.
  - assert (k = i) as -> by lia. apply set_bit_testbit. exact Hirq.
  - rewrite orb_false_r. reflexivity.
Qed.

Lemma same_irq_iff (irq irq' : Z) :
  0 <= irq -> 0 <= irq' ->
  (irq' =? irq) = (irq' / 32 =? irq / 32) && (irq' mod 32 =? irq mod 32).
Proof.
  intros H H'.
  destruct (Z.eqb_spec irq' irq) as [-> | Hne].
  - rewrite !Z.eqb_refl. reflexivity.
  - destruct (Z.eqb_spec (irq' / 32) (irq / 32)) as [Hq | Hq]; [| reflexivity].
    destruct (Z.eqb_spec (irq' mod 32) (irq mod 32)) as [Hr | Hr]; [| reflexivity].
    exfalso. apply Hne.
    rewrite (Z.div_mod irq' 32), (Z.div_mod irq 32) by lia. rewrite Hq, Hr. reflexivity.
Qed.

(** X7.  [set_enable] and [is_enabled].  For interrupt numbers from 0 up
    and an enable word that exists, [set_enable d irq b v] makes
    [is_enabled] answer [b] for [irq] (for vCPU [v] when [irq] is an SGI or
    PPI, for every vCPU when it is shared) and leaves the answer for every
    other interrupt and, for SGIs and PPIs, every other vCPU as it was; the
    pending and active bits are not touched. *)
Theorem set_enable_is_enabled (d : gic_dist_map) (irq v : Z) (b : bool) (irq' v' : Z) :
  0 <= irq -> 0 <= irq' ->
  enable_word_exists d irq v ->
  is_enabled (set_enable d irq b v) irq' v'
  = (if (irq' =? irq) && ((GIC_SPI_IRQ_MIN <=? irq) || (v' =? v)) then b
     else is_enabled d irq' v')
  /\ is_pending (set_enable d irq b v) irq' v' = is_pending d irq' v'
  /\ is_active (set_enable d irq b v) irq' v' = is_active d irq' v'.
Proof.
  intros Hirq Hirq' Hex.
  assert (Hm : 0 <= irq mod 32 < 32) by (apply Z.mod_pos_bound; lia).
  assert (Hm' : 0 <= irq' mod 32 < 32) by (apply Z.mod_pos_bound; lia).
  split.
  2: { unfold is_pending, is_active, set_enable, set_sgi_ppi_enable, set_spi_enable.
       destruct (irq <? GIC_SPI_IRQ_MIN), b; split; reflexivity. }
  unfold enable_word_exists in Hex.
  unfold is_enabled, set_enable, is_sgi_ppi_enabled, is_spi_enabled,
    set_sgi_ppi_enable, set_spi_enable.
  unfold GIC_SPI_IRQ_MIN, NUM_SGI_VIRQS, NUM_PPI_VIRQS in *.
  destruct (Z.ltb_spec irq (16 + 16)) as [Hlo | Hhi];
    destruct (Z.ltb_spec irq' (16 + 16)) as [Hlo' | Hhi'];
    destruct b; simpl;
    rewrite ?land_IRQ_BIT_nonzero, ?IRQ_IDX_nonneg by lia;
    rewrite ?set_word_testbit, ?cleared_word_testbit by lia.
  all: rewrite (same_irq_iff irq irq') by lia.
  all: repeat match goal with
       | |- context [Z.eqb ?a ?b] => destruct (Z.eqb_spec a b)
       | |- context [Z.leb ?a ?b] => destruct (Z.leb_spec a b)
       | |- context [Z.ltb ?a ?b] => destruct (Z.ltb_spec a b)
       end; simpl.
  all: try destruct (Z.testbit _ _); try reflexivity.
  all: exfalso; mlia.
Qed.

(** X8.  [set_pending] and [is_pending], in the same way:
    [set_pending d irq b v] makes [is_pending] answer [b] for [irq] (for
    vCPU [v] when [irq] is an SGI or PPI, for every vCPU when it is shared),
    leaves every other pending bit as it was, and does not touch the enable
    and active bits. *)
Theorem set_pending_is_pending (d : gic_dist_map) (irq v : Z) (b : bool) (irq' v' : Z) :
  0 <= irq -> 0 <= irq' ->
  pending_word_exists d irq v ->
  is_pending (set_pending d irq b v) irq' v'
  = (if (irq' =? irq) && ((GIC_SPI_IRQ_MIN <=? irq) || (v' =? v)) then b
     else is_pending d irq' v')
  /\ is_enabled (set_pending d irq b v) irq' v' = is_enabled d irq' v'
  /\ is_active (set_pending d irq b v) irq' v' = is_active d irq' v'.
Proof.
  intros Hirq Hirq' Hex.
  assert (Hm : 0 <= irq mod 32 < 32) by (apply Z.mod_pos_bound; lia).
  assert (Hm' : 0 <= irq' mod 32 < 32) by (apply Z.mod_pos_bound; lia).
  split.
  2: { unfold is_enabled, is_active, set_pending, set_sgi_ppi_pending, set_spi_pending.
       destruct (irq <? GIC_SPI_IRQ_MIN), b; split; reflexivity. }
  unfold pending_word_exists in Hex.
  unfold is_pending, set_pending, is_sgi_ppi_pending, is_spi_pending,
    set_sgi_ppi_pending, set_spi_pending.
  unfold GIC_SPI_IRQ_MIN, NUM_SGI_VIRQS, NUM_PPI_VIRQS in *.
  destruct (Z.ltb_spec irq (16 + 16)) as [Hlo | Hhi];
    destruct (Z.ltb_spec irq' (16 + 16)) as [Hlo' | Hhi'];
    destruct b; simpl;
    rewrite ?land_IRQ_BIT_nonzero, ?IRQ_IDX_nonneg by lia;
    rewrite ?set_word_testbit, ?cleared_word_testbit by lia.
  all: rewrite (same_irq_iff irq irq') by lia.
  all: repeat match goal with
       | |- context [Z.eqb ?a ?b] => destruct (Z.eqb_spec a b)
       | |- context [Z.leb ?a ?b] => destruct (Z.leb_spec a b)
       | |- context [Z.ltb ?a ?b] => destruct (Z.ltb_spec a b)
       end; simpl.
  all: try destruct (Z.testbit _ _); try reflexivity.
  all: exfalso; mlia.
Qed.

(** ** The bitmap registers: one operation per set bit *)

Lemma set_bits_from_none (n : nat) (k data : Z) :
  (forall j, k <= j < k + Z.of_nat n -> Z.testbit data j = false) ->
  set_bits_from n k data = [].
Proof.
  revert k. induction n as [| n IH]; intros k H; [reflexivity |].
  simpl. rewrite (H k) by lia. apply IH. intros j Hj. apply H. lia.
Qed.

Lemma set_bits_from_ext (n : nat) (k d1 d2 : Z) :
  (forall j, k <= j < k + Z.of_nat n -> Z.testbit d1 j = Z.testbit d2 j) ->
  set_bits_from n k d1 = set_bits_from n k d2.
Proof.
  revert k. induction n as [| n IH]; intros k H; [reflexivity |].
  simpl. rewrite (H k) by lia. rewrite (IH (k + 1)); [reflexivity |].
  intros j Hj. apply H. lia.
Qed.

Lemma set_bits_from_skip (n : nat) (k c data : Z) :
  k <= c < k + Z.of_nat n ->
  (forall j, k <= j < c -> Z.testbit data j = false) ->
  Z.testbit data c = true ->
  set_bits_from n k data
  = c :: set_bits_from (n - Z.to_nat (c - k) - 1) (c + 1) data.
Proof.
  revert k. induction n as [| n IH]; intros k Hc Hlow Hbit; [lia |].
  simpl set_bits_from at 1.
  destruct (Z.eq_dec k c) as [-> | Hne].
  - rewrite Hbit. replace (S n - Z.to_nat (c - c) - 1)%nat with n by lia. reflexivity.
  - rewrite (Hlow k) by lia. rewrite (IH (k + 1)); [| lia | intros j Hj; apply Hlow; lia | exact Hbit].
    replace (S n - Z.to_nat (c - k) - 1)%nat with (n - Z.to_nat (c - (k + 1)) - 1)%nat by lia.
    reflexivity.
Qed.

Lemma elem_of_set_bits (data j : Z) :
  j ∈ set_bits data <-> 0 <= j < 32 /\ Z.testbit data j = true.
Proof.
  unfold set_bits.
  assert (H : forall n k, j ∈ set_bits_from n k data
                <-> k <= j < k + Z.of_nat n /\ Z.testbit data j = true).
  { induction n as [| n IH]; intros k; simpl.
    - rewrite elem_of_nil. lia.
    - destruct (Z.testbit data k) eqn:Hk.
      + rewrite elem_of_cons, IH. split.
        * intros [-> | [Hr Hb]]; [split; [lia | exact Hk] | split; [lia | exact Hb]].
        * intros [Hr Hb]. destruct (Z.eq_dec j k); [left; assumption | right; split; [lia | exact Hb]].
      + rewrite IH. split.
        * intros [Hr Hb]. split; [lia | exact Hb].
        * intros [Hr Hb]. split; [| exact Hb].
          destruct (Z.eq_dec j k) as [-> | Hne]; [congruence | lia]. }
  rewrite H. change (0 + Z.of_nat 32) with 32. reflexivity.
Qed.

Lemma bit_loop_for_each (body : Z -> M unit) (fuel : nat) :
  forall (rest k : Z) (n : nat) (s : state),
    0 <= rest < 2 ^ 32 -> 0 <= k ->
    (forall j, 0 <= j < k -> Z.testbit rest j = false) ->
    k + Z.of_nat n = 32 -> (n <= fuel)%nat ->
    bit_loop fuel rest body s = for_each (set_bits_from n k rest) body s.
Proof.
  induction fuel as [| fuel IH]; intros rest k n s Hrest Hk Hlow Hn Hfuel.
  - assert (n = O) as -> by lia. reflexivity.
  - rewrite bit_loop_S.
    destruct (Z.eqb_spec rest 0) as [-> | Hnz].
    + rewrite set_bits_from_none; [reflexivity |].
      intros j _. apply Z.bits_0.
    + assert (Hpos : 0 < rest < 2 ^ 32) by lia.
      destruct (CTZ_spec rest) as (Hc0 & Hcbit & Hclow); [lia |].
      pose proof (CTZ_word rest Hpos) as Hc.
      assert (Hkc : k <= CTZ rest).
      { destruct (Z_le_gt_dec k (CTZ rest)) as [Hle | Hgt]; [exact Hle |].
        rewrite (Hlow (CTZ rest)) in Hcbit by lia. discriminate. }
      rewrite (set_bits_from_skip n k (CTZ rest) rest); [| lia | | exact Hcbit].
      2: { intros j Hj. apply Hclow. lia. }
      simpl for_each. unfold bind.
      destruct (body (CTZ rest) s) as [[[] s1] |]; [| reflexivity].
      rewrite (IH _ (CTZ rest + 1) (n - Z.to_nat (CTZ rest - k) - 1)%nat).
      * f_equal. apply set_bits_from_ext. intros j Hj.
        rewrite clear_lowest_testbit by lia.
        destruct (Z.ltb_spec j 32); [| lia].
        destruct (Z.eqb_spec j (CTZ rest)); [lia |].
        rewrite !andb_true_r. reflexivity.
      * apply clear_lowest_range; lia.
      * lia.
      * intros j Hj. rewrite clear_lowest_testbit by lia.
        destruct (Z.eq_dec j (CTZ rest)) as [-> | Hne].
        -- rewrite Z.eqb_refl. apply andb_false_r.
        -- rewrite Hclow by lia. reflexivity.
      * lia.
      * lia.
Qed.

Lemma word_land_range (a b : Z) : 0 <= Z.land (u32 a) (u32 b) < 2 ^ 32.
Proof.
  assert (Ha : 0 <= u32 a < 2 ^ 32) by (unfold u32; apply Z.mod_pos_bound; lia).
  assert (Hnn : 0 <= Z.land (u32 a) (u32 b)) by (apply Z.land_nonneg; lia).
  split; [exact Hnn |].
  apply (Z.bounded_iff_bits_nonneg 32); [lia | exact Hnn |].
  intros l Hl. rewrite Z.land_spec, (word_high_bits (u32 a) l) by lia. reflexivity.
Qed.

Lemma bit_loop_set_bits (body : Z -> M unit) (data : Z) (s : state) :
  0 <= data < 2 ^ 32 ->
  bit_loop 32 data body s = for_each (set_bits data) body s.
Proof.
  intros Hdata.
  apply (bit_loop_for_each body 32 data 0 32%nat s Hdata);
    [lia | intros j Hj; lia | reflexivity | lia].
Qed.

(** The case labels of the four bitmap registers. *)
Ltac hit_label H :=
  match type of H with
  | RANGE32 ?a ?b ?o = true =>
      destruct (RANGE32_spec a b o) as [Hhit | Hmiss]; [clear H | discriminate H]
  end;
  unfold write_switch; unfold_regs;
  repeat match goal with
  | |- context [if RANGE32 ?a ?b ?o then _ else _] =>
      destruct (RANGE32_spec a b o);
        [first [exfalso; lia | reflexivity] | try (exfalso; lia)]
  end.

Lemma write_switch_ISENABLER (e : env) (vcpu : vm_vcpu_t) (f : fault_t) (offset : Z) :
  RANGE32 GIC_DIST_ISENABLER0 GIC_DIST_ISENABLERN offset = true ->
  write_switch e vcpu f offset
  = bit_loop 32 (Z.land (u32 (fault_get_data f)) (u32 (fault_get_data_mask f)))
      (fun irq => vgic_dist_enable_irq vcpu (irq + (offset - GIC_DIST_ISENABLER0) * 8) ;;;
                  ret tt).
Proof. intros H. hit_label H. Qed.

Lemma write_switch_ICENABLER (e : env) (vcpu : vm_vcpu_t) (f : fault_t) (offset : Z) :
  RANGE32 GIC_DIST_ICENABLER0 GIC_DIST_ICENABLERN offset = true ->
  write_switch e vcpu f offset
  = bit_loop 32 (Z.land (u32 (fault_get_data f)) (u32 (fault_get_data_mask f)))
      (fun irq => vgic_dist_disable_irq vcpu (irq + (offset - GIC_DIST_ICENABLER0) * 8) ;;;
                  ret tt).
Proof. intros H. hit_label H. Qed.

Lemma write_switch_ISPENDR (e : env) (vcpu : vm_vcpu_t) (f : fault_t) (offset : Z) :
  RANGE32 GIC_DIST_ISPENDR0 GIC_DIST_ISPENDRN offset = true ->
  write_switch e vcpu f offset
  = bit_loop 32 (Z.land (u32 (fault_get_data f)) (u32 (fault_get_data_mask f)))
      (fun irq => vgic_dist_set_pending_irq e vcpu (irq + (offset - GIC_DIST_ISPENDR0) * 8) ;;;
                  ret tt).
Proof. intros H. hit_label H. Qed.

Lemma write_switch_ICPENDR (e : env) (vcpu : vm_vcpu_t) (f : fault_t) (offset : Z) :
  RANGE32 GIC_DIST_ICPENDR0 GIC_DIST_ICPENDRN offset = true ->
  write_switch e vcpu f offset
  = bit_loop 32 (Z.land (u32 (fault_get_data f)) (u32 (fault_get_data_mask f)))
      (fun irq => vgic_dist_clr_pending_irq vcpu (irq + (offset - 0x280) * 8) ;;;
                  ret tt).
Proof. intros H. hit_label H. Qed.

(** X9.  A guest write to one of the bitmap registers ISENABLERn,
    ICENABLERn, ISPENDRn or ICPENDRn is turned into one call of the
    register's operation per set bit of the masked data, lowest bit first:
    bit [j] of the word at byte offset [off] of the register bank stands for
    interrupt [j + 8 * off].  Zero bits cause no call, and the fault is
    ignored (not emulated) afterwards. *)
Theorem bitmap_write_runs_each_set_bit (e : env) (dev : vgic_dist_device)
    (vcpu : vm_vcpu_t) (f : fault_t) (s : state) :
  let offset := fault_get_address f - pstart dev in
  let data := Z.land (u32 (fault_get_data f)) (u32 (fault_get_data_mask f)) in
  let finish := emit EvIgnoreFault ;;; ret (fault_result (ignore_fault_err e)) in
  (RANGE32 GIC_DIST_ISENABLER0 GIC_DIST_ISENABLERN offset = true ->
   handle_vgic_dist_write_fault e dev vcpu f s
   = (for_each (set_bits data)
        (fun j => vgic_dist_enable_irq vcpu (j + (offset - GIC_DIST_ISENABLER0) * 8) ;;;
                  ret tt) ;;;
      finish) s)
  /\ (RANGE32 GIC_DIST_ICENABLER0 GIC_DIST_ICENABLERN offset = true ->
      handle_vgic_dist_write_fault e dev vcpu f s
      = (for_each (set_bits data)
           (fun j => vgic_dist_disable_irq vcpu (j + (offset - GIC_DIST_ICENABLER0) * 8) ;;;
                     ret tt) ;;;
         finish) s)
  /\ (RANGE32 GIC_DIST_ISPENDR0 GIC_DIST_ISPENDRN offset = true ->
      handle_vgic_dist_write_fault e dev vcpu f s
      = (for_each (set_bits data)
           (fun j => vgic_dist_set_pending_irq e vcpu (j + (offset - GIC_DIST_ISPENDR0) * 8) ;;;
                     ret tt) ;;;
         finish) s)
  /\ (RANGE32 GIC_DIST_ICPENDR0 GIC_DIST_ICPENDRN offset = true ->
      handle_vgic_dist_write_fault e dev vcpu f s
      = (for_each (set_bits data)
           (fun j => vgic_dist_clr_pending_irq vcpu (j + (offset - GIC_DIST_ICPENDR0) * 8) ;;;
                     ret tt) ;;;
         finish) s)
  /\ forall j, j ∈ set_bits data <-> 0 <= j < 32 /\ Z.testbit data j = true.
Proof.
  intros offset data finish.
  pose proof (word_land_range (fault_get_data f) (fault_get_data_mask f)) as Hdata.
  fold data in Hdata.
  split; [| split; [| split; [| split]]].
  - intros H. unfold handle_vgic_dist_write_fault. fold offset.
    rewrite (write_switch_ISENABLER e vcpu f offset H). fold data.
    unfold bind at 1 4. rewrite bit_loop_set_bits by exact Hdata. reflexivity.
  - intros H. unfold handle_vgic_dist_write_fault. fold offset.
    rewrite (write_switch_ICENABLER e vcpu f offset H). fold data.
    unfold bind at 1 4. rewrite bit_loop_set_bits by exact Hdata. reflexivity.
  - intros H. unfold handle_vgic_dist_write_fault. fold offset.
    rewrite (write_switch_ISPENDR e vcpu f offset H). fold data.
    unfold bind at 1 4. rewrite bit_loop_set_bits by exact Hdata. reflexivity.
  - intros H. unfold handle_vgic_dist_write_fault. fold offset.
    rewrite (write_switch_ICPENDR e vcpu f offset H). fold data.
    unfold bind at 1 4. rewrite bit_loop_set_bits by exact Hdata. reflexivity.
  - intros j. apply elem_of_set_bits.
Qed.

(** ** [vgic_dist_set_pending_irq]: the paths that inject *)

(** The whole run of an injection that is neither refused nor already
    pending, step by step. *)
Lemma vgic_dist_set_pending_irq_run (e : env) (vcpu : vm_vcpu_t) (irq : Z)
    (s : state) (h : virq_handle) (q : irq_queue_t) (l : list virq_handle) (idx : Z) :
  virq_find_irq_data vcpu irq s = Some (Some h, s) ->
  gic_dist_is_enabled (st_dist s) = true ->
  is_enabled (st_dist s) irq (vcpu_id vcpu) = true ->
  is_pending (st_dist s) (virq h) (vcpu_id vcpu) = false ->
  0 <= vcpu_id vcpu ->
  irq_queue (st_vgic s) !! Z.to_nat (vcpu_id vcpu) = Some q ->
  ring_holds q l ->
  vgic_find_empty_list_reg vcpu s = Some (idx, s) ->
  let s2 := mk_state (set_pending (st_dist s) (virq h) true (vcpu_id vcpu))
              (st_vgic s) (st_log s) in
  let q3 := mk_irq_queue (arr_set (irqs q) (tail q) (Some h)) (head q)
              (IRQ_QUEUE_NEXT (tail q)) in
  let s3 := with_queue_of (vcpu_id vcpu) q3 s2 in
  let q4 := mk_irq_queue (irqs q3) (IRQ_QUEUE_NEXT (head q3)) (tail q3) in
  let s4 := with_queue_of (vcpu_id vcpu) q4 s3 in
  vgic_dist_set_pending_irq e vcpu irq s
  = if IRQ_QUEUE_NEXT (tail q) =? head q then Some (-1, s2)
    else if idx <? 0 then Some (0, s3)
    else match l ++ [h] with
         | x :: _ =>
             Some (load_list_reg_hw e (vcpu_id vcpu) idx (virq x),
                   mk_state (st_dist s4)
                     (with_lr_shadow
                        (arr_set (lr_shadow (st_vgic s4)) (vcpu_id vcpu)
                           (arr_set (arr_get [] (lr_shadow (st_vgic s4)) (vcpu_id vcpu))
                              idx (Some x)))
                        (st_vgic s4))
                     (st_log s4 ++ [EvLoadListReg (vcpu_id vcpu) idx (virq x)]))
         | [] => None
         end.
Proof.
  intros Hfind Hen Hirq Hnp Hid Hq Hring Hidx s2 q3 s3 q4 s4.
  unfold vgic_dist_set_pending_irq. unfold bind at 1, get_dist.
  unfold bind at 1. rewrite Hfind, Hen, Hirq, Hnp. cbn [negb orb].
  unfold bind at 1, modify_dist. fold s2.
  unfold bind at 1.
  rewrite (vgic_irq_enqueue_run vcpu s2 q h) by (first [lia | exact Hq]).
  destruct (Z.eqb_spec (IRQ_QUEUE_NEXT (tail q)) (head q)) as [Hfull | Hroom];
    [reflexivity |].
  fold q3. fold s3. cbn [negb Z.eqb]. cbv iota.
  assert (Hidx3 : vgic_find_empty_list_reg vcpu s3 = Some (idx, s3)).
  { revert Hidx. unfold vgic_find_empty_list_reg. munfold.
    intros Hb. inversion Hb as [Hi]. reflexivity. }
  unfold bind at 1. rewrite Hidx3.
  destruct (idx <? 0); [reflexivity |].
  pose proof (ring_holds_enqueue q l h Hring Hroom) as Hring3. fold q3 in Hring3.
  assert (Hlook3 : irq_queue (st_vgic s3) !! Z.to_nat (vcpu_id vcpu) = Some q3).
  { unfold s3, with_queue_of. simpl. rewrite lookup_arr_set by lia.
    rewrite Z.eqb_refl. apply lookup_lt_Some in Hq.
    destruct (Z.ltb_spec (vcpu_id vcpu) (Z.of_nat (length (irq_queue (st_vgic s)))));
      [reflexivity | lia]. }
  unfold bind at 1.
  rewrite (vgic_irq_dequeue_run vcpu s3 q3) by (first [lia | exact Hlook3]).
  destruct (l ++ [h]) as [| x l'] eqn:Hl'; [destruct l; discriminate |].
  destruct (Z.eqb_spec (head q3) (tail q3)) as [Hemp | _].
  { apply (ring_holds_empty_iff q3 (x :: l') Hring3) in Hemp. discriminate. }
  destruct (ring_holds_dequeue q3 x l' Hring3) as [Hx Hring4].
  rewrite Hx. fold q4. fold s4.
  unfold vgic_vcpu_load_list_reg, vgic_shadow_irq. munfold. reflexivity.
Qed.

Lemma vgic_find_empty_list_reg_run (vcpu : vm_vcpu_t) (s : state) :
  vgic_find_empty_list_reg vcpu s
  = Some (find_empty_list_reg_loop (Z.to_nat NUM_LIST_REGS) 0
            (arr_get [] (lr_shadow (st_vgic s)) (vcpu_id vcpu)), s).
Proof. reflexivity. Qed.

Lemma lookup_with_queue_of (s : state) (v : Z) (q q' : irq_queue_t) :
  0 <= v -> irq_queue (st_vgic s) !! Z.to_nat v = Some q ->
  irq_queue (st_vgic (with_queue_of v q' s)) !! Z.to_nat v = Some q'.
Proof.
  intros Hv Hq. unfold with_queue_of. simpl. rewrite lookup_arr_set by lia.
  rewrite Z.eqb_refl. apply lookup_lt_Some in Hq.
  destruct (Z.ltb_spec v (Z.of_nat (length (irq_queue (st_vgic s)))));
    [reflexivity | lia].
Qed.

(** X10.  An injection that finds a free list register.  When the
    interrupt has a handler, the distributor and the interrupt are enabled,
    the interrupt is not pending yet, the overflow ring has room and
    [vgic_find_empty_list_reg] returns an index [idx], then
    [vgic_dist_set_pending_irq] sets the pending bit, appends the handler to
    the ring, takes the oldest handler [x] out of the ring (the new one if
    the ring was empty), loads [x] into list register [idx] by one call of
    [vgic_vcpu_load_list_reg], records [x] in [lr_shadow], and returns what
    that call returned.  The handler tables are untouched. *)
Theorem set_pending_loads_oldest_queued (e : env) (vcpu : vm_vcpu_t) (irq : Z)
    (s : state) (h : virq_handle) (q : irq_queue_t) (l : list virq_handle) (idx : Z) :
  virq_find_irq_data vcpu irq s = Some (Some h, s) ->
  gic_dist_is_enabled (st_dist s) = true ->
  is_enabled (st_dist s) irq (vcpu_id vcpu) = true ->
  is_pending (st_dist s) (virq h) (vcpu_id vcpu) = false ->
  0 <= vcpu_id vcpu ->
  irq_queue (st_vgic s) !! Z.to_nat (vcpu_id vcpu) = Some q ->
  ring_holds q l ->
  Z.of_nat (length l) < MAX_IRQ_QUEUE_LEN - 1 ->
  vgic_find_empty_list_reg vcpu s = Some (idx, s) ->
  0 <= idx ->
  exists x l' q' s',
    l ++ [h] = x :: l'
    /\ vgic_dist_set_pending_irq e vcpu irq s
       = Some (load_list_reg_hw e (vcpu_id vcpu) idx (virq x), s')
    /\ st_dist s' = set_pending (st_dist s) (virq h) true (vcpu_id vcpu)
    /\ irq_queue (st_vgic s') !! Z.to_nat (vcpu_id vcpu) = Some q'
    /\ ring_holds q' l'
    /\ lr_shadow (st_vgic s')
       = arr_set (lr_shadow (st_vgic s)) (vcpu_id vcpu)
           (arr_set (arr_get [] (lr_shadow (st_vgic s)) (vcpu_id vcpu)) idx (Some x))
    /\ sgi_ppi_irq (st_vgic s') = sgi_ppi_irq (st_vgic s)
    /\ virqs (st_vgic s') = virqs (st_vgic s)
    /\ st_log s' = st_log s ++ [EvLoadListReg (vcpu_id vcpu) idx (virq x)].
Proof.
  intros Hfind Hen Hirq Hnp Hid Hq Hring Hroom Hidx Hidx0.
  pose proof (vgic_dist_set_pending_irq_run e vcpu irq s h q l idx
                Hfind Hen Hirq Hnp Hid Hq Hring Hidx) as Hrun.
  cbv zeta in Hrun.
  destruct (Z.eqb_spec (IRQ_QUEUE_NEXT (tail q)) (head q)) as [Hfull | Hnf].
  { apply (ring_holds_full_iff q l Hring) in Hfull. lia. }
  destruct (Z.ltb_spec idx 0) as [Hneg | _]; [lia |].
  pose proof (ring_holds_enqueue q l h Hring Hnf) as Hring3.
  destruct (l ++ [h]) as [| x l'] eqn:Hl'; [destruct l; discriminate |].
  destruct (ring_holds_dequeue _ x l' Hring3) as [_ Hring4].
  eexists x, l', _, _.
  split; [reflexivity |]. split; [exact Hrun |]. split; [reflexivity |].
  split.
  { cbn [st_vgic with_lr_shadow irq_queue].
    apply (lookup_with_queue_of _ _ (mk_irq_queue (arr_set (irqs q) (tail q) (Some h))
                                       (head q) (IRQ_QUEUE_NEXT (tail q)))); [exact Hid |].
    apply (lookup_with_queue_of _ _ q); [exact Hid | exact Hq]. }
  split; [exact Hring4 |].
  repeat split.
Qed.

(** X11.  An injection that finds all list registers taken.  Under the
    same conditions, when [vgic_find_empty_list_reg] returns -1 the handler
    is appended to the overflow ring and stays there: the call returns 0,
    the pending bit is set, and neither [lr_shadow] nor the handler tables
    nor the log of outside calls change. *)
Theorem set_pending_queues_without_free_register (e : env) (vcpu : vm_vcpu_t)
    (irq : Z) (s : state) (h : virq_handle) (q : irq_queue_t)
    (l : list virq_handle) (idx : Z) :
  virq_find_irq_data vcpu irq s = Some (Some h, s) ->
  gic_dist_is_enabled (st_dist s) = true ->
  is_enabled (st_dist s) irq (vcpu_id vcpu) = true ->
  is_pending (st_dist s) (virq h) (vcpu_id vcpu) = false ->
  0 <= vcpu_id vcpu ->
  irq_queue (st_vgic s) !! Z.to_nat (vcpu_id vcpu) = Some q ->
  ring_holds q l ->
  Z.of_nat (length l) < MAX_IRQ_QUEUE_LEN - 1 ->
  vgic_find_empty_list_reg vcpu s = Some (idx, s) ->
  idx < 0 ->
  exists q' s',
    vgic_dist_set_pending_irq e vcpu irq s = Some (0, s')
    /\ st_dist s' = set_pending (st_dist s) (virq h) true (vcpu_id vcpu)
    /\ irq_queue (st_vgic s') !! Z.to_nat (vcpu_id vcpu) = Some q'
    /\ ring_holds q' (l ++ [h])
    /\ lr_shadow (st_vgic s') = lr_shadow (st_vgic s)
    /\ sgi_ppi_irq (st_vgic s') = sgi_ppi_irq (st_vgic s)
    /\ virqs (st_vgic s') = virqs (st_vgic s)
    /\ st_log s' = st_log s.
Proof.
  intros Hfind Hen Hirq Hnp Hid Hq Hring Hroom Hidx Hidx0.
  pose proof (vgic_dist_set_pending_irq_run e vcpu irq s h q l idx
                Hfind Hen Hirq Hnp Hid Hq Hring Hidx) as Hrun.
  cbv zeta in Hrun.
  destruct (Z.eqb_spec (IRQ_QUEUE_NEXT (tail q)) (head q)) as [Hfull | Hnf].
  { apply (ring_holds_full_iff q l Hring) in Hfull. lia. }
  destruct (Z.ltb_spec idx 0) as [_ | Hge]; [| lia].
  pose proof (ring_holds_enqueue q l h Hring Hnf) as Hring3.
  eexists _, _.
  split; [exact Hrun |]. split; [reflexivity |].
  split; [apply (lookup_with_queue_of _ _ q); [exact Hid | exact Hq] |].
  split; [exact Hring3 |].
  repeat split.
Qed.

(** X12.  An injection into a full overflow ring.  Under the same
    conditions, when the ring already holds [MAX_IRQ_QUEUE_LEN - 1]
    handlers, [vgic_dist_set_pending_irq] returns -1 after it has set the
    pending bit: nothing is queued or loaded, and the rest of the state is
    as before.  As the bit stays set, every later injection of that
    interrupt returns 0 and does nothing. *)
Theorem set_pending_into_full_ring (e : env) (vcpu : vm_vcpu_t) (irq : Z)
    (s : state) (h : virq_handle) (q : irq_queue_t) (l : list virq_handle) :
  virq_find_irq_data vcpu irq s = Some (Some h, s) ->
  gic_dist_is_enabled (st_dist s) = true ->
  is_enabled (st_dist s) irq (vcpu_id vcpu) = true ->
  is_pending (st_dist s) (virq h) (vcpu_id vcpu) = false ->
  0 <= vcpu_id vcpu ->
  irq_queue (st_vgic s) !! Z.to_nat (vcpu_id vcpu) = Some q ->
  ring_holds q l ->
  Z.of_nat (length l) = MAX_IRQ_QUEUE_LEN - 1 ->
  let s' := mk_state (set_pending (st_dist s) (virq h) true (vcpu_id vcpu))
              (st_vgic s) (st_log s) in
  vgic_dist_set_pending_irq e vcpu irq s = Some (-1, s')
  /\ (0 <= virq h ->
      pending_word_exists (st_dist s) (virq h) (vcpu_id vcpu) ->
      forall e', vgic_dist_set_pending_irq e' vcpu irq s' = Some (0, s')).
Proof.
  intros Hfind Hen Hirq Hnp Hid Hq Hring Hfull s'.
  pose proof (vgic_dist_set_pending_irq_run e vcpu irq s h q l _
                Hfind Hen Hirq Hnp Hid Hq Hring
                (vgic_find_empty_list_reg_run vcpu s)) as Hrun.
  cbv zeta in Hrun.
  destruct (Z.eqb_spec (IRQ_QUEUE_NEXT (tail q)) (head q)) as [_ | Hnf].
  2: { exfalso. apply Hnf. apply (ring_holds_full_iff q l Hring). exact Hfull. }
  split; [exact Hrun |].
  intros Hv Hword e'.
  assert (Hfind' : virq_find_irq_data vcpu irq s' = Some (Some h, s'))
    by (apply (virq_find_irq_data_tables vcpu irq s s'); [reflexivity .. | exact Hfind]).
  destruct (set_pending_enable_fields (st_dist s) (virq h) (vcpu_id vcpu) true)
    as (He1 & He2 & He3).
  unfold vgic_dist_set_pending_irq. unfold bind at 1, get_dist.
  unfold bind at 1. rewrite Hfind'.
  assert (Hen' : gic_dist_is_enabled (st_dist s') = true)
    by (unfold gic_dist_is_enabled, s'; cbn [st_dist]; rewrite He1; exact Hen).
  assert (Hirq' : is_enabled (st_dist s') irq (vcpu_id vcpu) = true).
  { revert Hirq. unfold is_enabled, is_sgi_ppi_enabled, is_spi_enabled, s'.
    cbn [st_dist]. rewrite He2, He3. intros Hb. exact Hb. }
  rewrite Hen', Hirq'. cbn [negb orb].
  unfold s' at 1. cbn [st_dist].
  rewrite (is_pending_set_pending _ _ _ Hv Hword). reflexivity.
Qed.

(** ** The dispatch tables of the two fault handlers *)

Lemma read_switch_default (d : gic_dist_map) (vcpu : vm_vcpu_t) (offset : Z) :
  read_switch d vcpu offset = None <-> ~ (0 <= offset <= 0xFFE).
Proof.
  unfold read_switch. unfold_regs.
  repeat match goal with
  | |- context [if RANGE32 ?a ?b ?o then _ else _] =>
      destruct (RANGE32_spec a b o);
        [split; [discriminate | intros Hout; exfalso; lia] |]
  end.
  split; [intros _; lia | reflexivity].
Qed.

(** X13.  The read handler answers every offset from 0 to 0xFFE and no
    other: for those it puts the register's shadow word, cut to the fault's
    data mask, into the fault and advances it; for an offset outside it sets
    no data and ignores the fault.  In both cases it returns, reports an
    error exactly when the fault call reported one, and changes neither the
    distributor image nor the tables of the vgic. *)
Theorem read_fault_answers_window (e : env) (dev : vgic_dist_device)
    (vcpu : vm_vcpu_t) (f : fault_t) (s : state) :
  let offset := fault_get_address f - pstart dev in
  exists r s',
    handle_vgic_dist_read_fault e dev vcpu f s = Some (r, s')
    /\ st_dist s' = st_dist s /\ st_vgic s' = st_vgic s
    /\ if (0 <=? offset) && (offset <=? 0xFFE)
       then exists reg,
              read_switch (st_dist s) vcpu offset = Some reg
              /\ st_log s'
                 = st_log s ++ [EvFaultSetData (Z.land reg (u32 (fault_get_data_mask f)));
                                EvAdvanceFault]
              /\ r = fault_result (advance_fault_err e)
       else st_log s' = st_log s ++ [EvIgnoreFault]
            /\ r = fault_result (ignore_fault_err e).
Proof.
  intros offset. unfold handle_vgic_dist_read_fault. fold offset.
  unfold bind at 1, get_dist.
  pose proof (read_switch_default (st_dist s) vcpu offset) as Hdef.
  destruct (read_switch (st_dist s) vcpu offset) as [reg |] eqn:Hsw.
  - munfold. eexists _, _. split; [reflexivity |].
    split; [reflexivity |]. split; [reflexivity |].
    destruct (Z.leb_spec 0 offset) as [H0 | H0];
      [destruct (Z.leb_spec offset 0xFFE) as [H1 | H1] |]; simpl.
    + exists reg. split; [reflexivity |]. split; [| reflexivity].
      rewrite <- app_assoc. reflexivity.
    + exfalso. assert (Hout : ~ (0 <= offset <= 0xFFE)) by lia.
      apply Hdef in Hout. discriminate.
    + exfalso. assert (Hout : ~ (0 <= offset <= 0xFFE)) by lia.
      apply Hdef in Hout. discriminate.
  - munfold. eexists _, _. split; [reflexivity |].
    split; [reflexivity |]. split; [reflexivity |].
    assert (Hout : ~ (0 <= offset <= 0xFFE)) by (apply Hdef; reflexivity).
    destruct (Z.leb_spec 0 offset) as [H0 | H0];
      [destruct (Z.leb_spec offset 0xFFE) as [H1 | H1] |]; simpl.
    + exfalso. lia.
    + split; reflexivity.
    + split; reflexivity.
Qed.

Lemma write_switch_no_effect (e : env) (vcpu : vm_vcpu_t) (f : fault_t) (offset : Z) :
  write_effect_offset offset = false -> write_switch e vcpu f offset = ret tt.
Proof.
  unfold write_effect_offset. rewrite !orb_false_iff.
  intros (((H1 & H2) & H3) & H4).
  repeat match goal with
  | H : RANGE32 ?a ?b ?o = false |- _ =>
      destruct (RANGE32_spec a b o); [discriminate H | clear H]
  end.
  unfold write_switch. unfold_regs.
  repeat match goal with
  | |- context [if RANGE32 ?a ?b ?o then _ else _] =>
      destruct (RANGE32_spec a b o); [first [exfalso; lia | reflexivity] |]
  end.
  reflexivity.
Qed.

(** X14.  The write handler drops a guest write to every offset outside
    the control register, the group, enable, pending and active banks, SGIR
    and the SGI pending registers: the type and identification registers,
    the priority, target and configuration banks, the words from 0xD00 and
    from 0xFC0, the reserved ranges and every offset outside the window.
    The state is left as it was and the fault is ignored. *)
Theorem write_fault_read_only_offsets (e : env) (dev : vgic_dist_device)
    (vcpu : vm_vcpu_t) (f : fault_t) (s : state) :
  write_effect_offset (fault_get_address f - pstart dev) = false ->
  handle_vgic_dist_write_fault e dev vcpu f s
  = Some (fault_result (ignore_fault_err e),
          mk_state (st_dist s) (st_vgic s) (st_log s ++ [EvIgnoreFault])).
Proof.
  intros Hoff. unfold handle_vgic_dist_write_fault.
  rewrite (write_switch_no_effect e vcpu f _ Hoff). reflexivity.
Qed.

(** X15.  A guest write to the SGI pending registers (CPENDSGIRn and
    SPENDSGIRn, offsets 0xF10 to 0xF2F) runs into the handler's [assert]:
    the write handler does not return, whatever the data and the state.  A
    read of the same offsets is answered from the shadow. *)
Theorem sgi_pending_write_asserts (e : env) (dev : vgic_dist_device)
    (vcpu : vm_vcpu_t) (f : fault_t) (s : state) :
  RANGE32 GIC_DIST_CPENDSGIR0 GIC_DIST_SPENDSGIRN (fault_get_address f - pstart dev)
    = true ->
  handle_vgic_dist_write_fault e dev vcpu f s = None
  /\ (fault_is_read f = false -> handle_vgic_dist_fault e dev vcpu f s = None)
  /\ exists reg, read_switch (st_dist s) vcpu (fault_get_address f - pstart dev)
                 = Some reg.
Proof.
  intros Hoff.
  assert (Hsw : write_switch e vcpu f (fault_get_address f - pstart dev) = abort).
  { destruct (RANGE32_spec GIC_DIST_CPENDSGIR0 GIC_DIST_SPENDSGIRN
                (fault_get_address f - pstart dev)) as [Hhit | ?]; [| discriminate].
    unfold write_switch. unfold_regs.
    repeat match goal with
    | |- context [if RANGE32 ?a ?b ?o then _ else _] =>
        destruct (RANGE32_spec a b o); [first [exfalso; lia | reflexivity] | try (exfalso; lia)]
    end. }
  assert (Hw : handle_vgic_dist_write_fault e dev vcpu f s = None)
    by (unfold handle_vgic_dist_write_fault; rewrite Hsw; reflexivity).
  split; [exact Hw |]. split.
  - intros Hrd. unfold handle_vgic_dist_fault. rewrite Hrd. exact Hw.
  - destruct (read_switch (st_dist s) vcpu (fault_get_address f - pstart dev))
      as [reg |] eqn:Hsw'; [exists reg; reflexivity |].
    exfalso. apply read_switch_default in Hsw'. apply Hsw'.
    destruct (RANGE32_spec GIC_DIST_CPENDSGIR0 GIC_DIST_SPENDSGIRN
                (fault_get_address f - pstart dev)) as [Hhit | ?]; [| discriminate].
    unfold_regs. lia.
Qed.

(** X16.  A guest write to SGIR whose target list filter is the reserved
    value 3 sends nothing: no vCPU is injected, the state is left as it was
    and the fault is ignored. *)
Theorem sgir_reserved_filter_sends_nothing (e : env) (dev : vgic_dist_device)
    (vcpu : vm_vcpu_t) (data : Z) (s : state) :
  0 <= data < 2 ^ 32 ->
  sgir_filter data = 3 ->
  handle_vgic_dist_fault e dev vcpu (write_fault dev GIC_DIST_SGIR data) s
  = Some (fault_result (ignore_fault_err e),
          mk_state (st_dist s) (st_vgic s) (st_log s ++ [EvIgnoreFault])).
Proof.
  intros Hdata Hmode.
  unfold handle_vgic_dist_fault, write_fault. cbn [fault_is_read].
  unfold handle_vgic_dist_write_fault. cbn [fault_get_address].
  replace (pstart dev + GIC_DIST_SGIR - pstart dev) with GIC_DIST_SGIR by lia.
  rewrite write_switch_SGIR. cbn [fault_get_data].
  replace (u32 data) with data by (unfold u32; rewrite Z.mod_small; lia).
  rewrite Hmode. reflexivity.
Qed.

(** ** The control register *)

Lemma write_switch_CTLR (e : env) (vcpu : vm_vcpu_t) (f : fault_t) :
  write_switch e vcpu f GIC_DIST_CTLR
  = if u32 (fault_get_data f) =? GIC_ENABLED then vgic_dist_enable ;;; ret tt
    else if u32 (fault_get_data f) =? 0 then vgic_dist_disable ;;; ret tt
    else ret tt.
Proof. reflexivity. Qed.

Lemma read_switch_CTLR (d : gic_dist_map) (vcpu : vm_vcpu_t) :
  read_switch d vcpu GIC_DIST_CTLR = Some (enable d).
Proof. reflexivity. Qed.

(** X17.  The control register keeps the values 1 and 0 only.  After a
    guest write of [W] to CTLR, a read of CTLR returns 1 if [W] is 1
    ([GIC_ENABLED]), 0 if [W] is 0, and for every other [W] what it returned
    before the write; the distributor counts as enabled after the write
    exactly when that value is not 0.  Apart from the control word and the
    log of the fault calls the state stays as it was. *)
Theorem ctlr_write_then_read (e0 e1 e2 : env) (dev : vgic_dist_device)
    (vcpu : vm_vcpu_t) (W : Z) (s : state) :
  0 <= W < 2 ^ 32 ->
  exists prior s0 s1 s2,
    guest_reads e0 dev vcpu GIC_DIST_CTLR s prior s0
    /\ handle_vgic_dist_fault e1 dev vcpu (write_fault dev GIC_DIST_CTLR W) s0
       = Some (fault_result (ignore_fault_err e1), s1)
    /\ guest_reads e2 dev vcpu GIC_DIST_CTLR s1
         (if W =? 1 then 1 else if W =? 0 then 0 else prior) s2
    /\ gic_dist_is_enabled (st_dist s1)
       = negb ((if W =? 1 then 1 else if W =? 0 then 0 else enable (st_dist s)) =? 0)
    /\ st_vgic s1 = st_vgic s
    /\ with_enable 0 (st_dist s1) = with_enable 0 (st_dist s).
Proof.
  intros HW.
  pose proof (guest_reads_word e0 dev vcpu GIC_DIST_CTLR s _ (read_switch_CTLR _ _)) as Hrd0.
  set (s0 := mk_state (st_dist s) (st_vgic s)
               (st_log s ++ [EvFaultSetData (Z.land (enable (st_dist s)) 0xFFFFFFFF);
                             EvAdvanceFault])) in *.
  set (d1 := if W =? 1 then gic_dist_enable (st_dist s)
             else if W =? 0 then gic_dist_disable (st_dist s) else st_dist s).
  set (s1 := mk_state d1 (st_vgic s) (st_log s0 ++ [EvIgnoreFault])).
  pose proof (guest_reads_word e2 dev vcpu GIC_DIST_CTLR s1 _ (read_switch_CTLR _ _)) as Hrd1.
  exists (Z.land (enable (st_dist s)) 0xFFFFFFFF), s0, s1. eexists.
  split; [exact Hrd0 |]. split; [| split; [| split; [| split]]].
  - unfold handle_vgic_dist_fault, write_fault. cbn [fault_is_read].
    unfold handle_vgic_dist_write_fault. cbn [fault_get_address].
    replace (pstart dev + GIC_DIST_CTLR - pstart dev) with GIC_DIST_CTLR by lia.
    rewrite write_switch_CTLR. cbn [fault_get_data].
    replace (u32 W) with W by (unfold u32; rewrite Z.mod_small; lia).
    unfold s1, d1, GIC_ENABLED.
    destruct (W =? 1); [reflexivity |]. destruct (W =? 0); reflexivity.
  - replace (if W =? 1 then 1 else if W =? 0 then 0
             else Z.land (enable (st_dist s)) 0xFFFFFFFF)
      with (Z.land (enable (st_dist s1)) 0xFFFFFFFF); [exact Hrd1 |].
    unfold s1, d1. cbn [st_dist].
    destruct (W =? 1); [reflexivity |]. destruct (W =? 0); reflexivity.
  - unfold gic_dist_is_enabled, s1, d1. cbn [st_dist].
    destruct (W =? 1); [reflexivity |]. destruct (W =? 0); reflexivity.
  - reflexivity.
  - unfold s1, d1. cbn [st_dist].
    destruct (W =? 1); [reflexivity |]. destruct (W =? 0); reflexivity.
Qed.

(** ** A disabled distributor *)

Lemma vgic_dist_set_pending_irq_disabled (e : env) (vcpu : vm_vcpu_t) (irq : Z)
    (t : state) :
  vcpu_id vcpu < CONFIG_MAX_NUM_NODES ->
  gic_dist_is_enabled (st_dist t) = false ->
  vgic_dist_set_pending_irq e vcpu irq t = Some (-1, t).
Proof.
  intros Hid Hdis.
  destruct (virq_find_irq_data_returns vcpu irq t Hid) as [o Ho].
  unfold vgic_dist_set_pending_irq. unfold bind at 1, get_dist.
  unfold bind at 1. rewrite Ho. destruct o as [h |]; [| reflexivity].
  rewrite Hdis. reflexivity.
Qed.

Lemma for_each_fixed (l : list Z) (body : Z -> M unit) (s : state) :
  (forall c, body c s = Some (tt, s)) -> for_each l body s = Some (tt, s).
Proof.
  intros Hbody. induction l as [| c l IH]; [reflexivity |].
  simpl. unfold bind. rewrite Hbody. exact IH.
Qed.

Lemma sgir_loop_disabled (e : env) (vcpu : vm_vcpu_t) (v tl : Z) (n : nat) :
  forall (i : Z) (t : state),
    gic_dist_is_enabled (st_dist t) = false ->
    i + Z.of_nat n <= CONFIG_MAX_NUM_NODES ->
    exists evs,
      sgir_loop e vcpu v tl n i t
      = Some (tt, mk_state (st_dist t) (st_vgic t) (st_log t ++ evs)).
Proof.
  induction n as [| n IH]; intros i t Hdis Hn.
  - exists []. rewrite app_nil_r. destruct t; reflexivity.
  - rewrite sgir_loop_S. unfold vcpus. cbn [vcpu_id].
    destruct ((Z.land tl (Z.shiftl 1 i) =? 0) || negb (is_vcpu_online e i)).
    + unfold bind at 1, ret. apply IH; [exact Hdis | lia].
    + unfold bind at 1. unfold bind at 1. unfold vm_inject_irq.
      unfold bind at 1, emit.
      rewrite vgic_dist_set_pending_irq_disabled; [| simpl; lia | exact Hdis].
      unfold ret at 1. cbn [vcpu_id].
      destruct (IH (i + 1)
                  (mk_state (st_dist t) (st_vgic t) (st_log t ++ [EvInjectIRQ i v])))
        as [evs Hrun]; [exact Hdis | lia |].
      exists (EvInjectIRQ i v :: evs). rewrite Hrun. cbn [st_dist st_vgic st_log].
      rewrite <- app_assoc. reflexivity.
Qed.

(** X18.  While the distributor is disabled the guest can make nothing
    pending: a write to any ISPENDRn, whatever its data, leaves the state as
    it was, and a write to SGIR changes only the log of outside calls; the
    distributor image, the overflow rings, [lr_shadow] and the handler
    tables stay as they were. *)
Theorem disabled_distributor_injects_nothing (e : env) (dev : vgic_dist_device)
    (vcpu : vm_vcpu_t) (f : fault_t) (t : state) :
  gic_dist_is_enabled (st_dist t) = false ->
  vcpu_id vcpu < CONFIG_MAX_NUM_NODES ->
  num_vcpus (vm vcpu) <= CONFIG_MAX_NUM_NODES ->
  (RANGE32 GIC_DIST_ISPENDR0 GIC_DIST_ISPENDRN (fault_get_address f - pstart dev) = true ->
   handle_vgic_dist_write_fault e dev vcpu f t
   = Some (fault_result (ignore_fault_err e),
           mk_state (st_dist t) (st_vgic t) (st_log t ++ [EvIgnoreFault])))
  /\ (fault_get_address f - pstart dev = GIC_DIST_SGIR ->
      exists evs,
        handle_vgic_dist_write_fault e dev vcpu f t
        = Some (fault_result (ignore_fault_err e),
                mk_state (st_dist t) (st_vgic t) (st_log t ++ evs))).
Proof.
  intros Hdis Hid Hn. split.
  - intros Hoff. unfold handle_vgic_dist_write_fault.
    rewrite (write_switch_ISPENDR e vcpu f _ Hoff).
    unfold bind at 1. rewrite bit_loop_set_bits by apply word_land_range.
    rewrite for_each_fixed; [reflexivity |].
    intros c. unfold bind.
    rewrite (vgic_dist_set_pending_irq_disabled e vcpu _ t Hid Hdis). reflexivity.
  - intros Hoff. unfold handle_vgic_dist_write_fault. rewrite Hoff.
    rewrite write_switch_SGIR.
    destruct (_ || _).
    + assert (Hloop : exists evs,
                sgir_loop e vcpu (sgir_intid (u32 (fault_get_data f)))
                  (sgir_target_list (u32 (fault_get_data f)) vcpu)
                  (Z.to_nat (num_vcpus (vm vcpu))) 0 t
                = Some (tt, mk_state (st_dist t) (st_vgic t) (st_log t ++ evs))).
      { destruct (Z_le_gt_dec 0 (num_vcpus (vm vcpu))) as [Hnn | Hneg].
        - apply sgir_loop_disabled; [exact Hdis | lia].
        - replace (Z.to_nat (num_vcpus (vm vcpu))) with O by lia.
          exists []. rewrite app_nil_r. destruct t; reflexivity. }
      destruct Hloop as [evs Hrun].
      exists (evs ++ [EvIgnoreFault]). unfold bind at 1. rewrite Hrun.
      munfold. cbn [st_dist st_vgic st_log]. rewrite <- app_assoc. reflexivity.
    + exists [EvIgnoreFault]. reflexivity.
Qed.

(** ** Enabling an interrupt *)

Lemma is_pending_set_enable (d : gic_dist_map) (irq v : Z) (b : bool) (irq' v' : Z) :
  is_pending (set_enable d irq b v) irq' v' = is_pending d irq' v'.
Proof.
  unfold is_pending, set_enable, set_sgi_ppi_enable, set_spi_enable.
  destruct (irq <? GIC_SPI_IRQ_MIN), b; reflexivity.
Qed.

Lemma vgic_dist_enable_irq_run (vcpu : vm_vcpu_t) (irq : Z) (t : state) :
  vcpu_id vcpu < CONFIG_MAX_NUM_NODES ->
  exists r,
    virq_find_irq_data vcpu irq t = Some (r, t)
    /\ vgic_dist_enable_irq vcpu irq t
       = Some (0, mk_state (set_enable (st_dist t) irq true (vcpu_id vcpu)) (st_vgic t)
                    (st_log t ++
                     match r with
                     | Some h =>
                         if is_pending (st_dist t) (virq h) (vcpu_id vcpu) then []
                         else [EvAck (vcpu_id vcpu) (virq h) (ack h) (token h)]
                     | None => []
                     end)).
Proof.
  intros Hid. destruct (virq_find_irq_data_returns vcpu irq t Hid) as [r Hr].
  exists r. split; [exact Hr |].
  unfold vgic_dist_enable_irq. unfold bind at 1. rewrite Hr.
  unfold virq_ack. munfold.
  destruct r as [h |]; [| cbn [st_dist st_vgic st_log]; rewrite app_nil_r; reflexivity].
  cbn [st_dist]. rewrite is_pending_set_enable.
  destruct (is_pending (st_dist t) (virq h) (vcpu_id vcpu)); cbn [negb st_dist st_vgic st_log];
    [rewrite app_nil_r |]; reflexivity.
Qed.


(** ** Round trips through the banked registers of a vCPU *)

Lemma isenabler0_loop (vcpu : vm_vcpu_t) (data : Z) (s : state) :
  0 <= data < 2 ^ 32 ->
  vcpu_id vcpu < CONFIG_MAX_NUM_NODES ->
  0 <= vcpu_id vcpu < Z.of_nat (length (enable_set0 (st_dist s))) ->
  exists s',
    bit_loop 32 data
      (fun irq => vgic_dist_enable_irq vcpu
                    (irq + (GIC_DIST_ISENABLER0 - GIC_DIST_ISENABLER0) * 8) ;;; ret tt) s
    = Some (tt, s')
    /\ st_vgic s' = st_vgic s
    /\ forall j, 0 <= j < 32 ->
         Z.testbit (arr_get 0 (enable_set0 (st_dist s')) (vcpu_id vcpu)) j
         = Z.testbit (arr_get 0 (enable_set0 (st_dist s)) (vcpu_id vcpu)) j
           || Z.testbit data j.
Proof.
  intros Hdata Hid Hword.
  set (Inv := fun (k : Z) (t : state) =>
    st_vgic t = st_vgic s
    /\ length (enable_set0 (st_dist t)) = length (enable_set0 (st_dist s))
    /\ forall j, 0 <= j < 32 ->
         Z.testbit (arr_get 0 (enable_set0 (st_dist t)) (vcpu_id vcpu)) j
         = Z.testbit (arr_get 0 (enable_set0 (st_dist s)) (vcpu_id vcpu)) j
           || (Z.testbit data j && (j <? k))).
  destruct (bit_loop_rule
              (fun irq => vgic_dist_enable_irq vcpu
                    (irq + (GIC_DIST_ISENABLER0 - GIC_DIST_ISENABLER0) * 8) ;;; ret tt)
              Inv data Hdata) with (fuel := 32%nat) (k := 0) (rest := data) (s := s)
    as (s' & Hrun & (Hv & Hlen & Hb)).
  - intros c t Hc Hbit (Hv & Hlen & Hb).
    replace (c + (GIC_DIST_ISENABLER0 - GIC_DIST_ISENABLER0) * 8) with c by lia.
    destruct (vgic_dist_enable_irq_run vcpu c t Hid) as (r & _ & Hrun).
    eexists. split; [unfold bind; rewrite Hrun; reflexivity |].
    unfold Inv. cbn [st_dist st_vgic].
    unfold set_enable, set_sgi_ppi_enable.
    unfold GIC_SPI_IRQ_MIN, NUM_SGI_VIRQS, NUM_PPI_VIRQS.
    destruct (Z.ltb_spec c (16 + 16)) as [_ | Hge]; [| lia]. cbn.
    split; [exact Hv |]. split; [rewrite arr_set_length; exact Hlen |].
    intros j Hj. rewrite set_word_testbit, Hb by lia.
    rewrite Z.eqb_refl, Hlen, (Z.mod_small c 32) by lia.
    destruct (Z.leb_spec 0 (vcpu_id vcpu)); [| lia].
    destruct (Z.ltb_spec (vcpu_id vcpu) (Z.of_nat (length (enable_set0 (st_dist s)))));
      [| lia].
    cbn [andb].
    destruct (Z.eqb_spec j c) as [-> | Hne].
    + rewrite Hbit.
      destruct (Z.ltb_spec c c), (Z.ltb_spec c (c + 1)); try lia;
        rewrite ?orb_true_r; reflexivity.
    + rewrite orb_false_r.
      destruct (Z.ltb_spec j c), (Z.ltb_spec j (c + 1)); try lia; reflexivity.
  - intros c t Hc Hbit (Hv & Hlen & Hb).
    unfold Inv. split; [exact Hv |]. split; [exact Hlen |].
    intros j Hj. rewrite Hb by lia.
    destruct (Z.eqb_spec j c) as [-> | Hne].
    + rewrite Hbit. reflexivity.
    + destruct (Z.ltb_spec j c), (Z.ltb_spec j (c + 1)); try lia; reflexivity.
  - lia.
  - lia.
  - exact Hdata.
  - intros j Hj. destruct (Z.leb_spec 0 j); [| lia]. rewrite andb_true_r. reflexivity.
  - unfold Inv. split; [reflexivity |]. split; [reflexivity |].
    intros j Hj. destruct (Z.ltb_spec j 0); [lia |].
    rewrite andb_false_r, orb_false_r. reflexivity.
  - exists s'. split; [exact Hrun |]. split; [exact Hv |].
    intros j Hj. rewrite Hb by lia.
    destruct (Z.ltb_spec j 32); [| lia]. rewrite andb_true_r. reflexivity.
Qed.

Lemma full_mask_data (W : Z) :
  0 <= W < 2 ^ 32 -> Z.land (u32 W) (u32 0xFFFFFFFF) = W.
Proof.
  intros HW. unfold u32. rewrite (Z.mod_small W) by lia.
  change (0xFFFFFFFF mod 2 ^ 32) with 0xFFFFFFFF. apply land_ones32. exact HW.
Qed.

(** X20.  ISENABLER0 round trip.  After a guest write of [W] to
    ISENABLER0 a read of ISENABLER0 by the same vCPU returns [prior | W],
    where [prior] is what the read returned before the write: every bit of
    [W] is set, the SGI bits 0 to 15 included, and no bit is cleared. *)
Theorem isenabler0_write_reads_back (e0 e1 e2 : env) (dev : vgic_dist_device)
    (vcpu : vm_vcpu_t) (W : Z) (s : state) :
  0 <= W < 2 ^ 32 ->
  vcpu_id vcpu < CONFIG_MAX_NUM_NODES ->
  0 <= vcpu_id vcpu < Z.of_nat (length (enable_set0 (st_dist s))) ->
  exists prior s0 s1 s2,
    guest_reads e0 dev vcpu GIC_DIST_ISENABLER0 s prior s0
    /\ handle_vgic_dist_fault e1 dev vcpu (write_fault dev GIC_DIST_ISENABLER0 W) s0
       = Some (fault_result (ignore_fault_err e1), s1)
    /\ guest_reads e2 dev vcpu GIC_DIST_ISENABLER0 s1 (Z.lor prior W) s2.
Proof.
  intros HW Hid Hword.
  set (w := arr_get 0 (enable_set0 (st_dist s)) (vcpu_id vcpu)).
  pose proof (guest_reads_word e0 dev vcpu GIC_DIST_ISENABLER0 s w
                (read_switch_ISENABLER0 _ _)) as Hrd0.
  set (s0 := mk_state (st_dist s) (st_vgic s)
               (st_log s ++ [EvFaultSetData (Z.land w 0xFFFFFFFF); EvAdvanceFault])) in *.
  destruct (isenabler0_loop vcpu W s0 HW Hid Hword) as (t & Hloop & Hv & Hb).
  set (s1 := mk_state (st_dist t) (st_vgic t) (st_log t ++ [EvIgnoreFault])).
  set (w1 := arr_get 0 (enable_set0 (st_dist s1)) (vcpu_id vcpu)).
  pose proof (guest_reads_word e2 dev vcpu GIC_DIST_ISENABLER0 s1 w1
                (read_switch_ISENABLER0 _ _)) as Hrd1.
  exists (Z.land w 0xFFFFFFFF), s0, s1. eexists.
  split; [exact Hrd0 |]. split.
  - unfold handle_vgic_dist_fault, write_fault. cbn [fault_is_read].
    unfold handle_vgic_dist_write_fault. cbn [fault_get_address].
    replace (pstart dev + GIC_DIST_ISENABLER0 - pstart dev)
      with GIC_DIST_ISENABLER0 by lia.
    rewrite write_switch_ISENABLER by reflexivity.
    cbn [fault_get_data fault_get_data_mask].
    unfold bind at 1. rewrite (full_mask_data W HW), Hloop. reflexivity.
  - replace (Z.lor (Z.land w 0xFFFFFFFF) W) with (Z.land w1 0xFFFFFFFF); [exact Hrd1 |].
    apply Z.bits_inj'. intros n Hn.
    rewrite Z.lor_spec, !Z.land_spec, testbit_ones32 by lia.
    destruct (Z.ltb_spec n 32) as [Hlt | Hge].
    + unfold w1, s1. cbn [st_dist]. rewrite Hb by lia.
      rewrite !andb_true_r. reflexivity.
    + rewrite !andb_false_r, (word_high_bits W n) by lia. reflexivity.
Qed.

Lemma read_switch_ISPENDR0 (d : gic_dist_map) (vcpu : vm_vcpu_t) :
  read_switch d vcpu GIC_DIST_ISPENDR0
  = Some (arr_get 0 (pending_set0 d) (vcpu_id vcpu)).
Proof. reflexivity. Qed.

Lemma icpendr0_loop (vcpu : vm_vcpu_t) (data : Z) (s : state) :
  0 <= data < 2 ^ 32 ->
  exists s',
    bit_loop 32 data
      (fun irq => vgic_dist_clr_pending_irq vcpu (irq + (GIC_DIST_ICPENDR0 - 0x280) * 8) ;;;
                  ret tt) s
    = Some (tt, s')
    /\ st_vgic s' = st_vgic s /\ st_log s' = st_log s
    /\ forall j, 0 <= j < 32 ->
         Z.testbit (arr_get 0 (pending_set0 (st_dist s')) (vcpu_id vcpu)) j
         = Z.testbit (arr_get 0 (pending_set0 (st_dist s)) (vcpu_id vcpu)) j
           && negb (Z.testbit data j).
Proof.
  intros Hdata.
  set (Inv := fun (k : Z) (t : state) =>
    st_vgic t = st_vgic s /\ st_log t = st_log s
    /\ forall j, 0 <= j < 32 ->
         Z.testbit (arr_get 0 (pending_set0 (st_dist t)) (vcpu_id vcpu)) j
         = Z.testbit (arr_get 0 (pending_set0 (st_dist s)) (vcpu_id vcpu)) j
           && negb (Z.testbit data j && (j <? k))).
  destruct (bit_loop_rule
              (fun irq => vgic_dist_clr_pending_irq vcpu
                            (irq + (GIC_DIST_ICPENDR0 - 0x280) * 8) ;;; ret tt)
              Inv data Hdata) with (fuel := 32%nat) (k := 0) (rest := data) (s := s)
    as (s' & Hrun & (Hv & Hl & Hb)).
  - intros c t Hc Hbit (Hv & Hl & Hb).
    replace (c + (GIC_DIST_ICPENDR0 - 0x280) * 8) with c by (unfold GIC_DIST_ICPENDR0; lia).
    eexists. split; [reflexivity |].
    unfold Inv. cbn [st_dist st_vgic st_log].
    unfold set_pending, set_sgi_ppi_pending.
    unfold GIC_SPI_IRQ_MIN, NUM_SGI_VIRQS, NUM_PPI_VIRQS.
    destruct (Z.ltb_spec c (16 + 16)) as [_ | Hge]; [| lia]. cbn.
    split; [exact Hv |]. split; [exact Hl |].
    intros j Hj. rewrite cleared_word_testbit, Hb by lia.
    rewrite Z.eqb_refl, (Z.mod_small c 32) by lia. cbn [andb].
    destruct (Z.eqb_spec j c) as [-> | Hne].
    + rewrite Hbit. destruct (Z.ltb_spec c c), (Z.ltb_spec c (c + 1)); try lia;
        rewrite ?andb_false_r; reflexivity.
    + destruct (Z.ltb_spec j c), (Z.ltb_spec j (c + 1)); try lia;
        rewrite ?andb_true_r, ?andb_false_r; reflexivity.
  - intros c t Hc Hbit (Hv & Hl & Hb).
    unfold Inv. split; [exact Hv |]. split; [exact Hl |].
    intros j Hj. rewrite Hb by lia.
    destruct (Z.eqb_spec j c) as [-> | Hne].
    + rewrite Hbit. reflexivity.
    + destruct (Z.ltb_spec j c), (Z.ltb_spec j (c + 1)); try lia; reflexivity.
  - lia.
  - lia.
  - exact Hdata.
  - intros j Hj. destruct (Z.leb_spec 0 j); [| lia]. rewrite andb_true_r. reflexivity.
  - unfold Inv. split; [reflexivity |]. split; [reflexivity |].
    intros j Hj. destruct (Z.ltb_spec j 0); [lia |].
    rewrite andb_false_r, andb_true_r. reflexivity.
  - exists s'. split; [exact Hrun |]. split; [exact Hv |]. split; [exact Hl |].
    intros j Hj. rewrite Hb by lia.
    destruct (Z.ltb_spec j 32); [| lia]. rewrite andb_true_r. reflexivity.
Qed.

(** X21.  ICPENDR0 and ISPENDR0.  After a guest write of [W] to ICPENDR0
    a read of ISPENDR0 by the same vCPU returns [prior & ~W], where [prior]
    is what the read returned before the write: unlike the enable bits of
    SGIs, the pending bits of SGIs are cleared too.  Only the distributor
    image changes; the overflow ring and [lr_shadow] keep what they hold. *)
Theorem icpendr0_then_ispendr0 (e0 e1 e2 : env) (dev : vgic_dist_device)
    (vcpu : vm_vcpu_t) (W : Z) (s : state) :
  0 <= W < 2 ^ 32 ->
  exists prior s0 s1 s2,
    guest_reads e0 dev vcpu GIC_DIST_ISPENDR0 s prior s0
    /\ handle_vgic_dist_fault e1 dev vcpu (write_fault dev GIC_DIST_ICPENDR0 W) s0
       = Some (fault_result (ignore_fault_err e1), s1)
    /\ guest_reads e2 dev vcpu GIC_DIST_ISPENDR0 s1 (Z.land prior (Z.lnot W)) s2
    /\ st_vgic s1 = st_vgic s.
Proof.
  intros HW.
  set (w := arr_get 0 (pending_set0 (st_dist s)) (vcpu_id vcpu)).
  pose proof (guest_reads_word e0 dev vcpu GIC_DIST_ISPENDR0 s w
                (read_switch_ISPENDR0 _ _)) as Hrd0.
  set (s0 := mk_state (st_dist s) (st_vgic s)
               (st_log s ++ [EvFaultSetData (Z.land w 0xFFFFFFFF); EvAdvanceFault])) in *.
  destruct (icpendr0_loop vcpu W s0 HW) as (t & Hloop & Hv & Hl & Hb).
  set (s1 := mk_state (st_dist t) (st_vgic t) (st_log t ++ [EvIgnoreFault])).
  set (w1 := arr_get 0 (pending_set0 (st_dist s1)) (vcpu_id vcpu)).
  pose proof (guest_reads_word e2 dev vcpu GIC_DIST_ISPENDR0 s1 w1
                (read_switch_ISPENDR0 _ _)) as Hrd1.
  exists (Z.land w 0xFFFFFFFF), s0, s1. eexists.
  split; [exact Hrd0 |]. split; [| split].
  - unfold handle_vgic_dist_fault, write_fault. cbn [fault_is_read].
    unfold handle_vgic_dist_write_fault. cbn [fault_get_address].
    replace (pstart dev + GIC_DIST_ICPENDR0 - pstart dev)
      with GIC_DIST_ICPENDR0 by lia.
    rewrite write_switch_ICPENDR by reflexivity.
    cbn [fault_get_data fault_get_data_mask].
    unfold bind at 1. rewrite (full_mask_data W HW), Hloop. reflexivity.
  - replace (Z.land (Z.land w 0xFFFFFFFF) (Z.lnot W)) with (Z.land w1 0xFFFFFFFF);
      [exact Hrd1 |].
    apply Z.bits_inj'. intros n Hn.
    rewrite !Z.land_spec, Z.lnot_spec, testbit_ones32 by lia.
    destruct (Z.ltb_spec n 32) as [Hlt | Hge].
    + unfold w1, s1. cbn [st_dist]. rewrite Hb by lia.
      rewrite !andb_true_r. reflexivity.
    + rewrite !andb_false_r. reflexivity.
  - exact Hv.
Qed.

(** ** The shared enable registers *)

Lemma read_switch_ISENABLER_shared (d : gic_dist_map) (vcpu : vm_vcpu_t) (m : Z) :
  1 <= m <= 31 ->
  read_switch d vcpu (GIC_DIST_ISENABLER0 + 4 * m)
  = Some (arr_get 0 (enable_set d) (m - 1)).
Proof.
  intros Hm. unfold read_switch. unfold_regs.
  repeat match goal with
  | |- context [if RANGE32 ?a ?b ?o then _ else _] =>
      destruct (RANGE32_spec a b o);
        [first [exfalso; lia | do 2 f_equal; unfold GIC_DIST_REGN; mlia]
        | try (exfalso; lia)]
  end.
Qed.

Lemma shared_irq_word (c n : Z) :
  0 <= c < 32 -> 0 <= n -> (c + 32 * n) / 32 = n /\ (c + 32 * n) mod 32 = c.
Proof. intros Hc Hn. mlia. Qed.

Lemma isenabler_shared_loop (vcpu : vm_vcpu_t) (n data : Z) (s : state) :
  0 <= data < 2 ^ 32 ->
  vcpu_id vcpu < CONFIG_MAX_NUM_NODES ->
  1 <= n < Z.of_nat (length (enable_set (st_dist s))) ->
  exists s',
    bit_loop 32 data
      (fun irq => vgic_dist_enable_irq vcpu
                    (irq + (GIC_DIST_ISENABLER0 + 4 * n - GIC_DIST_ISENABLER0) * 8) ;;;
                  ret tt) s
    = Some (tt, s')
    /\ st_vgic s' = st_vgic s
    /\ forall k j, 0 <= j < 32 ->
         Z.testbit (arr_get 0 (enable_set (st_dist s')) k) j
         = Z.testbit (arr_get 0 (enable_set (st_dist s)) k) j
           || ((k =? n) && Z.testbit data j).
Proof.
  intros Hdata Hid Hword.
  set (Inv := fun (c : Z) (t : state) =>
    st_vgic t = st_vgic s
    /\ length (enable_set (st_dist t)) = length (enable_set (st_dist s))
    /\ forall k j, 0 <= j < 32 ->
         Z.testbit (arr_get 0 (enable_set (st_dist t)) k) j
         = Z.testbit (arr_get 0 (enable_set (st_dist s)) k) j
           || ((k =? n) && Z.testbit data j && (j <? c))).
  destruct (bit_loop_rule
              (fun irq => vgic_dist_enable_irq vcpu
                    (irq + (GIC_DIST_ISENABLER0 + 4 * n - GIC_DIST_ISENABLER0) * 8) ;;;
                  ret tt)
              Inv data Hdata) with (fuel := 32%nat) (k := 0) (rest := data) (s := s)
    as (s' & Hrun & (Hv & Hlen & Hb)).
  - intros c t Hc Hbit (Hv & Hlen & Hb).
    replace (c + (GIC_DIST_ISENABLER0 + 4 * n - GIC_DIST_ISENABLER0) * 8)
      with (c + 32 * n) by lia.
    destruct (vgic_dist_enable_irq_run vcpu (c + 32 * n) t Hid) as (r & _ & Hrun).
    eexists. split; [unfold bind; rewrite Hrun; reflexivity |].
    unfold Inv. cbn [st_dist st_vgic].
    unfold set_enable, set_spi_enable.
    unfold GIC_SPI_IRQ_MIN, NUM_SGI_VIRQS, NUM_PPI_VIRQS.
    destruct (Z.ltb_spec (c + 32 * n) (16 + 16)) as [Hlt | _]; [lia |]. cbn.
    destruct (shared_irq_word c n) as [Hq Hr]; [lia | lia |].
    rewrite IRQ_IDX_nonneg, Hq by lia.
    split; [exact Hv |]. split; [rewrite arr_set_length; exact Hlen |].
    intros k j Hj. rewrite set_word_testbit, Hb, Hr, Hlen by lia.
    destruct (Z.eqb_spec k n) as [-> | Hk]; cbn [andb].
    + destruct (Z.leb_spec 0 n); [| lia].
      destruct (Z.ltb_spec n (Z.of_nat (length (enable_set (st_dist s))))); [| lia].
      cbn [andb].
      destruct (Z.eqb_spec j c) as [-> | Hne].
      * rewrite Hbit. destruct (Z.ltb_spec c c), (Z.ltb_spec c (c + 1)); try lia;
          rewrite ?orb_true_r; reflexivity.
      * rewrite orb_false_r.
        destruct (Z.ltb_spec j c), (Z.ltb_spec j (c + 1)); try lia; reflexivity.
    + rewrite !orb_false_r. reflexivity.
  - intros c t Hc Hbit (Hv & Hlen & Hb).
    unfold Inv. split; [exact Hv |]. split; [exact Hlen |].
    intros k j Hj. rewrite Hb by lia.
    destruct (Z.eqb_spec j c) as [-> | Hne].
    + rewrite Hbit. rewrite !andb_false_r. reflexivity.
    + destruct (Z.ltb_spec j c), (Z.ltb_spec j (c + 1)); try lia; reflexivity.
  - lia.
  - lia.
  - exact Hdata.
  - intros j Hj. destruct (Z.leb_spec 0 j); [| lia]. rewrite andb_true_r. reflexivity.
  - unfold Inv. split; [reflexivity |]. split; [reflexivity |].
    intros k j Hj. destruct (Z.ltb_spec j 0); [lia |].
    rewrite andb_false_r, orb_false_r. reflexivity.
  - exists s'. split; [exact Hrun |]. split; [exact Hv |].
    intros k j Hj. rewrite Hb by lia.
    destruct (Z.ltb_spec j 32); [| lia]. rewrite andb_true_r. reflexivity.
Qed.

Lemma guest_reads_value (e : env) (dev : vgic_dist_device) (vcpu : vm_vcpu_t)
    (off : Z) (s : state) (w v : Z) :
  read_switch (st_dist s) vcpu off = Some w ->
  v = Z.land w 0xFFFFFFFF ->
  exists s', guest_reads e dev vcpu off s v s'.
Proof.
  intros Hw ->. eexists. apply guest_reads_word. exact Hw.
Qed.

(** X22.  The shared enable registers are read one word below the word
    they are written to.  A guest write of [W] to ISENABLERn, for n from 1 to
    30, sets the enable bits of the interrupts 32n to 32n+31 that [W] names
    ([is_enabled] answers for them accordingly), in the word [enable_set[n]].
    A read of ISENABLERn returns the word [enable_set[n-1]]: it returns
    after the write what it returned before, and it is the read of
    ISENABLER(n+1) that shows the bits of [W]. *)
Theorem isenabler_shared_write_reads_one_up (e : env) (dev : vgic_dist_device)
    (vcpu : vm_vcpu_t) (n W : Z) (s : state) :
  1 <= n <= 30 ->
  0 <= W < 2 ^ 32 ->
  vcpu_id vcpu < CONFIG_MAX_NUM_NODES ->
  n < Z.of_nat (length (enable_set (st_dist s))) ->
  exists same next s1 sa sb sc sd,
    guest_reads e dev vcpu (GIC_DIST_ISENABLER0 + 4 * n) s same sa
    /\ guest_reads e dev vcpu (GIC_DIST_ISENABLER0 + 4 * (n + 1)) s next sb
    /\ handle_vgic_dist_fault e dev vcpu
         (write_fault dev (GIC_DIST_ISENABLER0 + 4 * n) W) s
       = Some (fault_result (ignore_fault_err e), s1)
    /\ guest_reads e dev vcpu (GIC_DIST_ISENABLER0 + 4 * n) s1 same sc
    /\ guest_reads e dev vcpu (GIC_DIST_ISENABLER0 + 4 * (n + 1)) s1 (Z.lor next W) sd
    /\ forall j, 0 <= j < 32 ->
         is_enabled (st_dist s1) (32 * n + j) (vcpu_id vcpu)
         = is_enabled (st_dist s) (32 * n + j) (vcpu_id vcpu) || Z.testbit W j.
Proof.
  intros Hn HW Hid Hword.
  destruct (isenabler_shared_loop vcpu n W s HW Hid) as (t & Hloop & Hv & Hb); [lia |].
  set (s1 := mk_state (st_dist t) (st_vgic t) (st_log t ++ [EvIgnoreFault])).
  assert (Hwrite : handle_vgic_dist_fault e dev vcpu
                     (write_fault dev (GIC_DIST_ISENABLER0 + 4 * n) W) s
                   = Some (fault_result (ignore_fault_err e), s1)).
  { unfold handle_vgic_dist_fault, write_fault. cbn [fault_is_read].
    unfold handle_vgic_dist_write_fault. cbn [fault_get_address].
    replace (pstart dev + (GIC_DIST_ISENABLER0 + 4 * n) - pstart dev)
      with (GIC_DIST_ISENABLER0 + 4 * n) by lia.
    rewrite write_switch_ISENABLER.
    2: { destruct (RANGE32_spec GIC_DIST_ISENABLER0 GIC_DIST_ISENABLERN
                     (GIC_DIST_ISENABLER0 + 4 * n)) as [_ | Hout]; [reflexivity |].
         exfalso. apply Hout. unfold_regs. lia. }
    cbn [fault_get_data fault_get_data_mask].
    unfold bind at 1. rewrite (full_mask_data W HW), Hloop. reflexivity. }
  destruct (guest_reads_value e dev vcpu (GIC_DIST_ISENABLER0 + 4 * n) s _ _
              (read_switch_ISENABLER_shared _ _ n ltac:(lia)) eq_refl) as [sa Ha].
  destruct (guest_reads_value e dev vcpu (GIC_DIST_ISENABLER0 + 4 * (n + 1)) s _ _
              (read_switch_ISENABLER_shared _ _ (n + 1) ltac:(lia)) eq_refl) as [sb Hrb].
  destruct (guest_reads_value e dev vcpu (GIC_DIST_ISENABLER0 + 4 * n) s1
              _ (Z.land (arr_get 0 (enable_set (st_dist s)) (n - 1)) 0xFFFFFFFF)
              (read_switch_ISENABLER_shared _ _ n ltac:(lia))) as [sc Hc].
  { apply Z.bits_inj'. intros j Hj. rewrite !Z.land_spec, testbit_ones32 by lia.
    destruct (Z.ltb_spec j 32) as [Hlt | Hge]; [| rewrite !andb_false_r; reflexivity].
    unfold s1. cbn [st_dist]. rewrite Hb by lia.
    destruct (Z.eqb_spec (n - 1) n); [lia |]. rewrite orb_false_r. reflexivity. }
  destruct (guest_reads_value e dev vcpu (GIC_DIST_ISENABLER0 + 4 * (n + 1)) s1
              _ (Z.lor (Z.land (arr_get 0 (enable_set (st_dist s)) (n + 1 - 1)) 0xFFFFFFFF) W)
              (read_switch_ISENABLER_shared _ _ (n + 1) ltac:(lia))) as [sd Hd].
  { apply Z.bits_inj'. intros j Hj.
    rewrite Z.lor_spec, !Z.land_spec, testbit_ones32 by lia.
    destruct (Z.ltb_spec j 32) as [Hlt | Hge].
    - unfold s1. cbn [st_dist]. rewrite Hb by lia.
      destruct (Z.eqb_spec (n + 1 - 1) n); [| lia].
      rewrite !andb_true_r. reflexivity.
    - rewrite !andb_false_r, (word_high_bits W j) by lia. reflexivity. }
  eexists _, _, s1, sa, sb, sc, sd.
  split; [exact Ha |]. split; [exact Hrb |]. split; [exact Hwrite |].
  split; [exact Hc |]. split; [exact Hd |].
  intros j Hj. unfold is_enabled, is_spi_enabled.
  unfold GIC_SPI_IRQ_MIN, NUM_SGI_VIRQS, NUM_PPI_VIRQS.
  destruct (Z.ltb_spec (32 * n + j) (16 + 16)) as [Hlt | _]; [lia |].
  destruct (shared_irq_word j n) as [Hq Hr]; [lia | lia |].
  replace (32 * n + j) with (j + 32 * n) by lia.
  rewrite !land_IRQ_BIT_nonzero, IRQ_IDX_nonneg, Hq, Hr by lia.
  unfold s1. cbn [st_dist]. rewrite Hb by lia.
  rewrite Z.eqb_refl. reflexivity.
Qed.

(** ** The write-through registers *)

Lemma fault_emulate_full (dev : vgic_dist_device) (off W o : Z) :
  0 <= W < 2 ^ 32 -> u32 (fault_emulate (write_fault dev off W) o) = W.
Proof.
  intros HW. unfold fault_emulate, write_fault. cbn [fault_get_data fault_get_data_mask].
  change (u32 0xFFFFFFFF) with 0xFFFFFFFF.
  apply Z.bits_inj'. intros j Hj.
  rewrite u32_testbit, Z.lor_spec, !Z.land_spec, not32_testbit, testbit_ones32 by lia.
  destruct (Z.ltb_spec j 32) as [Hlt | Hge]; cbn.
  - rewrite andb_false_r, andb_true_r. reflexivity.
  - rewrite (word_high_bits W j) by lia. reflexivity.
Qed.

Lemma read_switch_IGROUPR_shared (d : gic_dist_map) (vcpu : vm_vcpu_t) (m : Z) :
  1 <= m <= 31 ->
  read_switch d vcpu (GIC_DIST_IGROUPR0 + 4 * m)
  = Some (arr_get 0 (irq_group d) (m - 1)).
Proof.
  intros Hm. unfold read_switch. unfold_regs.
  repeat match goal with
  | |- context [if RANGE32 ?a ?b ?o then _ else _] =>
      destruct (RANGE32_spec a b o);
        [first [exfalso; lia | do 2 f_equal; unfold GIC_DIST_REGN; mlia]
        | try (exfalso; lia)]
  end.
Qed.

Lemma write_switch_IGROUPR_shared (e : env) (vcpu : vm_vcpu_t) (f : fault_t) (m : Z) :
  1 <= m <= 31 ->
  write_switch e vcpu f (GIC_DIST_IGROUPR0 + 4 * m)
  = modify_dist (fun d => with_irq_group
      (arr_set (irq_group d) (m - 1)
         (u32 (fault_emulate f (arr_get 0 (irq_group d) (m - 1))))) d).
Proof.
  intros Hm.
  assert (Hreg : GIC_DIST_REGN (GIC_DIST_IGROUPR0 + 4 * m) GIC_DIST_IGROUPR1 = m - 1)
    by (unfold GIC_DIST_REGN; unfold_regs; mlia).
  unfold write_switch. rewrite Hreg. unfold_regs.
  repeat match goal with
  | |- context [if RANGE32 ?a ?b ?o then _ else _] =>
      destruct (RANGE32_spec a b o);
        [first [exfalso; lia | reflexivity] | try (exfalso; lia)]
  end.
Qed.

(** X23.  The group registers are plain storage.  After a guest write of
    [W] to IGROUPRn (n from 0 to 31, full data mask) a read of IGROUPRn
    returns [W].  IGROUPR0 is kept per vCPU: the write of one vCPU does not
    change what a vCPU with another id reads there.  Nothing but the
    distributor image changes. *)
Theorem igroupr_write_then_read (e0 e1 : env) (dev : vgic_dist_device)
    (vcpu : vm_vcpu_t) (n W : Z) (s : state) :
  0 <= n <= 31 ->
  0 <= W < 2 ^ 32 ->
  (if n =? 0 then 0 <= vcpu_id vcpu < Z.of_nat (length (irq_group0 (st_dist s)))
   else n - 1 < Z.of_nat (length (irq_group (st_dist s)))) ->
  exists s1 s2,
    handle_vgic_dist_fault e0 dev vcpu (write_fault dev (GIC_DIST_IGROUPR0 + 4 * n) W) s
    = Some (fault_result (ignore_fault_err e0), s1)
    /\ guest_reads e1 dev vcpu (GIC_DIST_IGROUPR0 + 4 * n) s1 W s2
    /\ st_vgic s1 = st_vgic s
    /\ forall vcpu', vcpu_id vcpu' <> vcpu_id vcpu ->
         read_switch (st_dist s1) vcpu' GIC_DIST_IGROUPR0
         = read_switch (st_dist s) vcpu' GIC_DIST_IGROUPR0.
Proof.
  intros Hn HW Hword.
  unfold handle_vgic_dist_fault, write_fault. cbn [fault_is_read].
  unfold handle_vgic_dist_write_fault. cbn [fault_get_address].
  replace (pstart dev + (GIC_DIST_IGROUPR0 + 4 * n) - pstart dev)
    with (GIC_DIST_IGROUPR0 + 4 * n) by lia.
  fold (write_fault dev (GIC_DIST_IGROUPR0 + 4 * n) W).
  destruct (Z.eqb_spec n 0) as [-> | Hn0].
  - change (GIC_DIST_IGROUPR0 + 4 * 0) with GIC_DIST_IGROUPR0.
    change (write_switch e0 vcpu (write_fault dev GIC_DIST_IGROUPR0 W) GIC_DIST_IGROUPR0)
      with (modify_dist (fun d => with_irq_group0
              (arr_set (irq_group0 d) (vcpu_id vcpu)
                 (u32 (fault_emulate (write_fault dev GIC_DIST_IGROUPR0 W)
                         (arr_get 0 (irq_group0 d) (vcpu_id vcpu))))) d)).
    munfold. rewrite fault_emulate_full by exact HW.
    eexists. 
    destruct (guest_reads_value e1 dev vcpu GIC_DIST_IGROUPR0
                (mk_state (with_irq_group0
                             (arr_set (irq_group0 (st_dist s)) (vcpu_id vcpu) W) (st_dist s))
                   (st_vgic s) (st_log s ++ [EvIgnoreFault]))
                (arr_get 0 (arr_set (irq_group0 (st_dist s)) (vcpu_id vcpu) W) (vcpu_id vcpu))
                W eq_refl) as [s2 Hrd].
    { rewrite arr_get_set_eq by exact Hword. symmetry. apply land_ones32. exact HW. }
    exists s2. split; [reflexivity |]. split; [exact Hrd |]. split; [reflexivity |].
    intros vcpu' Hne.
    change (Some (arr_get 0 (arr_set (irq_group0 (st_dist s)) (vcpu_id vcpu) W) (vcpu_id vcpu'))
            = Some (arr_get 0 (irq_group0 (st_dist s)) (vcpu_id vcpu'))).
    rewrite arr_get_set_ne by exact Hne. reflexivity.
  - rewrite write_switch_IGROUPR_shared by lia.
    munfold. rewrite fault_emulate_full by exact HW.
    eexists.
    destruct (guest_reads_value e1 dev vcpu (GIC_DIST_IGROUPR0 + 4 * n)
                (mk_state (with_irq_group
                             (arr_set (irq_group (st_dist s)) (n - 1) W) (st_dist s))
                   (st_vgic s) (st_log s ++ [EvIgnoreFault]))
                _ W (read_switch_IGROUPR_shared _ _ n ltac:(lia))) as [s2 Hrd].
    { cbn [st_dist irq_group with_irq_group].
      rewrite arr_get_set_eq by lia. symmetry. apply land_ones32. exact HW. }
    exists s2. split; [reflexivity |]. split; [exact Hrd |]. split; [reflexivity |].
    intros vcpu' Hne. reflexivity.
Qed.

(** ** What every sequence of entry points keeps *)

(** X24.  The overflow rings stay in good order.  From a state in which
    every vCPU's ring is a well-formed ring, whatever sequence of guest
    faults, per-interrupt operations and registrations runs, every vCPU's
    ring is still a well-formed ring and holds at most
    [MAX_IRQ_QUEUE_LEN - 1] handlers. *)
Theorem overflow_rings_stay_in_order (s0 s : state) :
  wf_pipeline s0 -> reachable s0 s ->
  forall v, 0 <= v < CONFIG_MAX_NUM_NODES ->
    exists q l,
      irq_queue (st_vgic s) !! Z.to_nat v = Some q
      /\ ring_holds q l
      /\ Z.of_nat (length l) <= MAX_IRQ_QUEUE_LEN - 1.
Proof.
  intros Hwf Hreach v Hv.
  destruct (reachable_wf_pipeline s0 s Hwf Hreach v Hv) as (q & l & Hq & Hring).
  exists q, l. split; [exact Hq |]. split; [exact Hring |].
  destruct Hring as (_ & _ & Hlen & _). lia.
Qed.

Lemma virq_add_compact (vcpu : vm_vcpu_t) (h : virq_handle) :
  preserves (fun s => virqs_compact (st_vgic s)) (virq_add vcpu h).
Proof.
  intros s r s' Hc. unfold virq_add.
  destruct (virq h <? GIC_SPI_IRQ_MIN).
  - unfold virq_sgi_ppi_add. munfold.
    destruct (arr_get None _ _); intros Hb; inversion Hb; subst; exact Hc.
  - unfold virq_spi_add.
    destruct (virq_spi_add_loop_run (Z.to_nat MAX_VIRQS) 0 h s)
      as [[_ Hrun] | (k & Hk & Hfree & Hlow & Hrun)];
      rewrite Hrun; intros Hb; inversion Hb; subst; [exact Hc |].
    intros i j Hij. cbn [st_vgic virqs with_virqs]. rewrite !arr_get_set.
    destruct ((i =? k) && (0 <=? k) && (k <? Z.of_nat (length (virqs (st_vgic s)))))
      eqn:Hi; [discriminate |].
    intros Hnone.
    destruct ((j =? k) && (0 <=? k) && (k <? Z.of_nat (length (virqs (st_vgic s)))))
      eqn:Hj; [| apply (Hc i j Hij Hnone)].
    exfalso. assert (j = k) by lia. subst j.
    destruct (Z.eq_dec i k) as [-> | Hne]; [rewrite Hi in Hj; discriminate |].
    apply (Hlow i); [lia | exact Hnone].
Qed.

Lemma registered_virqs_compact (s : state) :
  registered s -> virqs_compact (st_vgic s).
Proof.
  induction 1 as [s [_ Hempty] | s vcpu h r s' _ IH Hadd].
  - intros i j _ _. apply Hempty.
  - exact (virq_add_compact vcpu h s r s' IH Hadd).
Qed.

Lemma virq_find_spi_loop_none_from (n : nat) (i : Z) (g : vgic_t) (v : Z) :
  (forall j, i <= j -> arr_get None (virqs g) j = None) ->
  virq_find_spi_loop n i g v = None.
Proof.
  revert i. induction n as [| n IH]; intros i Hnone; [reflexivity |].
  rewrite virq_find_spi_loop_S, (Hnone i) by lia.
  apply IH. intros j Hj. apply Hnone. lia.
Qed.

Lemma virq_find_spi_loop_agree (n : nat) (i k : Z) (g g' : vgic_t) (v : Z)
    (h : virq_handle) :
  virq_find_spi_loop n i g v = Some h ->
  (forall j, j < k -> arr_get None (virqs g') j = arr_get None (virqs g) j) ->
  (forall j, k <= j -> arr_get None (virqs g) j = None) ->
  virq_find_spi_loop n i g' v = Some h.
Proof.
  intros Hfind Hsame Hnone. revert i Hfind.
  induction n as [| n IH]; intros i Hfind; [discriminate |].
  destruct (Z_lt_ge_dec i k) as [Hlt | Hge].
  - rewrite virq_find_spi_loop_S in *. rewrite (Hsame i Hlt).
    destruct (arr_get None (virqs g) i) as [h0 |]; [| apply IH; exact Hfind].
    destruct (virq h0 =? v); [exact Hfind | apply IH; exact Hfind].
  - rewrite (virq_find_spi_loop_none_from (S n) i g v) in Hfind; [discriminate |].
    intros j Hj. apply Hnone. lia.
Qed.

Lemma virq_add_keeps_found (vcpu vcpu' : vm_vcpu_t) (v : Z) (h h' : virq_handle)
    (s s' : state) (r : Z) :
  virqs_compact (st_vgic s) ->
  virq_find_irq_data vcpu v s = Some (Some h, s) ->
  virq_add vcpu' h' s = Some (r, s') ->
  virq_find_irq_data vcpu v s' = Some (Some h, s').
Proof.
  intros Hc Hfind. unfold virq_add.
  destruct (virq h' <? GIC_SPI_IRQ_MIN).
  - unfold virq_sgi_ppi_add. munfold.
    destruct (arr_get None (arr_get [] (sgi_ppi_irq (st_vgic s)) (vcpu_id vcpu')) (virq h'))
      eqn:Hslot; intros Hb; inversion Hb; subst; clear Hb; [exact Hfind |].
    revert Hfind.
    unfold virq_find_irq_data, virq_get_sgi_ppi, virq_find_spi_irq_data. munfold.
    destruct (v <? GIC_SPI_IRQ_MIN).
    + destruct (vcpu_id vcpu <? CONFIG_MAX_NUM_NODES); simpl; [| discriminate].
      intros Hb. injection Hb as Hh. f_equal. f_equal.
      rewrite (arr_get_set [] (sgi_ppi_irq (st_vgic s))).
      destruct ((vcpu_id vcpu =? vcpu_id vcpu') && (0 <=? vcpu_id vcpu')
                && (vcpu_id vcpu' <? Z.of_nat (length (sgi_ppi_irq (st_vgic s)))))
        eqn:Hhit; [| exact Hh].
      assert (Hsame : vcpu_id vcpu = vcpu_id vcpu') by lia.
      rewrite Hsame in Hh. rewrite arr_get_set.
      destruct ((v =? virq h') && _ && _) eqn:Hhit2; [| exact Hh].
      assert (v = virq h') by lia. subst v. rewrite Hslot in Hh. discriminate.
    + intros Hb. injection Hb as Hh.
      match goal with
      | |- Some (virq_find_spi_loop ?n ?i ?g1 ?v, ?t) = _ =>
          rewrite (virq_find_spi_loop_ext n i g1 (st_vgic s) v eq_refl)
      end.
      rewrite Hh. reflexivity.
  - unfold virq_spi_add.
    destruct (virq_spi_add_loop_run (Z.to_nat MAX_VIRQS) 0 h' s)
      as [[_ Hrun] | (k & Hk & Hfree & Hlow & Hrun)];
      rewrite Hrun; intros Hb; inversion Hb; subst; clear Hb; [exact Hfind |].
    revert Hfind.
    unfold virq_find_irq_data, virq_get_sgi_ppi, virq_find_spi_irq_data. munfold.
    destruct (v <? GIC_SPI_IRQ_MIN).
    + destruct (vcpu_id vcpu <? CONFIG_MAX_NUM_NODES); simpl; [| discriminate].
      intros Hb. injection Hb as Hh. rewrite Hh. reflexivity.
    + intros Hb. injection Hb as Hh.
      cbn [st_vgic].
      rewrite (virq_find_spi_loop_agree _ _ k (st_vgic s) _ v h Hh).
      * reflexivity.
      * intros j Hj. cbn [virqs with_virqs]. apply arr_get_set_ne. lia.
      * intros j Hj. apply (Hc k j); [lia | exact Hfree].
Qed.

(** X25.  A registered handler is permanent.  In a state built by
    registrations from empty tables, the handler that the lookup finds for
    an interrupt number and a vCPU is found again, unchanged, after every
    sequence of guest faults, per-interrupt operations and further
    registrations: no entry point removes or replaces a handler. *)
Theorem registered_handler_is_permanent (vcpu : vm_vcpu_t) (v : Z) (h : virq_handle)
    (s0 s : state) :
  registered s0 ->
  virq_find_irq_data vcpu v s0 = Some (Some h, s0) ->
  reachable s0 s ->
  virq_find_irq_data vcpu v s = Some (Some h, s).
Proof.
  intros Hreg Hfind Hreach.
  set (I := fun t : state =>
              virqs_compact (st_vgic t)
              /\ virq_find_irq_data vcpu v t = Some (Some h, t)).
  assert (Hign : ignores_pipeline I).
  { intros t lr q lg [Hc Hf]. split; [exact Hc |].
    apply (virq_find_irq_data_tables vcpu v t); [reflexivity .. | exact Hf]. }
  apply (reachable_inv I) with (s0 := s0).
  - intros t d [Hc Hf]. split; [exact Hc |].
    apply (virq_find_irq_data_tables vcpu v t); [reflexivity .. | exact Hf].
  - intros t l [Hc Hf]. split; [exact Hc |].
    apply (virq_find_irq_data_tables vcpu v t); [reflexivity .. | exact Hf].
  - intros e vcpu0 irq. apply vgic_dist_set_pending_irq_steps.
    + intros t d [Hc Hf]. split; [exact Hc |].
      apply (virq_find_irq_data_tables vcpu v t); [reflexivity .. | exact Hf].
    + intros h'. apply vgic_irq_enqueue_frame. exact Hign.
    + intros e'.
      apply preserves_bind; [apply vgic_find_empty_list_reg_frame |]. intros idx.
      destruct (idx <? 0); [apply preserves_ret |].
      apply preserves_bind; [apply vgic_irq_dequeue_frame; exact Hign |].
      intros [x |]; [| apply preserves_abort].
      apply vgic_vcpu_load_list_reg_frame. exact Hign.
  - intros vcpu' h' t r t' [Hc Hf] Hadd. split.
    + exact (virq_add_compact vcpu' h' t r t' Hc Hadd).
    + exact (virq_add_keeps_found vcpu vcpu' v h h' t t' r Hc Hf Hadd).
  - split; [apply registered_virqs_compact; exact Hreg | exact Hfind].
  - exact Hreach.
Qed.

Lemma virq_add_lr_shadow (vcpu : vm_vcpu_t) (h : virq_handle)
    (lr : list (list (option virq_handle))) :
  preserves (fun s => lr_shadow (st_vgic s) = lr) (virq_add vcpu h).
Proof.
  unfold virq_add. destruct (virq h <? GIC_SPI_IRQ_MIN).
  - unfold virq_sgi_ppi_add. pres.
  - unfold virq_spi_add. generalize 0. generalize (Z.to_nat MAX_VIRQS).
    induction n as [| n IH]; intros i; [apply preserves_ret |].
    rewrite virq_spi_add_loop_S. pres. apply IH.
Qed.

(** X26.  A list register shadow entry is never overwritten.  Once
    [lr_shadow] holds a handler in a slot of a vCPU, that slot holds that
    handler after every sequence of guest faults, per-interrupt operations
    and registrations: an injection only ever writes to a slot that
    [vgic_find_empty_list_reg] found empty, and nothing in the two files
    clears a slot. *)
Theorem lr_shadow_entry_is_kept (v i : Z) (h : virq_handle) (s0 s : state) :
  arr_get None (arr_get [] (lr_shadow (st_vgic s0)) v) i = Some h ->
  reachable s0 s ->
  arr_get None (arr_get [] (lr_shadow (st_vgic s)) v) i = Some h.
Proof.
  intros Hslot Hreach.
  apply (reachable_inv
           (fun t => arr_get None (arr_get [] (lr_shadow (st_vgic t)) v) i = Some h))
    with (s0 := s0).
  - intros t d H. exact H.
  - intros t l H. exact H.
  - intros e0 vcpu0 irq. apply vgic_dist_set_pending_irq_steps;
      [intros t d H; exact H | |].
    { intros x t a t' Ht. unfold vgic_irq_enqueue. munfold.
      destruct (_ =? _); intros Hb; inversion Hb; subst; exact Ht. }
    set (vcpu := vcpu0).
    intros e t a t' Ht. unfold bind at 1.
    rewrite vgic_find_empty_list_reg_run.
    pose proof (find_empty_list_reg_loop_lowest (Z.to_nat NUM_LIST_REGS) 0
                  (arr_get [] (lr_shadow (st_vgic t)) (vcpu_id vcpu))) as Hidx.
    cbv zeta in Hidx.
    set (idx := find_empty_list_reg_loop (Z.to_nat NUM_LIST_REGS) 0
                  (arr_get [] (lr_shadow (st_vgic t)) (vcpu_id vcpu))) in *.
    destruct (Z.ltb_spec idx 0) as [Hneg | Hpos];
      [intros Hb; inversion Hb; subst; exact Ht |].
    destruct Hidx as [[Hm _] | (_ & Hfree & _)]; [lia |].
    unfold vgic_irq_dequeue, vgic_vcpu_load_list_reg, vgic_shadow_irq. munfold.
    destruct (negb _); [| discriminate].
    match goal with
    | |- match ?o with Some _ => _ | None => _ end _ = _ -> _ =>
        destruct o as [x |]; [| discriminate]
    end.
    intros Hb. inversion Hb; subst; clear Hb.
    cbn [st_vgic lr_shadow with_lr_shadow with_irq_queue].
    rewrite arr_get_set.
    destruct ((v =? vcpu_id vcpu) && _ && _) eqn:Hhit; [| exact Ht].
    assert (v = vcpu_id vcpu) by lia. subst v.
    rewrite arr_get_set.
    destruct ((i =? idx) && _ && _) eqn:Hhit2; [| exact Ht].
    assert (i = idx) by lia. subst i. rewrite Hfree in Ht. discriminate.
  - intros vcpu x t a t' Ht Hadd.
    rewrite (virq_add_lr_shadow vcpu x (lr_shadow (st_vgic t)) t a t' eq_refl Hadd).
    exact Ht.
  - exact Hslot.
  - exact Hreach.
Qed.

Lemma vgic_dist_set_pending_irq_wf (e : env) (vcpu : vm_vcpu_t) (irq : Z) :
  preserves wf_pipeline (vgic_dist_set_pending_irq e vcpu irq).
Proof.
  apply vgic_dist_set_pending_irq_steps.
  - intros t d H. exact H.
  - apply vgic_irq_enqueue_wf.
  - intros e'.
    apply preserves_bind; [apply vgic_find_empty_list_reg_frame |]. intros idx.
    destruct (idx <? 0); [apply preserves_ret |].
    apply preserves_bind; [apply vgic_irq_dequeue_wf |].
    intros [x |]; [| apply preserves_abort].
    intros t a t' Ht. unfold vgic_vcpu_load_list_reg, vgic_shadow_irq. munfold.
    intros H. inversion H; subst. exact Ht.
Qed.

Lemma lookup_arr_set_other {A : Type} (l : list A) (i j : Z) (x : A) :
  0 <= j -> j <> i -> arr_set l i x !! Z.to_nat j = l !! Z.to_nat j.
Proof.
  intros Hj Hne. unfold arr_set. destruct (Z.ltb_spec i 0); [reflexivity |].
  apply list_lookup_insert_ne. lia.
Qed.

(** An injection for one vCPU leaves the ring and the list register
    shadows of every other vCPU alone. *)
Lemma vgic_dist_set_pending_irq_other_vcpu (e : env) (vcpu : vm_vcpu_t) (irq v : Z)
    (Q : option irq_queue_t) (R : list (option virq_handle)) :
  0 <= v -> v <> vcpu_id vcpu ->
  preserves (fun t => irq_queue (st_vgic t) !! Z.to_nat v = Q
                      /\ arr_get [] (lr_shadow (st_vgic t)) v = R)
    (vgic_dist_set_pending_irq e vcpu irq).
Proof.
  intros Hv Hne. apply vgic_dist_set_pending_irq_steps.
  - intros t d H. exact H.
  - intros h t a t' [HQ HR]. unfold vgic_irq_enqueue. munfold.
    destruct (_ =? _); intros Hb; injection Hb as _ <-;
      [split; assumption |].
    cbn [st_vgic irq_queue lr_shadow with_irq_queue].
    rewrite lookup_arr_set_other by assumption. split; assumption.
  - intros e'.
    apply preserves_bind; [apply vgic_find_empty_list_reg_frame |]. intros idx.
    destruct (idx <? 0); [apply preserves_ret |].
    apply preserves_bind.
    + intros t a t' [HQ HR]. unfold vgic_irq_dequeue. munfold.
      destruct (negb _); intros Hb; injection Hb as _ <-;
        [| split; assumption].
      cbn [st_vgic irq_queue lr_shadow with_irq_queue].
      rewrite lookup_arr_set_other by assumption. split; assumption.
    + intros [x |]; [| apply preserves_abort].
      intros t a t' [HQ HR]. unfold vgic_vcpu_load_list_reg, vgic_shadow_irq. munfold.
      intros Hb. injection Hb as _ <-.
      cbn [st_vgic irq_queue lr_shadow with_lr_shadow].
      rewrite arr_get_set_ne by assumption. split; assumption.
Qed.

Lemma vgic_dist_set_pending_irq_queued (e : env) (vcpu : vm_vcpu_t) (irq : Z) :
  preserves (fun t => wf_pipeline t /\ queued_behind_full_registers t)
    (vgic_dist_set_pending_irq e vcpu irq).
Proof.
  intros s r s1 [Hwf HJ] Hrun.
  split; [exact (vgic_dist_set_pending_irq_wf e vcpu irq s r s1 Hwf Hrun) |].
  intros v q Hv Hq1 Hne.
  destruct (Z.eq_dec v (vcpu_id vcpu)) as [-> | Hother].
  2: { destruct (vgic_dist_set_pending_irq_other_vcpu e vcpu irq v
                   (irq_queue (st_vgic s) !! Z.to_nat v)
                   (arr_get [] (lr_shadow (st_vgic s)) v)
                   ltac:(lia) Hother s r s1 (conj eq_refl eq_refl) Hrun) as [HQ HR].
       rewrite HR. apply (HJ v q Hv); [rewrite <- HQ; exact Hq1 | exact Hne]. }
  destruct (Hwf (vcpu_id vcpu) Hv) as (q0 & l & Hq0 & Hring).
  pose proof (vgic_dist_set_pending_irq_dist e vcpu irq s s1 r Hrun) as (_ & _ & Hcase).
  destruct (virq_find_irq_data vcpu irq s) as [[[h |] sf] |] eqn:Hfind;
    [| destruct Hcase as [-> _]; apply (HJ _ q Hv Hq1 Hne) | contradiction].
  pose proof (virq_find_irq_data_state vcpu irq s sf _ Hfind) as ->.
  destruct (gic_dist_is_enabled (st_dist s)) eqn:Hen; cbn [negb orb] in Hcase;
    [| destruct Hcase as [-> _]; apply (HJ _ q Hv Hq1 Hne)].
  destruct (is_enabled (st_dist s) irq (vcpu_id vcpu)) eqn:Hirq; cbn [negb] in Hcase;
    [| destruct Hcase as [-> _]; apply (HJ _ q Hv Hq1 Hne)].
  destruct (is_pending (st_dist s) (virq h) (vcpu_id vcpu)) eqn:Hnp;
    [destruct Hcase as [-> _]; apply (HJ _ q Hv Hq1 Hne) |].
  clear Hcase.
  rewrite (vgic_dist_set_pending_irq_run e vcpu irq s h q0 l _
             Hfind Hen Hirq Hnp ltac:(lia) Hq0 Hring
             (vgic_find_empty_list_reg_run vcpu s)) in Hrun.
  cbv zeta in Hrun.
  pose proof (find_empty_list_reg_loop_lowest (Z.to_nat NUM_LIST_REGS) 0
                (arr_get [] (lr_shadow (st_vgic s)) (vcpu_id vcpu))) as Hidx.
  cbv zeta in Hidx.
  set (idx := find_empty_list_reg_loop (Z.to_nat NUM_LIST_REGS) 0
                (arr_get [] (lr_shadow (st_vgic s)) (vcpu_id vcpu))) in *.
  destruct (Z.eqb_spec (IRQ_QUEUE_NEXT (tail q0)) (head q0)) as [Hfull | Hroom].
  { inversion Hrun; subst; clear Hrun. apply (HJ _ q Hv Hq1 Hne). }
  destruct (Z.ltb_spec idx 0) as [Hneg | Hpos].
  { inversion Hrun; subst; clear Hrun.
    cbn [st_vgic lr_shadow with_queue_of with_irq_queue].
    destruct Hidx as [[Hm _] | (Hr & _)]; [exact Hm | lia]. }
  exfalso.
  assert (Hl : l = []).
  { apply (ring_holds_empty_iff q0 l Hring).
    destruct (Z.eq_dec (head q0) (tail q0)) as [Heq | Hneq]; [exact Heq |].
    pose proof (HJ _ q0 Hv Hq0 Hneq) as Hm. fold idx in Hm. lia. }
  subst l. cbn [app] in Hrun.
  pose proof (ring_holds_enqueue q0 [] h Hring Hroom) as Hring3.
  destruct (ring_holds_dequeue _ h [] Hring3) as [_ Hring4].
  inversion Hrun; subst; clear Hrun.
  cbn [st_vgic irq_queue with_lr_shadow with_irq_queue] in Hq1.
  rewrite lookup_arr_set, Z.eqb_refl, arr_set_length in Hq1 by lia.
  pose proof (lookup_lt_Some _ _ _ Hq0) as Hlen.
  destruct (Z.ltb_spec (vcpu_id vcpu) (Z.of_nat (length (irq_queue (st_vgic s)))));
    [| lia].
  cbn [andb] in Hq1. inversion Hq1; subst q. clear Hq1.
  apply Hne. apply (ring_holds_empty_iff _ [] Hring4). reflexivity.
Qed.

(** X27.  Handlers wait in a ring only behind full list registers.  The
    property that a vCPU's overflow ring is non-empty only while
    [vgic_find_empty_list_reg] finds no empty list register for that vCPU is
    kept by every sequence of guest faults, per-interrupt operations and
    registrations (started with well-formed rings): an injection that finds
    an empty register takes out of the ring what it has put in, and nothing
    in the two files empties a register. *)
Theorem handlers_wait_behind_full_registers (s0 s : state) :
  wf_pipeline s0 ->
  queued_behind_full_registers s0 ->
  reachable s0 s ->
  forall vcpu q,
    0 <= vcpu_id vcpu < CONFIG_MAX_NUM_NODES ->
    irq_queue (st_vgic s) !! Z.to_nat (vcpu_id vcpu) = Some q ->
    head q <> tail q ->
    vgic_find_empty_list_reg vcpu s = Some (-1, s).
Proof.
  intros Hwf HJ Hreach.
  assert (Hs : wf_pipeline s /\ queued_behind_full_registers s).
  { apply (reachable_inv (fun t => wf_pipeline t /\ queued_behind_full_registers t))
      with (s0 := s0).
    - intros t d H. exact H.
    - intros t l H. exact H.
    - apply vgic_dist_set_pending_irq_queued.
    - intros vcpu h t a t' [Hw Hq] Hadd.
      pose proof (virq_add_irq_queue vcpu h (irq_queue (st_vgic t)) t a t' eq_refl Hadd)
        as HQ.
      pose proof (virq_add_lr_shadow vcpu h (lr_shadow (st_vgic t)) t a t' eq_refl Hadd)
        as HR.
      split.
      + intros v Hv. rewrite HQ. apply Hw, Hv.
      + intros v q Hv Hq1 Hne. rewrite HR. rewrite HQ in Hq1.
        apply (Hq v q Hv Hq1 Hne).
    - split; assumption.
    - exact Hreach. }
  intros vcpu q Hv Hq Hne. rewrite vgic_find_empty_list_reg_run.
  rewrite (proj2 Hs (vcpu_id vcpu) q Hv Hq Hne). reflexivity.
Qed.

(** ** Disabling an interrupt *)

Lemma is_enabled_set_enable_false (d : gic_dist_map) (irq v : Z) :
  0 <= irq -> is_enabled (set_enable d irq false v) irq v = false.
Proof.
  intros Hirq.
  assert (Hm : 0 <= irq mod 32 < 32) by (apply Z.mod_pos_bound; lia).
  unfold is_enabled, set_enable, is_sgi_ppi_enabled, is_spi_enabled,
    set_sgi_ppi_enable, set_spi_enable.
  destruct (irq <? GIC_SPI_IRQ_MIN); cbn;
    rewrite land_IRQ_BIT_nonzero, cleared_word_testbit, !Z.eqb_refl by lia;
    apply andb_false_r.
Qed.

Lemma vgic_dist_set_pending_irq_not_enabled (e : env) (vcpu : vm_vcpu_t) (irq : Z)
    (t : state) :
  vcpu_id vcpu < CONFIG_MAX_NUM_NODES ->
  is_enabled (st_dist t) irq (vcpu_id vcpu) = false ->
  vgic_dist_set_pending_irq e vcpu irq t = Some (-1, t).
Proof.
  intros Hid Hdis.
  destruct (virq_find_irq_data_returns vcpu irq t Hid) as [o Ho].
  unfold vgic_dist_set_pending_irq. unfold bind at 1, get_dist.
  unfold bind at 1. rewrite Ho. destruct o as [h |]; [| reflexivity].
  rewrite Hdis, orb_true_r. reflexivity.
Qed.

(** X28.  A disabled interrupt cannot be injected.  After
    [vgic_dist_disable_irq] for a PPI or a shared interrupt (number 16 or
    above), [is_enabled] answers false for it and every
    [vgic_dist_set_pending_irq] for it returns -1 and leaves the state as it
    is, until the interrupt is enabled again.  (An SGI cannot be disabled:
    for a number below 16 the call changes nothing.) *)
Theorem disable_irq_blocks_injection (vcpu : vm_vcpu_t) (irq : Z) (s : state) :
  NUM_SGI_VIRQS <= irq ->
  vcpu_id vcpu < CONFIG_MAX_NUM_NODES ->
  exists s1,
    vgic_dist_disable_irq vcpu irq s = Some (0, s1)
    /\ is_enabled (st_dist s1) irq (vcpu_id vcpu) = false
    /\ st_vgic s1 = st_vgic s /\ st_log s1 = st_log s
    /\ forall e, vgic_dist_set_pending_irq e vcpu irq s1 = Some (-1, s1).
Proof.
  intros Hirq Hid. unfold vgic_dist_disable_irq.
  destruct (Z.leb_spec NUM_SGI_VIRQS irq) as [_ | Hlt]; [| lia].
  munfold. eexists. split; [reflexivity |].
  assert (Hoff : is_enabled (set_enable (st_dist s) irq false (vcpu_id vcpu)) irq
                   (vcpu_id vcpu) = false)
    by (apply is_enabled_set_enable_false; unfold NUM_SGI_VIRQS in Hirq; lia).
  split; [exact Hoff |]. split; [reflexivity |]. split; [reflexivity |].
  intros e. apply vgic_dist_set_pending_irq_not_enabled; [exact Hid | exact Hoff].
Qed.

Lemma full_ring_holds (h : virq_handle) :
  ring_holds (full_ring h) (replicate 63 h).
Proof.
  unfold ring_holds, full_ring, MAX_IRQ_QUEUE_LEN. cbn [irqs head tail].
  rewrite !length_replicate.
  split; [reflexivity |]. split; [lia |]. split; [lia |]. split; [reflexivity |].
  intros k x Hk. apply lookup_replicate in Hk as [-> Hk].
  rewrite arr_get_replicate.
  assert (Hm : 0 <= (0 + Z.of_nat k) mod 64 < 64) by (apply Z.mod_pos_bound; lia).
  destruct (Z.leb_spec 0 ((0 + Z.of_nat k) mod 64)); [| lia].
  destruct (Z.ltb_spec ((0 + Z.of_nat k) mod 64) (Z.of_nat 64)); [reflexivity | lia].
Qed.

End VGIC.

(** * The statements at concrete machines *)

(** C4 on the code.  Two registrations of the shared interrupt 42 through
    [virq_add] both succeed, and the global table then holds two distinct
    entries with the same [virq]: [virq_spi_add] takes the first empty slot
    and never looks for the number, unlike [virq_sgi_ppi_add], which refuses
    a slot that is taken. *)
Theorem virq_spi_add_keeps_duplicate :
  exists s1 s2,
    virq_add boot_vcpu uart_irq (state_init 1 32) = Some (0, s1)
    /\ virq_add boot_vcpu uart_irq_again s1 = Some (0, s2)
    /\ arr_get None (virqs (st_vgic s2)) 0 = Some uart_irq
    /\ arr_get None (virqs (st_vgic s2)) 1 = Some uart_irq_again
    /\ virq uart_irq = virq uart_irq_again
    /\ uart_irq <> uart_irq_again.
Proof.
  eexists. eexists.
  split; [vm_compute; reflexivity |].
  split; [vm_compute; reflexivity |].
  split; [vm_compute; reflexivity |].
  split; [vm_compute; reflexivity |].
  split; [reflexivity | discriminate].
Qed.



Lemma vgic_dist_set_pending_irq_rejects_witness :
  vcpu_id boot_vcpu < 1
  /\ vgic_dist_set_pending_irq 1 env_ok boot_vcpu 42 (state_init 1 32)
     = Some (-1, state_init 1 32).
Proof.
  split; [simpl; lia |].
  apply (vgic_dist_set_pending_irq_rejects 1 env_ok boot_vcpu 42 (state_init 1 32)).
  - simpl. lia.
  - left. vm_compute. reflexivity.
Defined.

Lemma vgic_dist_set_pending_irq_idempotent_witness :
  vgic_dist_set_pending_irq 1 env_ok boot_vcpu 42
    (state_after 1 ops_spi42_pending (state_init 1 32))
  = Some (0, state_after 1 ops_spi42_pending (state_init 1 32)).
Proof.
  apply (vgic_dist_set_pending_irq_idempotent 1 env_ok boot_vcpu 42
           (state_after 1 ops_spi42_pending (state_init 1 32)) uart_irq).
  - vm_compute. reflexivity.
  - reflexivity.
  - vm_compute. reflexivity.
  - vm_compute. reflexivity.
  - vm_compute. reflexivity.
Defined.


Lemma icenabler0_then_isenabler0_witness :
  exists prior s0 s1 s2,
    guest_reads 1 env_ok dev0 boot_vcpu GIC_DIST_ISENABLER0
      (state_after 1 ops_sgi0_enabled (state_init 1 32)) prior s0
    /\ handle_vgic_dist_fault 1 env_ok dev0 boot_vcpu
         (write_fault dev0 GIC_DIST_ICENABLER0 0x10001) s0
       = Some (fault_result (ignore_fault_err env_ok), s1)
    /\ guest_reads 1 env_ok dev0 boot_vcpu GIC_DIST_ISENABLER0 s1
         (Z.land prior (Z.lnot (Z.land 0x10001 0xFFFF0000))) s2.
Proof.
  apply (icenabler0_then_isenabler0 1 env_ok env_ok env_ok dev0 boot_vcpu 0x10001
           (state_after 1 ops_sgi0_enabled (state_init 1 32))).
  split; [discriminate | reflexivity].
Defined.

(** C6 as stated fails on register 0: with SGI 0 enabled the guest reads 1
    from ISENABLER0, writes 1 to ICENABLER0, and reads 1 again, not
    [1 & ~1 = 0]. *)
Lemma icenabler_roundtrip_counterexample : ~ icenabler_roundtrip_law 1.
Proof.
  intros H.
  set (s := state_after 1 ops_sgi0_enabled (state_init 1 32)).
  set (s0 := mk_state (st_dist s) (st_vgic s)
               (st_log s ++ [EvFaultSetData 1; EvAdvanceFault])).
  set (s1 := mk_state (st_dist s0) (st_vgic s0) (st_log s0 ++ [EvIgnoreFault])).
  set (s2 := mk_state (st_dist s1) (st_vgic s1)
               (st_log s1 ++ [EvFaultSetData 1; EvAdvanceFault])).
  assert (Hc : 1 = Z.land 1 (Z.lnot 1)).
  { apply (H env_ok env_ok env_ok dev0 boot_vcpu 0 1 s s0 s1 s2 1 1 FAULT_HANDLED).
    - lia.
    - split; [lia | reflexivity].
    - split; [vm_compute; reflexivity | reflexivity].
    - vm_compute. reflexivity.
    - split; [vm_compute; reflexivity | reflexivity]. }
  vm_compute in Hc. discriminate.
Qed.


Lemma irq_queue_ring_discipline_witness :
  ring_holds (mk_irq_queue (replicate 64 None) 0 0) []
  /\ vgic_irq_dequeue boot_vcpu (state_init 1 32) = Some (None, state_init 1 32).
Proof.
  assert (Hring : ring_holds (mk_irq_queue (replicate 64 None) 0 0) []).
  { unfold ring_holds, MAX_IRQ_QUEUE_LEN. simpl.
    split; [reflexivity |]. split; [lia |]. split; [lia |].
    split; [reflexivity |]. intros k x Hk. destruct k; discriminate. }
  split; [exact Hring |].
  exact (proj2 (proj2 (proj2 (proj2
    (irq_queue_ring_discipline boot_vcpu (state_init 1 32)
       (mk_irq_queue (replicate 64 None) 0 0) [] uart_irq
       ltac:(simpl; lia) eq_refl Hring))))).
Defined.

Lemma virq_find_irq_data_virq_witness :
  registered (state_after 1 [(env_ok, OpVirqAdd boot_vcpu uart_irq)] (state_init 1 32))
  /\ virq uart_irq = 42.
Proof.
  assert (Hreg : registered
            (state_after 1 [(env_ok, OpVirqAdd boot_vcpu uart_irq)] (state_init 1 32))).
  { apply (registered_add (state_init 1 32) boot_vcpu uart_irq 0).
    - apply registered_init. apply tables_empty_init.
    - vm_compute. reflexivity. }
  split; [exact Hreg |].
  apply (virq_find_irq_data_virq 1 boot_vcpu 42
           (state_after 1 [(env_ok, OpVirqAdd boot_vcpu uart_irq)] (state_init 1 32))
           (state_after 1 [(env_ok, OpVirqAdd boot_vcpu uart_irq)] (state_init 1 32))
           uart_irq Hreg).
  vm_compute. reflexivity.
Defined.


(** The shared banks are written at word [irq / 32] and read at word
    [(offset - base of register 1) / 4]: interrupt 42, enabled and set
    pending through ISENABLER1 and ISPENDR1, does not show in a read of
    ISPENDR1; its bit shows one register further on. *)
Example spi_registers_read_one_word_off :
  is_pending (st_dist (state_after 1 ops_spi42_pending (state_init 1 32))) 42 0 = true
  /\ read_switch (st_dist (state_after 1 ops_spi42_pending (state_init 1 32)))
       boot_vcpu GIC_DIST_ISPENDR1 = Some 0
  /\ read_switch (st_dist (state_after 1 ops_spi42_pending (state_init 1 32)))
       boot_vcpu (GIC_DIST_ISPENDR1 + 4) = Some (Z.shiftl 1 10).
Proof. vm_compute. repeat split. Qed.

(** ** The further properties at concrete machines *)

Lemma virq_add_spi_first_free_witness :
  exists s', virq_add boot_vcpu uart_irq (state_init 1 32) = Some (0, s')
             /\ arr_get None (virqs (st_vgic s')) 0 = Some uart_irq.
Proof.
  destruct (virq_add_spi_first_free boot_vcpu uart_irq (state_init 1 32))
    as [[Hfull _] | (k & s' & Hk & Hfree & Hlow & Hrun & Hs' & Hslot)].
  - vm_compute. discriminate.
  - reflexivity.
  - exfalso. apply (Hfull 0); [vm_compute; split; [discriminate | reflexivity] |].
    vm_compute. reflexivity.
  - exists s'. split; [exact Hrun |].
    assert (k = 0) as ->; [| exact Hslot].
    destruct (Z.eq_dec k 0) as [-> | Hne]; [reflexivity |].
    exfalso. apply (Hlow 0); [lia |]. vm_compute. reflexivity.
Defined.

Lemma virq_add_spi_then_find_witness :
  virq_find_irq_data 1 boot_vcpu 42
    (state_after 1 [(env_ok, OpVirqAdd boot_vcpu uart_irq)] (state_init 1 32))
  = Some (Some uart_irq,
          state_after 1 [(env_ok, OpVirqAdd boot_vcpu uart_irq)] (state_init 1 32)).
Proof.
  apply (proj1 (proj2 (virq_add_spi_then_find 1 boot_vcpu uart_irq (state_init 1 32)
                  (state_after 1 [(env_ok, OpVirqAdd boot_vcpu uart_irq)] (state_init 1 32))
                  ltac:(vm_compute; discriminate) eq_refl
                  ltac:(vm_compute; reflexivity) boot_vcpu))).
  vm_compute. reflexivity.
Defined.

Lemma virq_add_sgi_ppi_then_find_witness :
  virq_find_irq_data 1 boot_vcpu 27
    (state_after 1 [(env_ok, OpVirqAdd boot_vcpu timer_irq)] (state_init 1 32))
  = Some (Some timer_irq,
          state_after 1 [(env_ok, OpVirqAdd boot_vcpu timer_irq)] (state_init 1 32)).
Proof.
  apply (proj1 (virq_add_sgi_ppi_then_find 1 boot_vcpu timer_irq (state_init 1 32)
                  (state_after 1 [(env_ok, OpVirqAdd boot_vcpu timer_irq)] (state_init 1 32))
                  ltac:(vm_compute; reflexivity) ltac:(vm_compute; reflexivity)
                  ltac:(vm_compute; repeat split; discriminate)
                  ltac:(vm_compute; reflexivity))).
Defined.

Lemma virq_add_sgi_ppi_refuses_taken_witness :
  virq_add boot_vcpu (virq_init 27 4 400)
    (state_after 1 [(env_ok, OpVirqAdd boot_vcpu timer_irq)] (state_init 1 32))
  = Some (-1, state_after 1 [(env_ok, OpVirqAdd boot_vcpu timer_irq)] (state_init 1 32)).
Proof.
  apply (virq_add_sgi_ppi_refuses_taken 1 boot_vcpu (virq_init 27 4 400) timer_irq
           (state_after 1 [(env_ok, OpVirqAdd boot_vcpu timer_irq)] (state_init 1 32))).
  - vm_compute. reflexivity.
  - vm_compute. reflexivity.
Defined.

Lemma set_enable_is_enabled_witness :
  is_enabled (set_enable (dist_zero 1 32) 42 true 0) 42 0 = true
  /\ is_enabled (set_enable (dist_zero 1 32) 42 true 0) 43 0 = false.
Proof.
  split.
  - exact (proj1 (set_enable_is_enabled (dist_zero 1 32) 42 0 true 42 0
                    ltac:(lia) ltac:(lia) ltac:(vm_compute; reflexivity))).
  - exact (proj1 (set_enable_is_enabled (dist_zero 1 32) 42 0 true 43 0
                    ltac:(lia) ltac:(lia) ltac:(vm_compute; reflexivity))).
Defined.

Lemma set_pending_is_pending_witness :
  is_pending (set_pending (dist_zero 2 32) 27 true 1) 27 1 = true
  /\ is_pending (set_pending (dist_zero 2 32) 27 true 1) 27 0 = false.
Proof.
  split.
  - exact (proj1 (set_pending_is_pending (dist_zero 2 32) 27 1 true 27 1
                    ltac:(lia) ltac:(lia)
                    ltac:(vm_compute; split; [discriminate | reflexivity]))).
  - exact (proj1 (set_pending_is_pending (dist_zero 2 32) 27 1 true 27 0
                    ltac:(lia) ltac:(lia)
                    ltac:(vm_compute; split; [discriminate | reflexivity]))).
Defined.

Lemma bitmap_write_runs_each_set_bit_witness :
  handle_vgic_dist_write_fault 1 env_ok dev0 boot_vcpu
    (write_fault dev0 GIC_DIST_ICENABLER1 0x5) (state_init 1 32)
  = (for_each [0; 2]
       (fun j => bind (vgic_dist_disable_irq boot_vcpu (j + 32)) (fun _ => ret tt)) ;;;
     emit EvIgnoreFault ;;; ret FAULT_HANDLED) (state_init 1 32).
Proof.
  exact (proj1 (proj2 (bitmap_write_runs_each_set_bit 1 env_ok dev0 boot_vcpu
                         (write_fault dev0 GIC_DIST_ICENABLER1 0x5) (state_init 1 32)))
           eq_refl).
Defined.

Lemma set_pending_loads_oldest_queued_witness :
  exists s',
    vgic_dist_set_pending_irq 1 env_ok boot_vcpu 42
      (state_after 1 ops_spi42_enabled (state_init 1 32)) = Some (0, s')
    /\ lr_shadow (st_vgic s') = [[Some uart_irq; None; None; None]]
    /\ st_log s'
       = st_log (state_after 1 ops_spi42_enabled (state_init 1 32))
         ++ [EvLoadListReg 0 0 42].
Proof.
  destruct (set_pending_loads_oldest_queued 1 env_ok boot_vcpu 42
              (state_after 1 ops_spi42_enabled (state_init 1 32)) uart_irq
              (mk_irq_queue (replicate 64 None) 0 0) [] 0)
    as (x & l' & q' & s' & Hx & Hrun & _ & _ & _ & Hlr & _ & _ & Hlog).
  - vm_compute. reflexivity.
  - vm_compute. reflexivity.
  - vm_compute. reflexivity.
  - vm_compute. reflexivity.
  - simpl. lia.
  - vm_compute. reflexivity.
  - apply ring_holds_empty; [reflexivity | unfold MAX_IRQ_QUEUE_LEN; lia].
  - simpl. unfold MAX_IRQ_QUEUE_LEN. lia.
  - vm_compute. reflexivity.
  - lia.
  - inversion Hx; subst x l'. exists s'.
    split; [exact Hrun |]. split; [| exact Hlog].
    rewrite Hlr. vm_compute. reflexivity.
Defined.

Lemma set_pending_queues_without_free_register_witness :
  exists q' s',
    vgic_dist_set_pending_irq 1 env_ok boot_vcpu 46
      (state_after 1 ops_four_loaded (state_init 1 32)) = Some (0, s')
    /\ irq_queue (st_vgic s') !! 0%nat = Some q'
    /\ ring_holds q' [spi_irq 46]
    /\ lr_shadow (st_vgic s')
       = [[Some (spi_irq 42); Some (spi_irq 43); Some (spi_irq 44); Some (spi_irq 45)]].
Proof.
  assert (Hring : ring_holds
            (arr_get no_queue
               (irq_queue (st_vgic (state_after 1 ops_four_loaded (state_init 1 32)))) 0)
            []).
  { unfold ring_holds.
    split; [vm_compute; reflexivity |].
    split; [vm_compute; split; [discriminate | reflexivity] |].
    split; [vm_compute; reflexivity |].
    split; [vm_compute; reflexivity |].
    intros k x Hk. destruct k; discriminate. }
  destruct (set_pending_queues_without_free_register 1 env_ok boot_vcpu 46
              (state_after 1 ops_four_loaded (state_init 1 32)) (spi_irq 46)
              _ [] (-1)
              ltac:(vm_compute; reflexivity) ltac:(vm_compute; reflexivity)
              ltac:(vm_compute; reflexivity) ltac:(vm_compute; reflexivity)
              ltac:(simpl; lia) ltac:(vm_compute; reflexivity) Hring
              ltac:(simpl; unfold MAX_IRQ_QUEUE_LEN; lia)
              ltac:(vm_compute; reflexivity) ltac:(lia))
    as (q' & s' & Hrun & _ & Hq' & Hring' & Hlr & _).
  exists q', s'. split; [exact Hrun |]. split; [exact Hq' |].
  split; [exact Hring' |]. rewrite Hlr. vm_compute. reflexivity.
Defined.

Lemma set_pending_into_full_ring_witness :
  vgic_dist_set_pending_irq 1 env_ok boot_vcpu 42
    (with_queue_of 0 (full_ring (spi_irq 50))
       (state_after 1 ops_spi42_enabled (state_init 1 32)))
  = Some (-1,
          mk_state
            (set_pending (st_dist (state_after 1 ops_spi42_enabled (state_init 1 32)))
               42 true 0)
            (st_vgic (with_queue_of 0 (full_ring (spi_irq 50))
                        (state_after 1 ops_spi42_enabled (state_init 1 32))))
            (st_log (state_after 1 ops_spi42_enabled (state_init 1 32)))).
Proof.
  exact (proj1 (set_pending_into_full_ring 1 env_ok boot_vcpu 42
                  (with_queue_of 0 (full_ring (spi_irq 50))
                     (state_after 1 ops_spi42_enabled (state_init 1 32)))
                  uart_irq (full_ring (spi_irq 50)) (replicate 63 (spi_irq 50))
                  ltac:(vm_compute; reflexivity) ltac:(vm_compute; reflexivity)
                  ltac:(vm_compute; reflexivity) ltac:(vm_compute; reflexivity)
                  ltac:(simpl; lia) ltac:(vm_compute; reflexivity)
                  (full_ring_holds (spi_irq 50))
                  ltac:(vm_compute; reflexivity))).
Defined.

Lemma write_fault_read_only_offsets_witness :
  handle_vgic_dist_write_fault 1 env_ok dev0 boot_vcpu
    (write_fault dev0 GIC_DIST_IPRIORITYR8 0xA0A0A0A0) (state_init 1 32)
  = Some (FAULT_HANDLED,
          mk_state (dist_zero 1 32) (vgic_init 1) [EvIgnoreFault]).
Proof.
  exact (write_fault_read_only_offsets 1 env_ok dev0 boot_vcpu
           (write_fault dev0 GIC_DIST_IPRIORITYR8 0xA0A0A0A0) (state_init 1 32) eq_refl).
Defined.

Lemma sgi_pending_write_asserts_witness :
  handle_vgic_dist_fault 1 env_ok dev0 boot_vcpu
    (write_fault dev0 GIC_DIST_SPENDSGIR0 1) (state_init 1 32) = None.
Proof.
  exact (proj1 (proj2 (sgi_pending_write_asserts 1 env_ok dev0 boot_vcpu
                         (write_fault dev0 GIC_DIST_SPENDSGIR0 1) (state_init 1 32)
                         eq_refl)) eq_refl).
Defined.

Lemma sgir_reserved_filter_sends_nothing_witness :
  handle_vgic_dist_fault 4 env_ok dev0 quad_vcpu0
    (write_fault dev0 GIC_DIST_SGIR (Z.shiftl 3 24 + 5)) (state_init 4 32)
  = Some (FAULT_HANDLED, mk_state (dist_zero 4 32) (vgic_init 4) [EvIgnoreFault]).
Proof.
  exact (sgir_reserved_filter_sends_nothing 4 env_ok dev0 quad_vcpu0
           (Z.shiftl 3 24 + 5) (state_init 4 32)
           ltac:(vm_compute; split; [discriminate | reflexivity]) eq_refl).
Defined.

Lemma ctlr_write_then_read_witness :
  exists prior s0 s1 s2,
    guest_reads 1 env_ok dev0 boot_vcpu GIC_DIST_CTLR (state_init 1 32) prior s0
    /\ handle_vgic_dist_fault 1 env_ok dev0 boot_vcpu
         (write_fault dev0 GIC_DIST_CTLR 1) s0
       = Some (FAULT_HANDLED, s1)
    /\ guest_reads 1 env_ok dev0 boot_vcpu GIC_DIST_CTLR s1 1 s2
    /\ gic_dist_is_enabled (st_dist s1) = true.
Proof.
  destruct (ctlr_write_then_read 1 env_ok env_ok env_ok dev0 boot_vcpu 1 (state_init 1 32))
    as (prior & s0 & s1 & s2 & Hr0 & Hw & Hr1 & Hen & _).
  - lia.
  - exists prior, s0, s1, s2. split; [exact Hr0 |]. split; [exact Hw |].
    split; [exact Hr1 | exact Hen].
Defined.

Lemma disabled_distributor_injects_nothing_witness :
  handle_vgic_dist_write_fault 1 env_ok dev0 boot_vcpu
    (write_fault dev0 GIC_DIST_ISPENDR0 0xFFFFFFFF) (state_init 1 32)
  = Some (FAULT_HANDLED, mk_state (dist_zero 1 32) (vgic_init 1) [EvIgnoreFault]).
Proof.
  exact (proj1 (disabled_distributor_injects_nothing 1 env_ok dev0 boot_vcpu
                  (write_fault dev0 GIC_DIST_ISPENDR0 0xFFFFFFFF) (state_init 1 32)
                  eq_refl ltac:(simpl; lia) ltac:(simpl; lia)) eq_refl).
Defined.


Lemma isenabler0_write_reads_back_witness :
  exists prior s0 s1 s2,
    guest_reads 1 env_ok dev0 boot_vcpu GIC_DIST_ISENABLER0 (state_init 1 32) prior s0
    /\ handle_vgic_dist_fault 1 env_ok dev0 boot_vcpu
         (write_fault dev0 GIC_DIST_ISENABLER0 0x10001) s0
       = Some (FAULT_HANDLED, s1)
    /\ guest_reads 1 env_ok dev0 boot_vcpu GIC_DIST_ISENABLER0 s1
         (Z.lor prior 0x10001) s2.
Proof.
  exact (isenabler0_write_reads_back 1 env_ok env_ok env_ok dev0 boot_vcpu 0x10001
           (state_init 1 32) ltac:(lia) ltac:(simpl; lia)
           ltac:(vm_compute; split; [discriminate | reflexivity])).
Defined.

Lemma icpendr0_then_ispendr0_witness :
  exists prior s0 s1 s2,
    guest_reads 1 env_ok dev0 boot_vcpu GIC_DIST_ISPENDR0 (state_init 1 32) prior s0
    /\ handle_vgic_dist_fault 1 env_ok dev0 boot_vcpu
         (write_fault dev0 GIC_DIST_ICPENDR0 0x10001) s0
       = Some (FAULT_HANDLED, s1)
    /\ guest_reads 1 env_ok dev0 boot_vcpu GIC_DIST_ISPENDR0 s1
         (Z.land prior (Z.lnot 0x10001)) s2
    /\ st_vgic s1 = st_vgic (state_init 1 32).
Proof.
  exact (icpendr0_then_ispendr0 1 env_ok env_ok env_ok dev0 boot_vcpu 0x10001
           (state_init 1 32) ltac:(lia)).
Defined.

Lemma isenabler_shared_write_reads_one_up_witness :
  exists same next s1 sa sb sc sd,
    guest_reads 1 env_ok dev0 boot_vcpu (GIC_DIST_ISENABLER0 + 4 * 1) (state_init 1 32)
      same sa
    /\ guest_reads 1 env_ok dev0 boot_vcpu (GIC_DIST_ISENABLER0 + 4 * (1 + 1))
         (state_init 1 32) next sb
    /\ handle_vgic_dist_fault 1 env_ok dev0 boot_vcpu
         (write_fault dev0 (GIC_DIST_ISENABLER0 + 4 * 1) (Z.shiftl 1 10)) (state_init 1 32)
       = Some (FAULT_HANDLED, s1)
    /\ guest_reads 1 env_ok dev0 boot_vcpu (GIC_DIST_ISENABLER0 + 4 * 1) s1 same sc
    /\ guest_reads 1 env_ok dev0 boot_vcpu (GIC_DIST_ISENABLER0 + 4 * (1 + 1)) s1
         (Z.lor next (Z.shiftl 1 10)) sd
    /\ is_enabled (st_dist s1) 42 0 = true.
Proof.
  destruct (isenabler_shared_write_reads_one_up 1 env_ok dev0 boot_vcpu 1 (Z.shiftl 1 10)
              (state_init 1 32))
    as (same & next & s1 & sa & sb & sc & sd & Ha & Hb & Hw & Hc & Hd & Hen).
  - lia.
  - vm_compute. split; [discriminate | reflexivity].
  - simpl. lia.
  - vm_compute. reflexivity.
  - exists same, next, s1, sa, sb, sc, sd.
    split; [exact Ha |]. split; [exact Hb |]. split; [exact Hw |].
    split; [exact Hc |]. split; [exact Hd |].
    change (is_enabled (st_dist s1) (32 * 1 + 10) (vcpu_id boot_vcpu) = true).
    rewrite (Hen 10 ltac:(lia)). vm_compute. reflexivity.
Defined.

Lemma igroupr_write_then_read_witness :
  exists s1 s2,
    handle_vgic_dist_fault 1 env_ok dev0 boot_vcpu
      (write_fault dev0 (GIC_DIST_IGROUPR0 + 4 * 2) 0xFF00) (state_init 1 32)
    = Some (FAULT_HANDLED, s1)
    /\ guest_reads 1 env_ok dev0 boot_vcpu (GIC_DIST_IGROUPR0 + 4 * 2) s1 0xFF00 s2.
Proof.
  destruct (igroupr_write_then_read 1 env_ok env_ok dev0 boot_vcpu 2 0xFF00
              (state_init 1 32))
    as (s1 & s2 & Hw & Hr & _).
  - lia.
  - lia.
  - vm_compute. reflexivity.
  - exists s1, s2. split; [exact Hw | exact Hr].
Defined.

Lemma overflow_rings_stay_in_order_witness :
  exists q l,
    irq_queue (st_vgic (state_after 1 ops_four_loaded (state_init 1 32))) !! 0%nat = Some q
    /\ ring_holds q l
    /\ Z.of_nat (length l) <= MAX_IRQ_QUEUE_LEN - 1.
Proof.
  exact (overflow_rings_stay_in_order 1 (state_init 1 32)
           (state_after 1 ops_four_loaded (state_init 1 32))
           (wf_pipeline_init 1 1 32 ltac:(simpl; lia))
           (state_after_reachable 1 ops_four_loaded (state_init 1 32))
           0 ltac:(lia)).
Defined.

Lemma registered_handler_is_permanent_witness :
  virq_find_irq_data 1 boot_vcpu 42
    (state_after 1 ops_four_loaded
       (state_after 1 [(env_ok, OpVirqAdd boot_vcpu uart_irq)] (state_init 1 32)))
  = Some (Some uart_irq,
          state_after 1 ops_four_loaded
            (state_after 1 [(env_ok, OpVirqAdd boot_vcpu uart_irq)] (state_init 1 32))).
Proof.
  apply (registered_handler_is_permanent 1 boot_vcpu 42 uart_irq
           (state_after 1 [(env_ok, OpVirqAdd boot_vcpu uart_irq)] (state_init 1 32))).
  - apply (registered_add (state_init 1 32) boot_vcpu uart_irq 0).
    + apply registered_init. apply tables_empty_init.
    + vm_compute. reflexivity.
  - vm_compute. reflexivity.
  - apply state_after_reachable.
Defined.

Lemma lr_shadow_entry_is_kept_witness :
  arr_get None
    (arr_get []
       (lr_shadow (st_vgic (state_after 1 ops_four_loaded
                              (state_after 1 ops_spi42_pending (state_init 1 32))))) 0) 0
  = Some uart_irq.
Proof.
  apply (lr_shadow_entry_is_kept 1 0 0 uart_irq
           (state_after 1 ops_spi42_pending (state_init 1 32))).
  - vm_compute. reflexivity.
  - apply state_after_reachable.
Defined.

Lemma handlers_wait_behind_full_registers_witness :
  vgic_find_empty_list_reg boot_vcpu
    (state_after 1 (ops_four_loaded ++ [(env_ok, OpSetPendingIrq boot_vcpu 46)])
       (state_init 1 32))
  = Some (-1,
          state_after 1 (ops_four_loaded ++ [(env_ok, OpSetPendingIrq boot_vcpu 46)])
            (state_init 1 32)).
Proof.
  apply (handlers_wait_behind_full_registers 1 (state_init 1 32)
           (state_after 1 (ops_four_loaded ++ [(env_ok, OpSetPendingIrq boot_vcpu 46)])
              (state_init 1 32))
           (wf_pipeline_init 1 1 32 ltac:(simpl; lia)))
    with (q := arr_get no_queue
                 (irq_queue (st_vgic
                    (state_after 1 (ops_four_loaded ++ [(env_ok, OpSetPendingIrq boot_vcpu 46)])
                       (state_init 1 32)))) 0).
  - intros v q Hv Hq Hne. exfalso. apply Hne.
    assert (v = 0) as -> by lia. vm_compute in Hq. inversion Hq. reflexivity.
  - apply state_after_reachable.
  - simpl. lia.
  - vm_compute. reflexivity.
  - vm_compute. discriminate.
Defined.

Lemma disable_irq_blocks_injection_witness :
  exists s1,
    vgic_dist_disable_irq boot_vcpu 42
      (state_after 1 ops_spi42_enabled (state_init 1 32)) = Some (0, s1)
    /\ vgic_dist_set_pending_irq 1 env_ok boot_vcpu 42 s1 = Some (-1, s1).
Proof.
  destruct (disable_irq_blocks_injection 1 boot_vcpu 42
              (state_after 1 ops_spi42_enabled (state_init 1 32)))
    as (s1 & Hrun & _ & _ & _ & Hrej).
  - vm_compute. discriminate.
  - simpl. lia.
  - exists s1. split; [exact Hrun | apply Hrej].
Defined.
